(** * ons-sample-rotation: the two pandas scripts, embedded and verified

    [preparing_sample_frame.py] merges paired locations, sums their turnover
    and outlets, filters the frame and reports duplicated pairings;
    [sampling_code.py] draws turnover-weighted replacement locations for each
    region.

    The scripts are sequences of pandas calls on DataFrame objects, some of
    them in place, with files written between the steps.  The development
    therefore has three layers:

    - a model of the pandas values the scripts touch (cells, rows,
      DataFrames, sheets on disk) and of the pandas operations they call;
    - a state-and-exception monad over a store of DataFrame objects, a file
      system, the random source and the module global [args];
    - the functions of the two scripts, written in that monad statement by
      statement, followed by the theorems about them.

    Modelling conventions.  Numeric columns are taken at dtype float64, the
    dtype pandas gives a numeric column as soon as it holds a missing value
    (a column of whole numbers without a missing value is int64 in pandas;
    the two agree on the whole numbers a float64 holds exactly).  A missing
    value is the float NaN, as in pandas.  Text is a Python str.  A path is
    its string ([str(path)]), in POSIX form. *)

From Stdlib Require Import List ZArith String Ascii Floats Bool Lia Arith.
From Stdlib Require Import DecimalString DecimalNat Uint63.
From Stdlib Require Import Permutation Sorted.
Import ListNotations.
Local Open Scope string_scope.
Local Open Scope list_scope.

(** ** Exceptions and outcomes *)

Inductive exn : Type :=
| KeyError (key : string)
| UndefinedVariableError (name : string)
| NameError (name : string)
| TypeError
| MergeError
| ValueError
| FileExistsError (msg : string)
| FileNotFoundError (p : string)
| IsADirectoryError (p : string)
| NotADirectoryError (p : string)
| DanglingReference.

Inductive outcome (A : Type) : Type :=
| Ok (a : A)
| Raise (e : exn).
Arguments Ok {A} a.
Arguments Raise {A} e.

Definition obind {A B} (m : outcome A) (k : A -> outcome B) : outcome B :=
  match m with
  | Ok a => k a
  | Raise e => Raise e
  end.

Declare Scope outcome_scope.
Delimit Scope outcome_scope with outcome.
Notation "x <-? m ;; k" := (obind m (fun x => k))
  (at level 100, m at next level, right associativity) : outcome_scope.
Local Open Scope outcome_scope.

(** ** Cells *)

Inductive cell : Type :=
| Num (x : float)
| Str (s : string).

Definition NaN : cell := Num nan.

(** [pd.isna] on one value. *)
Definition isna (c : cell) : bool :=
  match c with
  | Num x => is_nan x
  | Str _ => false
  end.

Definition is_num (c : cell) : bool :=
  match c with
  | Num _ => true
  | Str _ => false
  end.

(** Equality of keys as pandas' hash tables see it (used by [merge] and by
    [duplicated]): numbers compare as floats, every missing value equals
    every other missing value, text never equals a number. *)
Definition key_eqb (a b : cell) : bool :=
  match a, b with
  | Num x, Num y => (x =? y)%float || (is_nan x && is_nan y)
  | Str s, Str t => String.eqb s t
  | _, _ => false
  end.

(** Element-wise arithmetic.  Text added to text concatenates; any other
    mix of text and numbers is a [TypeError]. *)
Definition cell_add (a b : cell) : outcome cell :=
  match a, b with
  | Num x, Num y => Ok (Num (x + y)%float)
  | Str s, Str t => Ok (Str (s ++ t))
  | _, _ => Raise TypeError
  end.

Definition cell_truediv (a b : cell) : outcome cell :=
  match a, b with
  | Num x, Num y => Ok (Num (x / y)%float)
  | _, _ => Raise TypeError
  end.

Definition cell_mul_float (a : cell) (y : float) : outcome cell :=
  match a with
  | Num x => Ok (Num (x * y)%float)
  | Str _ => Raise TypeError
  end.

(** [value >= bound] for a numeric bound: false on NaN, [TypeError] on text. *)
Definition cell_ge (a : cell) (bound : float) : outcome bool :=
  match a with
  | Num x => Ok (bound <=? x)%float
  | Str _ => Raise TypeError
  end.

(** [value != k] for a numeric [k]: true on NaN and on text. *)
Definition cell_ne (a : cell) (k : float) : bool :=
  match a with
  | Num x => negb (x =? k)%float
  | Str _ => true
  end.

(** [value == other], element-wise: NaN equals nothing, text never equals a
    number. *)
Definition cell_eq (a b : cell) : bool :=
  match a, b with
  | Num x, Num y => (x =? y)%float
  | Str s, Str t => String.eqb s t
  | _, _ => false
  end.

(** ** Rows and DataFrames

    A row carries its index label and its cells by column name; a DataFrame
    lists its column names and its rows in order. *)

Record Row : Type := mkRow { label : Z; cells : list (string * cell) }.

Record DataFrame : Type := mkDF { columns : list string; rows : list Row }.

Definition mem (c : string) (l : list string) : bool := existsb (String.eqb c) l.

Fixpoint lookup (c : string) (l : list (string * cell)) : cell :=
  match l with
  | [] => NaN
  | (k, v) :: l' => if String.eqb c k then v else lookup c l'
  end.

Definition get (c : string) (r : Row) : cell := lookup c (cells r).

Fixpoint assign (c : string) (v : cell) (l : list (string * cell)) : list (string * cell) :=
  match l with
  | [] => [(c, v)]
  | (k, w) :: l' => if String.eqb c k then (k, v) :: l' else (k, w) :: assign c v l'
  end.

Definition set (c : string) (v : cell) (r : Row) : Row :=
  mkRow (label r) (assign c v (cells r)).

Definition add_column (c : string) (cols : list string) : list string :=
  if mem c cols then cols else cols ++ [c].

(** Every missing value of the row replaced by [v]. *)
Definition fillna_row (v : cell) (r : Row) : Row :=
  mkRow (label r)
        (map (fun kv => (fst kv, if isna (snd kv) then v else snd kv)) (cells r)).

Fixpoint nodupb (l : list string) : bool :=
  match l with
  | [] => true
  | c :: l' => negb (mem c l') && nodupb l'
  end.

(** Every row has exactly the frame's columns, and no column name repeats. *)
Definition wf_row (cols : list string) (r : Row) : Prop := map fst (cells r) = cols.

Definition wf (df : DataFrame) : Prop :=
  NoDup (columns df) /\ Forall (wf_row (columns df)) (rows df).

(** A fresh [RangeIndex]: labels 0, 1, 2, ... in row order. *)
Fixpoint relabel_from (n : Z) (l : list Row) : list Row :=
  match l with
  | [] => []
  | r :: l' => mkRow n (cells r) :: relabel_from (n + 1) l'
  end.

Definition relabel (l : list Row) : list Row := relabel_from 0 l.

(** Some cell of the column holds text. *)
Definition has_text (values : list cell) : bool := existsb (fun v => negb (is_num v)) values.

(** ** The pandas operations the scripts call *)

Module pd.

(** [df[c]]: the values of one column, in row order. *)
Definition getitem (c : string) (df : DataFrame) : outcome (list cell) :=
  if mem c (columns df) then Ok (map (get c) (rows df)) else Raise (KeyError c).

(** [df[[c1, c2, ...]]]: a new frame with the listed columns. *)
Definition getitem_list (cs : list string) (df : DataFrame) : outcome DataFrame :=
  match find (fun c => negb (mem c (columns df))) cs with
  | Some c => Raise (KeyError c)
  | None =>
      Ok (mkDF cs (map (fun r => mkRow (label r) (map (fun c => (c, get c r)) cs)) (rows df)))
  end.

(** [df[c] = values], the values having the frame's own index: column [c]
    is overwritten, or added as the last column. *)
Definition setitem (c : string) (values : list cell) (df : DataFrame) : DataFrame :=
  mkDF (add_column c (columns df))
       (map (fun rv => set c (snd rv) (fst rv)) (combine (rows df) values)).

(** [df.drop(columns=cs)]: a missing label is a [KeyError]. *)
Definition drop (cs : list string) (df : DataFrame) : outcome DataFrame :=
  match find (fun c => negb (mem c (columns df))) cs with
  | Some c => Raise (KeyError c)
  | None =>
      Ok (mkDF (filter (fun c => negb (mem c cs)) (columns df))
               (map (fun r => mkRow (label r)
                                (filter (fun kv => negb (mem (fst kv) cs)) (cells r)))
                    (rows df)))
  end.

(** [df.fillna(v)]. *)
Definition fillna (v : cell) (df : DataFrame) : DataFrame :=
  mkDF (columns df) (map (fillna_row v) (rows df)).

(** The name a right-hand column gets under [suffixes=(None, suffix)]: the
    suffix is added when the left frame has a column of the same name. *)
Definition suffixed (left_columns : list string) (suffix c : string) : string :=
  if mem c left_columns then (c ++ suffix)%string else c.

(** [pd.merge(left, right, how='left', left_on=.., right_on=..,
    suffixes=(None, suffix))] with two differently named keys, as both calls
    of the script have them.  Left rows keep their order; a left row with
    several partners is repeated once per partner, in the partners' order; a
    left row with none gets NaN in every right-hand column.  Missing keys
    match each other.  The result has a fresh index.  A suffixed name that
    collides with an existing one is a [MergeError].  A text key column
    cannot be merged with a numeric one: that is a [ValueError].  (A column
    counts as text when one of its cells holds text, which is how
    [read_excel] types it.) *)
Definition merge_left (left right : DataFrame) (left_on right_on suffix : string)
  : outcome DataFrame :=
  if negb (mem right_on (columns right)) then Raise (KeyError right_on)
  else if negb (mem left_on (columns left)) then Raise (KeyError left_on)
  else if xorb (has_text (map (get left_on) (rows left)))
               (has_text (map (get right_on) (rows right))) then Raise ValueError
  else
    let rename := suffixed (columns left) suffix in
    let cols := columns left ++ map rename (columns right) in
    if negb (nodupb cols) then Raise MergeError
    else
      let join (l : Row) : list Row :=
        match filter (fun r => key_eqb (get left_on l) (get right_on r)) (rows right) with
        | [] => [mkRow (label l)
                   (cells l ++ map (fun c => (rename c, NaN)) (columns right))]
        | partners =>
            map (fun r => mkRow (label l)
                            (cells l ++ map (fun c => (rename c, get c r)) (columns right)))
                partners
        end in
      Ok (mkDF cols (relabel (flat_map join (rows left)))).

(** [df[mask]] and [df.loc[mask]] for a boolean mask on the frame's index. *)
Definition boolean_index (mask : list bool) (df : DataFrame) : DataFrame :=
  mkDF (columns df) (map fst (filter snd (combine (rows df) mask))).

(** [df.duplicated(c, keep=False)]: a row is marked when the value of [c]
    occurs in the column at least twice. *)
Definition duplicated (c : string) (df : DataFrame) : outcome (list bool) :=
  values <-? getitem c df ;;
  Ok (map (fun v => (2 <=? List.length (filter (key_eqb v) values))%nat) values).

(** [df.reset_index(drop=True)]. *)
Definition reset_index (df : DataFrame) : DataFrame :=
  mkDF (columns df) (relabel (rows df)).

(** [df[:n]]: a negative [n] counts from the end. *)
Definition head (n : Z) (df : DataFrame) : DataFrame :=
  mkDF (columns df)
       (if (0 <=? n)%Z then firstn (Z.to_nat n) (rows df)
        else firstn (List.length (rows df) - Z.to_nat (- n)) (rows df)).

(** *** Series: the values of one column, in row order *)

Fixpoint series_map {B} (f : cell -> outcome B) (a : list cell) : outcome (list B) :=
  match a with
  | [] => Ok []
  | x :: a' => v <-? f x ;; vs <-? series_map f a' ;; Ok (v :: vs)
  end.

Fixpoint series_zip (f : cell -> cell -> outcome cell) (a b : list cell)
  : outcome (list cell) :=
  match a, b with
  | x :: a', y :: b' => v <-? f x y ;; vs <-? series_zip f a' b' ;; Ok (v :: vs)
  | _, _ => Ok []
  end.

(** [a + b] and [a / b] on two columns of one frame. *)
Definition add (a b : list cell) : outcome (list cell) := series_zip cell_add a b.
Definition truediv (a b : list cell) : outcome (list cell) := series_zip cell_truediv a b.

(** [a / total] for a scalar. *)
Definition truediv_scalar (a : list cell) (total : cell) : outcome (list cell) :=
  series_map (fun x => cell_truediv x total) a.

(** [a.sum()]: missing values are skipped; the empty sum is 0. *)
Fixpoint sum_from (acc : float) (a : list cell) : outcome cell :=
  match a with
  | [] => Ok (Num acc)
  | Num x :: a' => sum_from (if is_nan x then acc else (acc + x)%float) a'
  | Str _ :: _ => Raise TypeError
  end.

Definition sum (a : list cell) : outcome cell := sum_from 0%float a.

(** [a >= bound], [a != k], [a == v] and [m1 & m2]. *)
Definition ge (a : list cell) (bound : float) : outcome (list bool) :=
  series_map (fun x => cell_ge x bound) a.
Definition ne (a : list cell) (k : float) : list bool := map (fun x => cell_ne x k) a.
Definition eq (a : list cell) (v : cell) : list bool := map (fun x => cell_eq x v) a.
Definition and_mask (m1 m2 : list bool) : list bool :=
  map (fun p => fst p && snd p) (combine m1 m2).

(** *** Sorting

    [df.sort_values(by=c, ascending=False, ignore_index=True)] on a numeric
    column: larger keys first, missing keys last, and a fresh index.  Rows
    with equal keys are left in their previous order here; numpy's default
    sort leaves their order open, and no property below depends on it. *)

Definition sort_key (c : cell) : outcome float :=
  match c with
  | Num x => Ok x
  | Str _ => Raise TypeError
  end.

(** [a] is placed strictly before [b]. *)
Definition precedes (a b : float) : bool :=
  negb (is_nan a) && (is_nan b || (b <? a)%float).

Fixpoint insert_desc (x : float * Row) (l : list (float * Row)) : list (float * Row) :=
  match l with
  | [] => [x]
  | y :: l' => if precedes (fst y) (fst x) then y :: insert_desc x l' else x :: y :: l'
  end.

Definition sort_desc (l : list (float * Row)) : list (float * Row) :=
  fold_right insert_desc [] l.

Definition sort_values_desc (c : string) (df : DataFrame) : outcome DataFrame :=
  values <-? getitem c df ;;
  keys <-? series_map sort_key values ;;
  Ok (mkDF (columns df) (relabel (map snd (sort_desc (combine keys (rows df)))))).

(** [df.query("(c1 >= bound) & (c2 != k)")]: a name that is no column is an
    [UndefinedVariableError]. *)
Definition query_ge_and_ne (c1 : string) (bound : float) (c2 : string) (k : float)
    (df : DataFrame) : outcome DataFrame :=
  if negb (mem c1 (columns df)) then Raise (UndefinedVariableError c1)
  else if negb (mem c2 (columns df)) then Raise (UndefinedVariableError c2)
  else
    m1 <-? ge (map (get c1) (rows df)) bound ;;
    Ok (boolean_index (and_mask m1 (ne (map (get c2) (rows df)) k)) df).

(** [a.unique()]: the distinct values in order of first appearance. *)
Fixpoint unique (a : list cell) : list cell :=
  match a with
  | [] => []
  | x :: a' => x :: filter (fun y => negb (key_eqb x y)) (unique a')
  end.

(** [pd.concat(frames, ignore_index=True)]: the rows of the frames one after
    the other over the union of their columns, with a fresh index; an empty
    list is a [ValueError]. *)
Fixpoint union_columns (seen : list string) (frames : list DataFrame) : list string :=
  match frames with
  | [] => seen
  | df :: frames' =>
      union_columns (seen ++ filter (fun c => negb (mem c seen)) (columns df)) frames'
  end.

Definition concat (frames : list DataFrame) : outcome DataFrame :=
  match frames with
  | [] => Raise ValueError
  | _ =>
      let cols := union_columns [] frames in
      Ok (mkDF cols
            (relabel (map (fun r => mkRow 0 (map (fun c => (c, get c r)) cols))
                          (flat_map rows frames))))
  end.

(** What [numpy.random.rand] hands back: one float, or an array of them. *)
Inductive random_floats : Type :=
| Scalar (x : float)
| Array (xs : list float).

(** [a *= rnd] for a scalar or for an array as long as the column. *)
Definition mul_random (a : list cell) (rnd : random_floats) : outcome (list cell) :=
  match rnd with
  | Scalar y => series_map (fun x => cell_mul_float x y) a
  | Array ys =>
      if (List.length ys =? List.length a)%nat
      then series_zip (fun x y => match y with
                                  | Num y' => cell_mul_float x y'
                                  | Str _ => Raise TypeError
                                  end) a (map Num ys)
      else Raise ValueError
  end.

End pd.

(** ** Sheets and the file system

    A spreadsheet or CSV file holds one header line and the data lines. *)

Record sheet : Type := mkSheet { header : list string; body : list (list cell) }.

Inductive file : Type :=
| Xlsx (s : sheet)
| Csv (s : sheet).

(** The index labels of this program's frames are row positions. *)
Definition label_cell (z : Z) : cell := Num (PrimFloat.of_uint63 (Uint63.of_Z z)).

(** What [to_excel] and [to_csv] write: with [index] set, the index goes out
    as a leading column under an empty header. *)
Definition to_sheet (index : bool) (df : DataFrame) : sheet :=
  mkSheet (if index then "" :: columns df else columns df)
          (map (fun r =>
                  let values := map (fun c => get c r) (columns df) in
                  if index then label_cell (label r) :: values else values)
               (rows df)).

Definition decimal (n : nat) : string := NilZero.string_of_uint (Nat.to_uint n).

(** The column names [read_excel] and [read_csv] give a header line, as
    pandas' parser infers them.  First every empty header is named by its
    position: the one at position [i] becomes ["Unnamed: i"]. *)
Fixpoint unnamed_names (i : nat) (h : list string) : list string :=
  match h with
  | [] => []
  | c :: h' =>
      (if String.eqb c "" then ("Unnamed: " ++ decimal i)%string else c)
      :: unnamed_names (S i) h'
  end.

(** The positions, from [i] on, of the headers that satisfy [f]. *)
Fixpoint positions (f : string -> bool) (i : nat) (h : list string) : list nat :=
  match h with
  | [] => []
  | c :: h' => if f c then i :: positions f (S i) h' else positions f (S i) h'
  end.

(** Then names that repeat are told apart.  The parser walks the columns,
    those with a header of their own first and those it named itself
    after them, and keeps [counts], a [defaultdict(int)]: *)
Definition count_of (counts : list (string * nat)) (c : string) : nat :=
  match find (fun kv => String.eqb c (fst kv)) counts with
  | Some kv => snd kv
  | None => 0
  end.

(** for a name [old_col] counted already, the loop
    [[
    while cur_count > 0:
        counts[old_col] = cur_count + 1
        col = f"{old_col}.{cur_count}"
        if col in this_columns:
            cur_count += 1
        else:
            cur_count = counts[col]
    ]]
    One unit of [fuel] is one round of it. *)
Fixpoint mangle (fuel : nat) (this_columns : list string) (old_col : string)
    (counts : list (string * nat)) (col : string) (cur_count : nat)
  : string * nat * list (string * nat) :=
  match fuel, cur_count with
  | S fuel', S _ =>
      let counts := (old_col, S cur_count) :: counts in
      let col := (old_col ++ "." ++ decimal cur_count)%string in
      if mem col this_columns
      then mangle fuel' this_columns old_col counts col (S cur_count)
      else mangle fuel' this_columns old_col counts col (count_of counts col)
  | _, _ => (col, cur_count, counts)
  end.

(** [this_columns[i] = c]. *)
Fixpoint set_column (i : nat) (c : string) (l : list string) : list string :=
  match l, i with
  | [], _ => []
  | _ :: l', O => c :: l'
  | x :: l', S i' => x :: set_column i' c l'
  end.

(** The body of the walk for column [i]: the name is looked up in
    [counts], renamed by the loop if it was counted, stored and counted. *)
Definition dedup_at (fuel : nat) (st : list string * list (string * nat)) (i : nat)
  : list string * list (string * nat) :=
  let '(this_columns, counts) := st in
  let old_col := nth i this_columns "" in
  let '(col, cur_count, counts) :=
    mangle fuel this_columns old_col counts old_col (count_of counts old_col) in
  (set_column i col this_columns, (col, S cur_count) :: counts).

Definition dedup_names (fuel : nat) (h : list string) : list string :=
  let this_columns := unnamed_names 0 h in
  let named := positions (fun c => negb (String.eqb c "")) 0 h in
  let unnamed := positions (fun c => String.eqb c "") 0 h in
  fst (fold_left (dedup_at fuel) (named ++ unnamed) (this_columns, [])).

(** A loop tries names that differ from each other until one is no
    column's, so it makes at most one round for each column and one more;
    [header_names_distinct] shows that this fuel is never used up. *)
Definition header_names (h : list string) : list string :=
  dedup_names (S (List.length h)) h.

(** The names the reader tries in turn for a leading column without a
    header: "Unnamed: 0", then "Unnamed: 0.1", "Unnamed: 0.2", ... *)
Definition index_name (k : nat) : string :=
  match k with
  | O => "Unnamed: 0"
  | S _ => ("Unnamed: 0" ++ "." ++ decimal k)%string
  end.

(** What holds between the rounds of the walk, [done] being the columns
    walked through: their names are the names counted, and differ from
    each other. *)
Definition counted (this_columns : list string) (counts : list (string * nat))
    (done : list nat) : Prop :=
  (forall j, In j done -> j < List.length this_columns) /\
  (forall x, 0 < count_of counts x -> exists j, In j done /\ nth j this_columns "" = x) /\
  (forall j, In j done -> 0 < count_of counts (nth j this_columns "")) /\
  (forall j1 j2, In j1 done -> In j2 done ->
                 nth j1 this_columns "" = nth j2 this_columns "" -> j1 = j2).

Definition of_sheet (s : sheet) : DataFrame :=
  let names := header_names (header s) in
  mkDF names (relabel (map (fun line => mkRow 0 (combine names line)) (body s))).

Record FS : Type := mkFS { files : list (string * file); dirs : list string }.

Fixpoint find_file (p : string) (l : list (string * file)) : option file :=
  match l with
  | [] => None
  | (q, f) :: l' => if String.eqb p q then Some f else find_file p l'
  end.

Definition is_file (fs : FS) (p : string) : bool :=
  match find_file p (files fs) with Some _ => true | None => false end.

Definition is_dir (fs : FS) (p : string) : bool :=
  String.eqb p "." || String.eqb p "/" || mem p (dirs fs).

Definition write_file (p : string) (f : file) (fs : FS) : FS :=
  mkFS ((p, f) :: filter (fun qf => negb (String.eqb p (fst qf))) (files fs)) (dirs fs).

(** *** Paths ([pathlib]) *)

Fixpoint rfind (c : ascii) (s : string) : option nat :=
  match s with
  | EmptyString => None
  | String a s' =>
      match rfind c s' with
      | Some i => Some (S i)
      | None => if Ascii.eqb a c then Some 0%nat else None
      end
  end.

(** [path.parent]. *)
Definition parent (p : string) : string :=
  match rfind "/" p with
  | None => "."
  | Some 0%nat => "/"
  | Some i => substring 0 i p
  end.

(** [path.name]. *)
Definition name (p : string) : string :=
  match rfind "/" p with
  | None => p
  | Some i => substring (S i) (String.length p - S i) p
  end.

(** [path.suffix]: the last dot of the name and what follows it, unless the
    dot starts or ends the name. *)
Definition suffix (p : string) : string :=
  let n := name p in
  match rfind "." n with
  | Some i =>
      if ((0 <? i) && (S i <? String.length n))%nat
      then substring i (String.length n - i) n else ""
  | None => ""
  end.

(** [dir / file_name]. *)
Definition joinpath (d n : string) : string :=
  if String.eqb d "." then n
  else if String.eqb d "/" then ("/" ++ n)%string
  else (d ++ "/" ++ n)%string.

(** The directory and the directories above it, nearest first. *)
Fixpoint ancestors (fuel : nat) (d : string) : list string :=
  match fuel with
  | O => []
  | S fuel' =>
      if String.eqb d "." || String.eqb d "/" then []
      else d :: ancestors fuel' (parent d)
  end.

(** ** The program state and its monad *)

(** The [argparse] namespace of [sampling_code.py]. *)
Record Namespace : Type :=
  mkNamespace { ns_infile : string; ns_n_locations : Z; ns_outfile : string; ns_force : bool }.

(** The store of DataFrame objects (a reference is a position in it), the
    file system, the module global [args] of [sampling_code.py] (bound only
    when the module runs as a script), and numpy's random source as the
    sequence of floats it will hand out.  The [print] calls of the scripts
    write to the terminal, which nothing reads back; they are left out. *)
Record State : Type := mkState {
  heap : list DataFrame;
  disk : FS;
  args : option Namespace;
  tape : nat -> float;
  drawn : nat
}.

Definition set_heap (h : list DataFrame) (st : State) : State :=
  mkState h (disk st) (args st) (tape st) (drawn st).
Definition set_disk (d : FS) (st : State) : State :=
  mkState (heap st) d (args st) (tape st) (drawn st).
Definition set_args (a : option Namespace) (st : State) : State :=
  mkState (heap st) (disk st) a (tape st) (drawn st).
Definition set_drawn (n : nat) (st : State) : State :=
  mkState (heap st) (disk st) (args st) (tape st) n.

Definition M (A : Type) : Type := State -> outcome A * State.

Definition ret {A} (a : A) : M A := fun st => (Ok a, st).
Definition raise {A} (e : exn) : M A := fun st => (Raise e, st).
Definition bind {A B} (m : M A) (k : A -> M B) : M B :=
  fun st =>
    match m st with
    | (Ok a, st') => k a st'
    | (Raise e, st') => (Raise e, st')
    end.
Definition lift {A} (o : outcome A) : M A := fun st => (o, st).

Declare Scope monad_scope.
Delimit Scope monad_scope with monad.
Notation "x <- m ;; k" := (bind m (fun x => k))
  (at level 100, m at next level, right associativity) : monad_scope.
Notation "m ;; k" := (bind m (fun _ => k))
  (at level 100, right associativity) : monad_scope.
Local Open Scope monad_scope.

(** *** Objects *)

Definition ref : Type := nat.

Fixpoint replace_nth (r : nat) (d : DataFrame) (h : list DataFrame) : list DataFrame :=
  match h, r with
  | [], _ => []
  | _ :: h', O => d :: h'
  | x :: h', S r' => x :: replace_nth r' d h'
  end.

Definition new (d : DataFrame) : M ref :=
  fun st => (Ok (List.length (heap st)), set_heap (heap st ++ [d]) st).

Definition deref (r : ref) : M DataFrame :=
  fun st =>
    match nth_error (heap st) r with
    | Some d => (Ok d, st)
    | None => (Raise DanglingReference, st)
    end.

(** The object at [r] takes a new value: an in-place update. *)
Definition mutate (r : ref) (d : DataFrame) : M unit :=
  fun st => (Ok tt, set_heap (replace_nth r d (heap st)) st).

(** *** Methods of DataFrame objects

    Those marked in place change the object they are called on; the others
    leave it alone and build a new object. *)

Module DataFrameObject.

Definition copy (df : ref) : M ref := d <- deref df ;; new d.

Definition getitem (df : ref) (c : string) : M (list cell) :=
  d <- deref df ;; lift (pd.getitem c d).

Definition getitem_list (df : ref) (cs : list string) : M ref :=
  d <- deref df ;; d' <- lift (pd.getitem_list cs d) ;; new d'.

(** In place. *)
Definition setitem (df : ref) (c : string) (values : list cell) : M unit :=
  d <- deref df ;; mutate df (pd.setitem c values d).

(** [drop(columns=cs, inplace=True)]. *)
Definition drop_inplace (df : ref) (cs : list string) : M unit :=
  d <- deref df ;; d' <- lift (pd.drop cs d) ;; mutate df d'.

(** [fillna(v, inplace=True)]. *)
Definition fillna_inplace (df : ref) (v : cell) : M unit :=
  d <- deref df ;; mutate df (pd.fillna v d).

(** [sort_values(by=c, ascending=False, inplace=True, ignore_index=True)]. *)
Definition sort_values_desc_inplace (df : ref) (c : string) : M unit :=
  d <- deref df ;; d' <- lift (pd.sort_values_desc c d) ;; mutate df d'.

Definition merge_left (left right : ref) (left_on right_on suffix : string) : M ref :=
  l <- deref left ;; r <- deref right ;;
  d <- lift (pd.merge_left l r left_on right_on suffix) ;; new d.

Definition boolean_index (df : ref) (mask : list bool) : M ref :=
  d <- deref df ;; new (pd.boolean_index mask d).

Definition duplicated (df : ref) (c : string) : M (list bool) :=
  d <- deref df ;; lift (pd.duplicated c d).

Definition query_ge_and_ne (df : ref) (c1 : string) (bound : float) (c2 : string) (k : float)
  : M ref :=
  d <- deref df ;; d' <- lift (pd.query_ge_and_ne c1 bound c2 k d) ;; new d'.

Definition reset_index (df : ref) : M ref := d <- deref df ;; new (pd.reset_index d).

Definition head (df : ref) (n : Z) : M ref := d <- deref df ;; new (pd.head n d).

Definition len (df : ref) : M nat := d <- deref df ;; ret (List.length (rows d)).

End DataFrameObject.

(** [pd.concat(frames, ignore_index=True)] on objects. *)
Fixpoint deref_all (frames : list ref) : M (list DataFrame) :=
  match frames with
  | [] => ret []
  | r :: frames' => d <- deref r ;; ds <- deref_all frames' ;; ret (d :: ds)
  end.

Definition concat (frames : list ref) : M ref :=
  ds <- deref_all frames ;; d <- lift (pd.concat ds) ;; new d.

(** *** Files *)

(** [path.exists()]. *)
Definition path_exists (p : string) : M bool :=
  fun st => (Ok (is_file (disk st) p || is_dir (disk st) p), st).

(** Opening [p] for writing and storing [f] there: the directory of [p] must
    exist, and [p] must not be a directory. *)
Definition write_to (p : string) (f : file) : M unit :=
  fun st =>
    if is_dir (disk st) p then (Raise (IsADirectoryError p), st)
    else if negb (is_dir (disk st) (parent p)) then (Raise (FileNotFoundError p), st)
    else (Ok tt, set_disk (write_file p f (disk st)) st).

(** [df.to_excel(path)] for a [pathlib.Path], which is what both scripts
    hand it: pandas picks a writer by the suffix only when the path is a
    [str]; for a [Path] it takes its xlsx writer, whatever the suffix. *)
Definition to_excel (df : ref) (p : string) (index : bool) : M unit :=
  d <- deref df ;; write_to p (Xlsx (to_sheet index d)).

Definition to_csv (df : ref) (p : string) (index : bool) : M unit :=
  d <- deref df ;; write_to p (Csv (to_sheet index d)).

Definition read_excel (p : string) : M ref :=
  fun st =>
    match find_file p (files (disk st)) with
    | None => (Raise (FileNotFoundError p), st)
    | Some (Csv _) => (Raise ValueError, st)
    | Some (Xlsx s) => new (of_sheet s) st
    end.

Definition read_csv (p : string) : M ref :=
  fun st =>
    match find_file p (files (disk st)) with
    | None => (Raise (FileNotFoundError p), st)
    | Some (Xlsx _) => (Raise ValueError, st)
    | Some (Csv s) => new (of_sheet s) st
    end.

(** [d.mkdir(parents=True)]. *)
Definition mkdir_parents (d : string) : M unit :=
  fun st =>
    if is_file (disk st) d || is_dir (disk st) d then (Raise (FileExistsError d), st)
    else
      let above := ancestors (S (String.length d)) d in
      match find (is_file (disk st)) above with
      | Some q => (Raise (NotADirectoryError q), st)
      | None => (Ok tt, set_disk (mkFS (files (disk st)) (above ++ dirs (disk st))) st)
      end.

(** *** Random numbers and the global [args] *)

(** [np.random.rand()] and [np.random.rand(n)]. *)
Definition np_random_rand : M float :=
  fun st => (Ok (tape st (drawn st)), set_drawn (S (drawn st)) st).

Definition np_random_rand_n (n : nat) : M (list float) :=
  fun st => (Ok (map (tape st) (seq (drawn st) n)), set_drawn (drawn st + n) st).

(** Reading the global name [args]. *)
Definition global_args : M Namespace :=
  fun st =>
    match args st with
    | Some a => (Ok a, st)
    | None => (Raise (NameError "args"), st)
    end.

(** ** preparing_sample_frame.py *)

Module preparing_sample_frame.

(** The text of the [FileExistsError] raised by [write_df_to_excel]. *)
Definition file_exists_message (outfile : string) : string :=
  ("The file " ++ outfile ++ " already exists and `overwrite` is False.
Either change the output filename or rerun with `overwrite` as True.")%string.

Definition write_df_to_excel (df : ref) (outfile : string) (overwrite : bool) : M unit :=
  let out_file := outfile in
  e <- path_exists out_file ;;
  if e && negb overwrite then
    raise (FileExistsError (file_exists_message outfile))
  else
    to_excel df out_file true.

Definition merge_facility_ID (df : ref) (outfile : string) (overwrite : bool) : M ref :=
  let suffix_y := "_merge" in
  right <- DataFrameObject.getitem_list df ["LocName"; "FacilityID"; "Merge_ID"] ;;
  merged <- DataFrameObject.merge_left df right "Merge_ID" "FacilityID" suffix_y ;;
  DataFrameObject.drop_inplace merged [("Merge_ID" ++ suffix_y)%string] ;;
  write_df_to_excel merged outfile overwrite ;;
  ret merged.

Definition merge_turnover_outlets (df : ref) (outfile : string) (overwrite : bool) : M ref :=
  let suffix_y := "_loc2" in
  right <- DataFrameObject.getitem_list df ["FacilityID"; "Sum_Turnov"; "OutletCt"] ;;
  merged <- DataFrameObject.merge_left df right "FacilityID_merge" "FacilityID" suffix_y ;;
  DataFrameObject.drop_inplace merged ["Unnamed: 0"; ("FacilityID" ++ suffix_y)%string] ;;
  write_df_to_excel merged outfile overwrite ;;
  ret merged.

Definition postproc_turnover_df (df : ref) : M ref :=
  df_copy <- DataFrameObject.copy df ;;
  DataFrameObject.fillna_inplace df_copy (Num 0) ;;
  a <- DataFrameObject.getitem df_copy "Sum_Turnov" ;;
  b <- DataFrameObject.getitem df_copy "Sum_Turnov_loc2" ;;
  total <- lift (pd.add a b) ;;
  DataFrameObject.setitem df_copy "Total_TURNOV" total ;;
  a <- DataFrameObject.getitem df_copy "OutletCt" ;;
  b <- DataFrameObject.getitem df_copy "OutletCt_loc2" ;;
  total <- lift (pd.add a b) ;;
  DataFrameObject.setitem df_copy "Total_OutletCt" total ;;
  a <- DataFrameObject.getitem df_copy "Total_TURNOV" ;;
  b <- DataFrameObject.getitem df_copy "Total_OutletCt" ;;
  avg <- lift (pd.truediv a b) ;;
  DataFrameObject.setitem df_copy "avg_TURNOV" avg ;;
  ret df_copy.

Definition save_df_duplicates (df : ref) (col outfile : string) (overwrite : bool) : M unit :=
  duplicates <- DataFrameObject.duplicated df col ;;
  selected <- DataFrameObject.boolean_index df duplicates ;;
  write_df_to_excel selected outfile overwrite.

Definition main (infile : string) (force : bool) : M unit :=
  let in_file := infile in
  locations <- read_excel in_file ;;
  let out_file_ID_merge :=
    joinpath (parent in_file) "CPI_New_Sampling_Frame_TableToExcel__ID_Merge_2022.xlsx" in
  locations_merged <- merge_facility_ID locations out_file_ID_merge force ;;
  let out_file_turnover_merge :=
    joinpath (parent in_file) "CPI_New_Sampling_Frame_TableToExcel__Intermediate_2022.xlsx" in
  turnover_merged <- merge_turnover_outlets locations_merged out_file_turnover_merge force ;;
  turnover_merged <- postproc_turnover_df turnover_merged ;;
  write_df_to_excel turnover_merged
    (joinpath (parent in_file) "CPI_New_Sampling_Frame_TableToExcel__Intermediate2_2022.xlsx")
    force ;;
  turnover_merged <-
    DataFrameObject.query_ge_and_ne turnover_merged "Total_OutletCt" 250 "Merge_Num" 2 ;;
  write_df_to_excel turnover_merged
    (joinpath (parent in_file) "CPI_New_Sampling_Frame_Draft_2022.xlsx") force ;;
  save_df_duplicates turnover_merged "Merge_ID"
    (joinpath (parent in_file) "2022_duplicate_1.xlsx") force ;;
  save_df_duplicates turnover_merged "FacilityID_merge"
    (joinpath (parent in_file) "2022_duplicate_2.xlsx") force.

End preparing_sample_frame.

(** ** sampling_code.py *)

Module sampling_code.

(** The text of the [FileExistsError] raised by [write_df]. *)
Definition file_exists_message (outfile : string) : string :=
  ("The output file " ++ outfile ++ " already exists and `force` is False.
Either rerun with the `force` option or select a different output filename.")%string.

Definition get_random_float (size : nat) : M pd.random_floats :=
  if (size =? 1)%nat then x <- np_random_rand ;; ret (pd.Scalar x)
  else xs <- np_random_rand_n size ;; ret (pd.Array xs).

Definition is_file_excel (filename : string) : bool :=
  existsb (fun ext => String.eqb (suffix filename) ext) [".xls"; ".xlsx"].

Definition load_df (in_file : string) : M ref :=
  if is_file_excel in_file then read_excel in_file else read_csv in_file.

Definition generate_replacement_locations (df : ref) (region : cell) (n_locations : Z)
  : M ref :=
  df_copy <- DataFrameObject.copy df ;;
  regions <- DataFrameObject.getitem df_copy "Region" ;;
  selected <- DataFrameObject.boolean_index df_copy (pd.eq regions region) ;;
  df_regional <- DataFrameObject.reset_index selected ;;
  turnover <- DataFrameObject.getitem df_regional "Sum_Turnov" ;;
  total_turnover <- lift (pd.sum turnover) ;;
  turnover <- DataFrameObject.getitem df_regional "Sum_Turnov" ;;
  weight <- lift (pd.truediv_scalar turnover total_turnover) ;;
  DataFrameObject.setitem df_regional "weight" weight ;;
  size <- DataFrameObject.len df_regional ;;
  rnd_nums <- get_random_float size ;;
  weight <- DataFrameObject.getitem df_regional "weight" ;;
  weight <- lift (pd.mul_random weight rnd_nums) ;;
  DataFrameObject.setitem df_regional "weight" weight ;;
  DataFrameObject.sort_values_desc_inplace df_regional "weight" ;;
  DataFrameObject.drop_inplace df_regional ["weight"] ;;
  DataFrameObject.head df_regional n_locations.

Definition write_df (df : ref) (out_file : string) (overwrite : bool) : M unit :=
  parent_exists <- path_exists (parent out_file) ;;
  (if negb parent_exists then mkdir_parents (parent out_file) else ret tt) ;;
  e <- path_exists out_file ;;
  (if e && negb overwrite then
     a <- global_args ;;
     raise (FileExistsError (file_exists_message (ns_outfile a)))
   else ret tt) ;;
  if is_file_excel out_file then to_excel df out_file false
  else to_csv df out_file false.

Fixpoint for_each_region (df : ref) (n_locations : Z) (regions : list cell) : M (list ref) :=
  match regions with
  | [] => ret []
  | region :: regions' =>
      locs <- generate_replacement_locations df region n_locations ;;
      lst <- for_each_region df n_locations regions' ;;
      ret (locs :: lst)
  end.

Definition main (infile outfile : string) (n_locations : Z) (force : bool) : M unit :=
  let in_file := infile in
  df <- load_df in_file ;;
  region_column <- DataFrameObject.getitem df "Region" ;;
  let regions := pd.unique region_column in
  lst_new_locs <- for_each_region df n_locations regions ;;
  df_new_locs <- concat lst_new_locs ;;
  let out_file := outfile in
  write_df df_new_locs out_file force.

(** The [__main__] block: [args] becomes a module global, then [main] runs
    on its fields. *)
Definition script (parsed : Namespace) : M unit :=
  (fun st => (Ok tt, set_args (Some parsed) st)) ;;
  main (ns_infile parsed) (ns_outfile parsed) (ns_n_locations parsed) (ns_force parsed).

End sampling_code.

Arguments preparing_sample_frame.file_exists_message : simpl never.
Arguments sampling_code.file_exists_message : simpl never.

(** ** What the stages compute

    The table each stage builds from the table it is given, with the store
    and the files left out.  The [_run] lemmas further down show that the
    stage, run in the monad, computes exactly this table. *)

Definition postproc_value (d : DataFrame) : outcome DataFrame :=
  let d := pd.fillna (Num 0) d in
  a <-? pd.getitem "Sum_Turnov" d ;;
  b <-? pd.getitem "Sum_Turnov_loc2" d ;;
  total <-? pd.add a b ;;
  let d := pd.setitem "Total_TURNOV" total d in
  a <-? pd.getitem "OutletCt" d ;;
  b <-? pd.getitem "OutletCt_loc2" d ;;
  total <-? pd.add a b ;;
  let d := pd.setitem "Total_OutletCt" total d in
  a <-? pd.getitem "Total_TURNOV" d ;;
  b <-? pd.getitem "Total_OutletCt" d ;;
  avg <-? pd.truediv a b ;;
  Ok (pd.setitem "avg_TURNOV" avg d).

Definition merge_facility_ID_value (d : DataFrame) : outcome DataFrame :=
  right <-? pd.getitem_list ["LocName"; "FacilityID"; "Merge_ID"] d ;;
  merged <-? pd.merge_left d right "Merge_ID" "FacilityID" "_merge" ;;
  pd.drop ["Merge_ID_merge"] merged.

Definition merge_turnover_outlets_value (d : DataFrame) : outcome DataFrame :=
  right <-? pd.getitem_list ["FacilityID"; "Sum_Turnov"; "OutletCt"] d ;;
  merged <-? pd.merge_left d right "FacilityID_merge" "FacilityID" "_loc2" ;;
  pd.drop ["Unnamed: 0"; "FacilityID_loc2"] merged.

Definition duplicates_value (col : string) (d : DataFrame) : outcome DataFrame :=
  duplicates <-? pd.duplicated col d ;;
  Ok (pd.boolean_index duplicates d).

(** The random floats [get_random_float] hands out when [drawn] floats of
    the [tape] have been used. *)
Definition random_value (tape : nat -> float) (drawn size : nat) : pd.random_floats :=
  if (size =? 1)%nat then pd.Scalar (tape drawn) else pd.Array (map tape (seq drawn size)).

Definition replacement_locations_value (tape : nat -> float) (drawn : nat)
    (d : DataFrame) (region : cell) (n_locations : Z) : outcome DataFrame :=
  regions <-? pd.getitem "Region" d ;;
  let regional := pd.reset_index (pd.boolean_index (pd.eq regions region) d) in
  turnover <-? pd.getitem "Sum_Turnov" regional ;;
  total_turnover <-? pd.sum turnover ;;
  turnover <-? pd.getitem "Sum_Turnov" regional ;;
  weight <-? pd.truediv_scalar turnover total_turnover ;;
  let regional := pd.setitem "weight" weight regional in
  let rnd_nums := random_value tape drawn (List.length (rows regional)) in
  weight <-? pd.getitem "weight" regional ;;
  weight <-? pd.mul_random weight rnd_nums ;;
  let regional := pd.setitem "weight" weight regional in
  regional <-? pd.sort_values_desc "weight" regional ;;
  regional <-? pd.drop ["weight"] regional ;;
  Ok (pd.head n_locations regional).

(** The cells of a merged row: the left row's cells [cl], then one cell per
    right-hand column, taken from the first right-hand row whose key matches
    or missing when there is none.  With unique right-hand keys this is the
    whole of a left join ([merge_left_unique]). *)
Definition joined (rename : string -> string) (right_columns : list string)
    (left_on right_on : string) (right_cells : list (list (string * cell)))
    (cl : list (string * cell)) : list (string * cell) :=
  cl ++ map (fun c =>
               (rename c,
                match find (fun cr => key_eqb (lookup left_on cl) (lookup right_on cr))
                           right_cells with
                | Some cr => lookup c cr
                | None => NaN
                end))
            right_columns.

(** ** Conditions on tables and on the disk *)

Fixpoint same_names (a b : list string) : bool :=
  match a, b with
  | [], [] => true
  | x :: a', y :: b' => String.eqb x y && same_names a' b'
  | _, _ => false
  end.

(** [wf], decided. *)
Definition wfb (d : DataFrame) : bool :=
  nodupb (columns d) && forallb (fun r => same_names (map fst (cells r)) (columns d)) (rows d).

(** Column [c] holds numbers (possibly missing) in every row. *)
Definition numeric (c : string) (d : DataFrame) : bool :=
  forallb (fun r => is_num (get c r)) (rows d).

(** [Series.is_unique]: no two values are equal as keys. *)
Fixpoint is_unique (values : list cell) : bool :=
  match values with
  | [] => true
  | v :: values' => forallb (fun w => negb (key_eqb v w)) values' && is_unique values'
  end.

(** [is_unique] as a property: no value equals, as a key, a later one. *)
Definition distinct_keys (l : list cell) : Prop :=
  ForallOrdPairs (fun a b => key_eqb a b = false) l.

(** No value is missing. *)
Definition notna (values : list cell) : bool := forallb (fun v => negb (isna v)) values.

(** [outfile] can be written: it is absent or may be overwritten, it is no
    directory, and its directory exists. *)
Definition can_write (fs : FS) (outfile : string) (overwrite : bool) : bool :=
  (overwrite || negb (is_file fs outfile || is_dir fs outfile))
  && negb (is_dir fs outfile) && is_dir fs (parent outfile).

(** A merged table as postprocessing needs it: well formed, with the two
    turnover and the two outlet columns, all four numeric. *)
Definition merged_table (d : DataFrame) : bool :=
  wfb d &&
  forallb (fun c => mem c (columns d) && numeric c d)
          ["Sum_Turnov"; "Sum_Turnov_loc2"; "OutletCt"; "OutletCt_loc2"].

(** The float in a numeric cell. *)
Definition num (c : cell) : float :=
  match c with
  | Num x => x
  | Str _ => nan
  end.

(** What postprocessing makes of one row of a merged table. *)
Definition postproc_row (r : Row) : Row :=
  let r := fillna_row (Num 0) r in
  let r := set "Total_TURNOV"
               (Num (num (get "Sum_Turnov" r) + num (get "Sum_Turnov_loc2" r))%float) r in
  let r := set "Total_OutletCt"
               (Num (num (get "OutletCt" r) + num (get "OutletCt_loc2" r))%float) r in
  set "avg_TURNOV" (Num (num (get "Total_TURNOV" r) / num (get "Total_OutletCt" r))%float) r.

(** The size/role filter as the specification words it: keep the rows with
    Total_OutletCt >= 250 and Merge_Num != 2, in their order. *)
Definition spec_keeps (r : Row) : bool :=
  match get "Total_OutletCt" r with
  | Num outlets => (250 <=? outlets)%float
  | Str _ => false
  end
  && cell_ne (get "Merge_Num" r) 2.

Definition spec_size_role_filter (rs : list Row) : list Row := filter spec_keeps rs.

(** A table the two merges accept: well formed, with the columns they read
    or drop, without the names they create, and with numbers (possibly
    missing) for identifiers. *)
Definition merge_ready (d : DataFrame) : bool :=
  wfb d
  && forallb (fun c => mem c (columns d))
             ["LocName"; "FacilityID"; "Merge_ID"; "Sum_Turnov"; "OutletCt"; "Unnamed: 0"]
  && forallb (fun c => negb (mem c (columns d)))
             ["LocName_merge"; "FacilityID_merge"; "Merge_ID_merge";
              "FacilityID_loc2"; "Sum_Turnov_loc2"; "OutletCt_loc2"]
  && numeric "FacilityID" d && numeric "Merge_ID" d.

(** [l1] is [l2] with some elements left out, the others in their order. *)
Inductive subseq {A : Type} : list A -> list A -> Prop :=
| subseq_nil : subseq [] []
| subseq_skip (x : A) (l1 l2 : list A) : subseq l1 l2 -> subseq l1 (x :: l2)
| subseq_keep (x : A) (l1 l2 : list A) : subseq l1 l2 -> subseq (x :: l1) (x :: l2).

(** ** Example inputs *)

(** The two locations of the end-to-end example: an acceptor (FacilityID 1,
    paired with 2) and its donor (FacilityID 2). *)
Definition example_sheet : sheet :=
  mkSheet ["FacilityID"; "Merge_ID"; "Merge_Num"; "Sum_Turnov"; "OutletCt"]
          [[Num 1; Num 2; Num 1; Num 100; Num 300];
           [Num 2; NaN; Num 2; Num 50; Num 100]].

(** The same two locations with their names. *)
Definition example_sheet_named : sheet :=
  mkSheet ["LocName"; "FacilityID"; "Merge_ID"; "Merge_Num"; "Sum_Turnov"; "OutletCt"]
          [[Str "Acceptor"; Num 1; Num 2; Num 1; Num 100; Num 300];
           [Str "Donor"; Num 2; NaN; Num 2; Num 50; Num 100]].

(** The same again as a spreadsheet that was saved with its row index: a
    leading column under an empty header, read back as ["Unnamed: 0"]. *)
Definition example_sheet_indexed : sheet :=
  mkSheet [""; "LocName"; "FacilityID"; "Merge_ID"; "Merge_Num"; "Sum_Turnov"; "OutletCt"]
          [[Num 0; Str "Acceptor"; Num 1; Num 2; Num 1; Num 100; Num 300];
           [Num 1; Str "Donor"; Num 2; NaN; Num 2; Num 50; Num 100]].

Definition example_infile : string := "frame/SampleFrame2022.xls".

(** A fresh process whose disk holds the input spreadsheet and nothing else. *)
Definition on_disk (s : sheet) : State :=
  mkState [] (mkFS [(example_infile, Xlsx s)] ["frame"]) None (fun _ => 0%float) 0.

(** A process that holds one table and finds the output file already there;
    [args] is bound as the caller says. *)
Definition output_present (a : option Namespace) : State :=
  mkState [of_sheet example_sheet_named]
          (mkFS [("out/locations.csv", Csv example_sheet)] ["out"])
          a (fun _ => 0%float) 0.

(** When the specification-level comparison says "equal". *)
Definition SF_same (x y : spec_float) : Prop :=
  match x, y with
  | S754_zero _, S754_zero _ => True
  | S754_infinity s1, S754_infinity s2 => s1 = s2
  | S754_finite s1 m1 e1, S754_finite s2 m2 e2 => s1 = s2 /\ m1 = m2 /\ e1 = e2
  | _, _ => False
  end.

(** A merged table of three locations: one with a donor, one without (the
    donor columns are missing), and one without any outlets. *)
Definition example_merged : DataFrame :=
  let cols := ["FacilityID"; "Merge_Num"; "Sum_Turnov"; "OutletCt";
               "Sum_Turnov_loc2"; "OutletCt_loc2"] in
  mkDF cols
       (relabel (map (fun line => mkRow 0 (combine cols line))
                     [[Num 1; Num 1; Num 100; Num 300; Num 50; Num 100];
                      [Num 3; Num 1; Num 70; Num 20; NaN; NaN];
                      [Num 4; Num 1; Num 10; Num 0; NaN; NaN]])).

(** A process that holds table [d] and an empty directory [frame]. *)
Definition holding (d : DataFrame) : State :=
  mkState [d] (mkFS [] ["frame"]) None (fun _ => 0%float) 0.


(** Four locations, two of which name the same partner. *)
Definition example_duplicates : DataFrame :=
  let cols := ["FacilityID"; "Merge_ID"] in
  mkDF cols
       (relabel (map (fun line => mkRow 0 (combine cols line))
                     [[Num 1; Num 7]; [Num 2; Num 8]; [Num 3; Num 7]; [Num 4; NaN]])).

(** A sampling frame of four locations in two regions. *)
Definition example_frame : DataFrame :=
  let cols := ["FacilityID"; "Region"; "Sum_Turnov"] in
  mkDF cols
       (relabel (map (fun line => mkRow 0 (combine cols line))
                     [[Num 1; Str "North"; Num 900];
                      [Num 2; Str "South"; Num 40];
                      [Num 3; Str "North"; Num 100];
                      [Num 4; Str "North"; Num 250]])).

(** Two locations: one whose Merge_ID names no location of the table, and
    one whose FacilityID is missing. *)
Definition example_sheet_null_id : sheet :=
  mkSheet [""; "LocName"; "FacilityID"; "Merge_ID"; "Merge_Num"; "Sum_Turnov"; "OutletCt"]
          [[Num 0; Str "Unpaired"; Num 1; Num 99; Num 1; Num 100; Num 300];
           [Num 1; Str "Nameless"; NaN; NaN; Num 2; Num 50; Num 100]].

(** A process of the sampling script that finds its input and, already
    there, the file it is to write; [args] is bound as the caller says. *)
Definition rerun (a : option Namespace) : State :=
  mkState []
          (mkFS [("in/frame.csv", Csv (to_sheet false example_frame));
                 ("out/locations.csv", Csv example_sheet)]
                ["in"; "out"])
          a (fun _ => 0.5%float) 0.

(** The tables read from the indexed example and from the example with a
    missing FacilityID. *)
Definition example_indexed : DataFrame := of_sheet example_sheet_indexed.
Definition example_null_id : DataFrame := of_sheet example_sheet_null_id.

(** ** What a run does to the files *)

(** Every file of [fs] is in [fs'] with the content it had, and every
    directory of [fs] is a directory of [fs']. *)
Definition extends (fs fs' : FS) : Prop :=
  (forall p f, find_file p (files fs) = Some f -> find_file p (files fs') = Some f) /\
  (forall p, is_dir fs p = true -> is_dir fs' p = true).

(** A computation that, whatever its outcome, leaves every file and every
    directory it found as it was. *)
Definition keeps_files {A} (m : M A) : Prop :=
  forall st, extends (disk st) (disk (snd (m st))).

(** A computation that does not touch the disk at all. *)
Definition keeps_disk {A} (m : M A) : Prop :=
  forall st, disk (snd (m st)) = disk st.

(** A computation that, whatever its outcome, leaves every path outside
    [ps] as it was: the same file, or none. *)
Definition writes_only {A} (ps : list string) (m : M A) : Prop :=
  forall st p,
    ~ In p ps -> find_file p (files (disk (snd (m st)))) = find_file p (files (disk st)).

(** A computation that, whatever its outcome, removes no directory and
    makes none but [d] and directories above it. *)
Definition makes_dirs_above {A} (d : string) (m : M A) : Prop :=
  forall st p,
    (is_dir (disk st) p = true -> is_dir (disk (snd (m st))) p = true) /\
    (is_dir (disk (snd (m st))) p = true ->
     is_dir (disk st) p = true \/ exists k, p = Nat.iter k parent d).

(** The six files [preparing_sample_frame.main] writes for [infile], in the
    order it writes them. *)
Definition frame_outputs (infile : string) : list string :=
  map (joinpath (parent infile))
      ["CPI_New_Sampling_Frame_TableToExcel__ID_Merge_2022.xlsx";
       "CPI_New_Sampling_Frame_TableToExcel__Intermediate_2022.xlsx";
       "CPI_New_Sampling_Frame_TableToExcel__Intermediate2_2022.xlsx";
       "CPI_New_Sampling_Frame_Draft_2022.xlsx";
       "2022_duplicate_1.xlsx";
       "2022_duplicate_2.xlsx"].

(** ** The frame preparation as a whole *)

(** The six tables [preparing_sample_frame.main] writes, computed from the
    table it reads, in the order of [frame_outputs]. *)
Definition frame_tables (d : DataFrame) : outcome (list DataFrame) :=
  m1 <-? merge_facility_ID_value d ;;
  m2 <-? merge_turnover_outlets_value m1 ;;
  p <-? postproc_value m2 ;;
  q <-? pd.query_ge_and_ne "Total_OutletCt" 250 "Merge_Num" 2 p ;;
  d1 <-? duplicates_value "Merge_ID" q ;;
  d2 <-? duplicates_value "FacilityID_merge" q ;;
  Ok [m1; m2; p; q; d1; d2].

(** An input table the whole frame preparation accepts: one the merges
    accept, with numbers (possibly missing) for turnover, outlets and the
    merge role. *)
Definition frame_ready (d : DataFrame) : bool :=
  merge_ready d
  && mem "Merge_Num" (columns d) && numeric "Merge_Num" d
  && numeric "Sum_Turnov" d && numeric "OutletCt" d.

(** A fresh process whose disk holds the indexed example as the input
    spreadsheet in directory [frame], with or without the first of the
    output files. *)
Definition first_run : State := on_disk example_sheet_indexed.


(** A table the first merge accepts and the second would, but for the
    column "Unnamed: 0", which it lacks. *)
Definition lacks_index_column (d : DataFrame) : bool :=
  wfb d
  && forallb (fun c => mem c (columns d))
             ["LocName"; "FacilityID"; "Merge_ID"; "Sum_Turnov"; "OutletCt"]
  && forallb (fun c => negb (mem c (columns d)))
             ["Unnamed: 0"; "LocName_merge"; "FacilityID_merge"; "Merge_ID_merge";
              "FacilityID_loc2"; "Sum_Turnov_loc2"; "OutletCt_loc2"]
  && numeric "FacilityID" d && numeric "Merge_ID" d.


(** A process that holds a table in a directory that does not exist. *)
Definition nowhere : State :=
  mkState [example_merged] (mkFS [] []) None (fun _ => 0%float) 0.

(** Three locations, each with a partner of its own. *)
Definition example_distinct : DataFrame :=
  let cols := ["FacilityID"; "Merge_ID"] in
  mkDF cols
       (relabel (map (fun line => mkRow 0 (combine cols line))
                     [[Num 1; Num 7]; [Num 2; Num 8]; [Num 3; Num 9]])).

(** A merged table that has lost its count of outlets. *)
Definition example_without_outlets : DataFrame :=
  let cols := ["FacilityID"; "Sum_Turnov"; "Sum_Turnov_loc2"; "OutletCt_loc2"] in
  mkDF cols
       (relabel (map (fun line => mkRow 0 (combine cols line))
                     [[Num 1; Num 100; Num 50; Num 100];
                      [Num 3; Num 70; NaN; NaN]])).

(** ** The sampler's ranking *)

(** The rows of [d] in [region]: the candidates. *)
Definition candidates (region : cell) (d : DataFrame) : list Row :=
  filter (fun r => cell_eq (get "Region" r) region) (rows d).

(** The weight a candidate is ranked by: its share of the turnover
    [total], times the random number drawn for it. *)
Definition randomised_weights (tape : nat -> float) (drawn : nat) (total : float)
    (cand : list Row) : list float :=
  map (fun ru => (num (get "Sum_Turnov" (fst ru)) / total * snd ru)%float)
      (combine cand (map tape (seq drawn (List.length cand)))).

(** Larger weights first, missing weights last: no row is strictly
    preceded by a later one. *)
Definition descending (l : list (float * Row)) : Prop :=
  StronglySorted (fun a b => pd.precedes (fst b) (fst a) = false) l.

(** Where the slice [[:n]] of [len] items stops. *)
Definition slice_stop (n : Z) (len : nat) : nat :=
  if (0 <=? n)%Z then Nat.min (Z.to_nat n) len else len - Z.to_nat (- n).

(** ** The sampling as a whole *)

(** The selections of the loop of [sampling_code.main], one for each
    region in turn; each region uses up one random number for each of its
    candidates. *)
Fixpoint for_each_region_value (tape : nat -> float) (drawn : nat) (d : DataFrame) (n : Z)
    (regions : list cell) : outcome (list DataFrame) :=
  match regions with
  | [] => Ok []
  | region :: regions' =>
      locs <-? replacement_locations_value tape drawn d region n ;;
      lst <-? for_each_region_value tape (drawn + List.length (candidates region d)) d n
                regions' ;;
      Ok (locs :: lst)
  end.

(** The table [sampling_code.main] writes, computed from the table it
    reads. *)
Definition sampling_value (tape : nat -> float) (drawn : nat) (d : DataFrame) (n : Z)
  : outcome DataFrame :=
  region_column <-? pd.getitem "Region" d ;;
  tables <-? for_each_region_value tape drawn d n (pd.unique region_column) ;;
  pd.concat tables.

(** The regions of a table, in the order the loop takes them. *)
Definition regions_of (d : DataFrame) : list cell := pd.unique (map (get "Region") (rows d)).

(** An input table the sampling accepts: it has a row, the two columns
    the sampler reads, and numbers (possibly missing) for turnover. *)
Definition sampling_ready (d : DataFrame) : bool :=
  negb (List.length (rows d) =? 0)%nat
  && mem "Region" (columns d) && mem "Sum_Turnov" (columns d) && numeric "Sum_Turnov" d.

(** [write_df] can write [out_file] without creating a directory: the
    directory is there, the path is no directory itself, and the file is
    absent or may be overwritten. *)
Definition can_write_table (fs : FS) (out_file : string) (overwrite : bool) : bool :=
  is_dir fs (parent out_file) && negb (is_dir fs out_file)
  && (overwrite || negb (is_file fs out_file)).

(** The file [write_df] stores for a table: a spreadsheet or a CSV file
    by the suffix of the path, without the index. *)
Definition table_file (out_file : string) (d : DataFrame) : file :=
  if sampling_code.is_file_excel out_file then Xlsx (to_sheet false d)
  else Csv (to_sheet false d).

(** A process of the sampling script that finds its input and an empty
    directory to write to. *)
Definition sampling_run : State :=
  mkState []
          (mkFS [("in/frame.csv", Csv (to_sheet false example_frame))] ["in"; "out"])
          None (fun _ => 0.5%float) 0.

(** A process that holds a table and has an empty disk, but for the
    directory [out]. *)
Definition bare : State :=
  mkState [example_frame] (mkFS [] ["out"]) None (fun _ => 0.5%float) 0.

(** The input of the sampling with its header and no line below it. *)
Definition header_only : State :=
  mkState []
          (mkFS [("in/frame.csv", Csv (mkSheet ["FacilityID"; "Region"; "Sum_Turnov"] []))]
                ["in"; "out"])
          None (fun _ => 0.5%float) 0.

(** A table the first merge accepts: well formed, with the three columns
    it reads, without the three it creates, and with numbers (possibly
    missing) for identifiers. *)
Definition facility_merge_ready (d : DataFrame) : bool :=
  wfb d
  && forallb (fun c => mem c (columns d)) ["LocName"; "FacilityID"; "Merge_ID"]
  && forallb (fun c => negb (mem c (columns d)))
             ["LocName_merge"; "FacilityID_merge"; "Merge_ID_merge"]
  && numeric "FacilityID" d && numeric "Merge_ID" d.

(** The rows of [d] whose FacilityID is the Merge_ID of row [r]: its
    partners in the first merge. *)
Definition partners (d : DataFrame) (r : Row) : list Row :=
  filter (fun r' => key_eqb (get "Merge_ID" r) (get "FacilityID" r')) (rows d).

(** Three locations, two of which carry the same FacilityID. *)
Definition example_repeated : DataFrame :=
  let cols := ["LocName"; "FacilityID"; "Merge_ID"] in
  mkDF cols
       (relabel (map (fun line => mkRow 0 (combine cols line))
                     [[Str "Acceptor"; Num 1; Num 2];
                      [Str "Donor"; Num 2; NaN];
                      [Str "Donor again"; Num 2; NaN]])).

(** * Properties *)

(** ** Floats and keys *)

Section FloatFacts.

Local Open Scope float_scope.

Lemma SFeqb_same (x y : spec_float) : SFeqb x y = true <-> SF_same x y.
Proof.
  unfold SFeqb, SF_same.
  destruct x as [s1 | s1 | | s1 m1 e1], y as [s2 | s2 | | s2 m2 e2]; cbn;
    try tauto; try (split; [discriminate | tauto]);
    try (destruct s1; (split; [discriminate | tauto]));
    try (destruct s2; (split; [discriminate | tauto])).
  - destruct s1, s2; split; intros H; try discriminate; auto.
  - destruct s1, s2; try (split; [discriminate | intros [H _]; discriminate]);
      destruct (Z.compare_spec e1 e2) as [He | He | He];
      try (split; [discriminate | intros (_ & _ & H); lia]);
      subst; rewrite Pos.compare_cont_spec; cbn;
      destruct (Pos.compare_spec m1 m2) as [Hm | Hm | Hm]; cbn;
      try (split; [discriminate | intros (_ & H & _); lia]);
      subst; tauto.
Qed.

Lemma SF_same_sym (x y : spec_float) : SF_same x y -> SF_same y x.
Proof.
  destruct x, y; cbn; try tauto; try congruence.
  intros (-> & -> & ->); auto.
Qed.

Lemma SF_same_trans (x y z : spec_float) : SF_same x y -> SF_same y z -> SF_same x z.
Proof.
  destruct x, y, z; cbn; try tauto; try congruence.
  intros (-> & -> & ->) (-> & -> & ->); auto.
Qed.

Lemma feqb_sym (x y : float) : (x =? y) = (y =? x).
Proof.
  rewrite !FloatAxioms.eqb_spec.
  destruct (SFeqb (Prim2SF x) (Prim2SF y)) eqn:H1, (SFeqb (Prim2SF y) (Prim2SF x)) eqn:H2;
    try reflexivity.
  - apply SFeqb_same, SF_same_sym, SFeqb_same in H1. congruence.
  - apply SFeqb_same, SF_same_sym, SFeqb_same in H2. congruence.
Qed.

Lemma feqb_trans (x y z : float) : (x =? y) = true -> (y =? z) = true -> (x =? z) = true.
Proof.
  rewrite !FloatAxioms.eqb_spec, !SFeqb_same. apply SF_same_trans.
Qed.

Lemma is_nan_spec (x : float) : is_nan x = true <-> Prim2SF x = S754_nan.
Proof.
  unfold is_nan. rewrite FloatAxioms.eqb_spec.
  destruct (SFeqb (Prim2SF x) (Prim2SF x)) eqn:H; cbn.
  - apply SFeqb_same in H. split; [discriminate |].
    intros E. rewrite E in H. destruct H.
  - split; [intros _ | reflexivity].
    destruct (Prim2SF x) as [s | s | | s m e] eqn:E; try reflexivity;
      exfalso; (assert (SFeqb (Prim2SF x) (Prim2SF x) = true);
                [ apply SFeqb_same; rewrite E; cbn; auto | congruence ]).
Qed.

Lemma feqb_nan_r (x y : float) : is_nan y = true -> (x =? y) = false.
Proof.
  intros H. apply is_nan_spec in H. rewrite FloatAxioms.eqb_spec, H.
  destruct (Prim2SF x); reflexivity.
Qed.

Lemma feqb_nan_l (x y : float) : is_nan x = true -> (x =? y) = false.
Proof. intros H. rewrite feqb_sym. now apply feqb_nan_r. Qed.

(** Dividing by zero gives an infinity or NaN, whatever the dividend. *)
Lemma div_by_zero (x y : float) :
  (y =? 0) = true -> is_infinity (x / y) || is_nan (x / y) = true.
Proof.
  intros H. unfold is_infinity, is_nan.
  rewrite !FloatAxioms.eqb_spec, FloatAxioms.abs_spec, FloatAxioms.div_spec in *.
  change (Prim2SF 0) with (S754_zero false) in H.
  change (Prim2SF infinity) with (S754_infinity false).
  destruct (Prim2SF y) as [s | s | | s m e]; try discriminate;
    destruct (Prim2SF x) as [sx | sx | | sx mx ex]; cbn; try reflexivity.
  all: try (destruct s; discriminate).
Qed.

(** Dividing by zero gives NaN when the dividend is zero or NaN, and an
    infinity otherwise. *)
Lemma div_by_zero_nan (x y : float) :
  (y =? 0) = true -> is_nan (x / y) = (x =? 0) || is_nan x.
Proof.
  intros H. apply eq_true_iff_eq.
  rewrite orb_true_iff, !is_nan_spec, FloatAxioms.div_spec.
  rewrite !FloatAxioms.eqb_spec in *.
  change (Prim2SF 0) with (S754_zero false) in *.
  destruct (Prim2SF y) as [s | s | | s m e]; try discriminate;
    [| destruct s; discriminate | destruct s; discriminate].
  destruct (Prim2SF x) as [sx | sx | | sx mx ex]; cbn.
  - tauto.
  - split; [discriminate |]. intros [E | E]; [destruct sx |]; discriminate.
  - tauto.
  - split; [discriminate |]. intros [E | E]; [destruct sx |]; discriminate.
Qed.

End FloatFacts.

Lemma key_eqb_refl (a : cell) : key_eqb a a = true.
Proof.
  destruct a as [x | s]; cbn.
  - unfold is_nan. destruct (x =? x)%float; reflexivity.
  - apply String.eqb_refl.
Qed.

Lemma key_eqb_sym (a b : cell) : key_eqb a b = key_eqb b a.
Proof.
  destruct a as [x | s], b as [y | t]; cbn; try reflexivity.
  - rewrite feqb_sym. f_equal. apply andb_comm.
  - apply String.eqb_sym.
Qed.

Lemma key_eqb_trans (a b c : cell) :
  key_eqb a b = true -> key_eqb b c = true -> key_eqb a c = true.
Proof.
  destruct a as [x | s], b as [y | t], c as [z | u]; cbn; try discriminate.
  - intros H1 H2.
    apply orb_true_iff in H1. apply orb_true_iff in H2. apply orb_true_iff.
    destruct H1 as [H1 | H1], H2 as [H2 | H2].
    + left. eapply feqb_trans; eauto.
    + apply andb_true_iff in H2. destruct H2 as [Hy _].
      rewrite (feqb_nan_r x y Hy) in H1. discriminate.
    + apply andb_true_iff in H1. destruct H1 as [_ Hy].
      rewrite (feqb_nan_l y z Hy) in H2. discriminate.
    + apply andb_true_iff in H1. apply andb_true_iff in H2.
      right. apply andb_true_iff. tauto.
  - rewrite !String.eqb_eq. congruence.
Qed.

(** A missing key matches missing keys only. *)
Lemma key_eqb_isna (a b : cell) : key_eqb a b = true -> isna a = isna b.
Proof.
  destruct a as [x | s], b as [y | t]; cbn; try discriminate; try reflexivity.
  intros H. apply orb_true_iff in H. destruct H as [H | H].
  - destruct (is_nan x) eqn:Hx.
    + rewrite (feqb_nan_l x y Hx) in H. discriminate.
    + destruct (is_nan y) eqn:Hy; [| reflexivity].
      rewrite (feqb_nan_r x y Hy) in H. discriminate.
  - apply andb_true_iff in H. destruct H as [-> ->]. reflexivity.
Qed.

(** ** Column names and cells of a row *)

Lemma string_app_inv_head (s a b : string) : (s ++ a)%string = (s ++ b)%string -> a = b.
Proof. induction s as [| c s IH]; cbn; [auto |]. intros H. injection H as H. auto. Qed.

Lemma length_append (a b : string) :
  String.length (a ++ b) = String.length a + String.length b.
Proof. induction a as [| x a IH]; cbn; [reflexivity | now rewrite IH]. Qed.

Lemma mem_In (c : string) (l : list string) : mem c l = true <-> In c l.
Proof.
  unfold mem. rewrite existsb_exists. split.
  - intros (x & Hx & E). apply String.eqb_eq in E. now subst.
  - intros H. exists c. split; [assumption | apply String.eqb_refl].
Qed.

Lemma mem_false (c : string) (l : list string) : mem c l = false <-> ~ In c l.
Proof.
  rewrite <- mem_In. destruct (mem c l); split; congruence.
Qed.

Lemma mem_app (c : string) (l1 l2 : list string) : mem c (l1 ++ l2) = mem c l1 || mem c l2.
Proof. unfold mem. apply existsb_app. Qed.

Lemma nodupb_NoDup (l : list string) : nodupb l = true <-> NoDup l.
Proof.
  induction l as [| c l IH]; cbn.
  - split; [constructor | reflexivity].
  - rewrite andb_true_iff, negb_true_iff, mem_false, IH. split.
    + intros [H1 H2]. now constructor.
    + intros H. inversion H; subst. tauto.
Qed.

Lemma lookup_assign_same (c : string) (v : cell) (l : list (string * cell)) :
  lookup c (assign c v l) = v.
Proof.
  induction l as [| [k w] l IH]; cbn.
  - now rewrite String.eqb_refl.
  - destruct (String.eqb c k) eqn:E; cbn; rewrite E; auto.
Qed.

Lemma lookup_assign_other (c c' : string) (v : cell) (l : list (string * cell)) :
  c <> c' -> lookup c (assign c' v l) = lookup c l.
Proof.
  intros Hne. apply String.eqb_neq in Hne.
  induction l as [| [k w] l IH]; cbn.
  - now rewrite Hne.
  - destruct (String.eqb c' k) eqn:E; cbn.
    + apply String.eqb_eq in E. subst k. now rewrite Hne.
    + now rewrite IH.
Qed.

Lemma get_set_same (c : string) (v : cell) (r : Row) : get c (set c v r) = v.
Proof. apply lookup_assign_same. Qed.

Lemma get_set_other (c c' : string) (v : cell) (r : Row) :
  c <> c' -> get c (set c' v r) = get c r.
Proof. apply lookup_assign_other. Qed.

(** ** The store *)

Lemma nth_error_snoc_old {A} (h : list A) (x d : A) (r : nat) :
  nth_error h r = Some d -> nth_error (h ++ [x]) r = Some d.
Proof.
  intros H. rewrite nth_error_app1; [assumption |].
  apply nth_error_Some. congruence.
Qed.

Lemma nth_error_snoc_new {A} (h : list A) (x : A) :
  nth_error (h ++ [x]) (List.length h) = Some x.
Proof.
  rewrite nth_error_app2 by lia. now rewrite Nat.sub_diag.
Qed.

Lemma replace_nth_snoc (h : list DataFrame) (x d : DataFrame) :
  replace_nth (List.length h) d (h ++ [x]) = h ++ [d].
Proof.
  induction h as [| y h IH]; cbn; [reflexivity | now rewrite IH].
Qed.

(** ** Running the monad *)

Lemma deref_ok (r : ref) (d : DataFrame) (st : State) :
  nth_error (heap st) r = Some d -> deref r st = (Ok d, st).
Proof. unfold deref. now intros ->. Qed.

Lemma find_file_write_other (p q : string) (f : file) (fs : FS) :
  q <> p -> find_file q (files (write_file p f fs)) = find_file q (files fs).
Proof.
  intros Hne. cbn. apply String.eqb_neq in Hne. rewrite Hne.
  induction (files fs) as [| [q' f'] l IH]; cbn; [reflexivity |].
  destruct (String.eqb p q') eqn:E; cbn.
  - apply String.eqb_eq in E. subst q'. now rewrite Hne.
  - now rewrite IH.
Qed.

(** ** The overwrite guard *)

(** [write_df_to_excel] refuses an existing path when [overwrite] is off:
    nothing changes, and the message names the path and the remedy. *)
Lemma write_df_to_excel_refuses (df : ref) (outfile : string) (st : State) :
  is_file (disk st) outfile || is_dir (disk st) outfile = true ->
  preparing_sample_frame.write_df_to_excel df outfile false st =
  (Raise (FileExistsError (preparing_sample_frame.file_exists_message outfile)), st)
  /\ preparing_sample_frame.file_exists_message outfile =
     ("The file " ++ outfile ++ " already exists and `overwrite` is False.
Either change the output filename or rerun with `overwrite` as True.")%string.
Proof.
  intros H. split; [| reflexivity].
  unfold preparing_sample_frame.write_df_to_excel, bind, path_exists.
  now rewrite H.
Qed.

(** With [overwrite] on, the file at an existing path is replaced by the
    table, index included. *)
Lemma write_df_to_excel_overwrites (df : ref) (d : DataFrame) (outfile : string) (st : State) :
  nth_error (heap st) df = Some d ->
  is_dir (disk st) outfile = false ->
  is_dir (disk st) (parent outfile) = true ->
  exists st',
    preparing_sample_frame.write_df_to_excel df outfile true st = (Ok tt, st') /\
    find_file outfile (files (disk st')) = Some (Xlsx (to_sheet true d)) /\
    heap st' = heap st.
Proof.
  intros Hd Hp Hpar.
  unfold preparing_sample_frame.write_df_to_excel, bind, path_exists.
  cbn. rewrite andb_false_r.
  unfold to_excel, bind, deref. rewrite Hd. unfold write_to. rewrite Hp, Hpar. cbn.
  eexists. split; [reflexivity |]. cbn. now rewrite String.eqb_refl.
Qed.

(** [write_df] in the script, where [args.outfile] is the path being
    written: the same refusal. *)
Lemma write_df_refuses_in_script (df : ref) (a : Namespace) (st : State) :
  args st = Some a ->
  is_file (disk st) (ns_outfile a) = true ->
  is_dir (disk st) (parent (ns_outfile a)) = true ->
  sampling_code.write_df df (ns_outfile a) false st =
  (Raise (FileExistsError (sampling_code.file_exists_message (ns_outfile a))), st).
Proof.
  intros Ha Hf Hp.
  unfold sampling_code.write_df, bind, path_exists, global_args, raise, ret.
  rewrite Hp, orb_true_r. cbn. rewrite Hf. cbn. rewrite Ha. reflexivity.
Qed.

(** Whatever [args] is, a refused [write_df] leaves every file as it was. *)
Lemma write_df_refusal_writes_nothing (df : ref) (out_file : string) (st : State) :
  is_file (disk st) out_file = true ->
  exists e st',
    sampling_code.write_df df out_file false st = (Raise e, st') /\
    files (disk st') = files (disk st).
Proof.
  intros Hf.
  unfold sampling_code.write_df, bind, path_exists, global_args, raise, ret, mkdir_parents.
  destruct (is_file (disk st) (parent out_file) || is_dir (disk st) (parent out_file)) eqn:Hp;
    cbn.
  - rewrite Hf. cbn. destruct (args st); eauto.
  - rewrite Hp.
    destruct (find (is_file (disk st)) _); cbn; eauto.
    unfold is_file in *. cbn. rewrite Hf. cbn. destruct (args st); eauto.
Qed.

(** Run as a script, where [args] holds the path that [main] passes on, the
    sampling script refuses an existing output with the file-exists error
    for that path. *)
Lemma script_refuses_existing_output :
  fst (sampling_code.script (mkNamespace "in/frame.csv" 2 "out/locations.csv" false)
         (rerun None))
  = Raise (FileExistsError (sampling_code.file_exists_message "out/locations.csv")).
Proof. vm_compute. reflexivity. Qed.

(** C7: [write_df] called where the module global [args] is unbound (the
    module was imported, not run) on a path that exists, with overwrite off:
    the guard raises [NameError] for [args], not the file-exists error, and
    so does [main] called as a function; and where [args] is bound to
    another path, the message names that other path. *)
Theorem write_df_guard_reads_global_args :
  sampling_code.write_df 0 "out/locations.csv" false (output_present None)
  = (Raise (NameError "args"), output_present None)
  /\
  fst (sampling_code.main "in/frame.csv" "out/locations.csv" 2 false (rerun None))
  = Raise (NameError "args")
  /\
  sampling_code.write_df 0 "out/locations.csv" false
    (output_present (Some (mkNamespace "in.csv" 5 "elsewhere.xlsx" false)))
  = (Raise (FileExistsError
       "The output file elsewhere.xlsx already exists and `force` is False.
Either rerun with the `force` option or select a different output filename."),
     output_present (Some (mkNamespace "in.csv" 5 "elsewhere.xlsx" false))).
Proof.
  split; [reflexivity |]. split; [vm_compute; reflexivity | reflexivity].
Qed.

(** ** The end-to-end example *)

(** The example with the five columns the specification lists and no
    location names: [main] stops at its first column selection. *)
Lemma example_without_names_raises_KeyError :
  forall force : bool,
  fst (preparing_sample_frame.main example_infile force (on_disk example_sheet))
  = Raise (KeyError "LocName").
Proof. intros [|]; vm_compute; reflexivity. Qed.

(** C1: on the example's two rows with the columns the frame preparation
    requires (the five of the example and LocName), [main] does not
    succeed.  [merge_turnover_outlets] drops the column "Unnamed: 0" from
    the frame that was merged in memory, and that frame has such a column
    only if the input file had one; here it has none, and [main] raises
    [KeyError] for it, with [force] or without, after the first merged file
    was written and before any draft frame is. *)
Theorem example_as_stated_raises_KeyError :
  forall force : bool,
  let run := preparing_sample_frame.main example_infile force (on_disk example_sheet_named) in
  fst run = Raise (KeyError "Unnamed: 0") /\
  mem "Unnamed: 0" (columns (of_sheet example_sheet_named)) = false /\
  is_file (disk (snd run)) "frame/CPI_New_Sampling_Frame_TableToExcel__ID_Merge_2022.xlsx"
  = true /\
  is_file (disk (snd run)) "frame/CPI_New_Sampling_Frame_Draft_2022.xlsx" = false.
Proof. intros [|]; repeat split; vm_compute; reflexivity. Qed.

(** The same two rows in a spreadsheet that was saved with its row index,
    and so has the column that is dropped: [main] succeeds, and the draft
    frame it writes holds one location, FacilityID 1, with Total_TURNOV
    150, Total_OutletCt 400 and avg_TURNOV 0.375; the location with
    FacilityID 2 is gone. *)
Lemma end_to_end_example :
  forall force : bool,
  let run := preparing_sample_frame.main example_infile force (on_disk example_sheet_indexed) in
  fst run = Ok tt /\
  exists s,
    find_file "frame/CPI_New_Sampling_Frame_Draft_2022.xlsx" (files (disk (snd run)))
    = Some (Xlsx s) /\
    map (fun r => (get "FacilityID" r, get "Total_TURNOV" r,
                   get "Total_OutletCt" r, get "avg_TURNOV" r))
        (rows (of_sheet s))
    = [(Num 1, Num 150, Num 400, Num 0.375)].
Proof.
  intros [|]; (split; [vm_compute; reflexivity |]);
    eexists; (split; [vm_compute; reflexivity |]); vm_compute; reflexivity.
Qed.

(** ** Running the methods on the newest object of the store *)

Lemma bind_eq {A B} (m : M A) (k : A -> M B) (st : State) (r : outcome A * State) :
  m st = r ->
  bind m k st =
  match r with
  | (Ok a, st') => k a st'
  | (Raise e, st') => (Raise e, st')
  end.
Proof. unfold bind. now intros ->. Qed.

Lemma copy_run (st : State) (df : ref) (d : DataFrame) :
  nth_error (heap st) df = Some d ->
  DataFrameObject.copy df st = (Ok (List.length (heap st)), set_heap (heap st ++ [d]) st).
Proof.
  intros H. unfold DataFrameObject.copy, bind, deref, new. now rewrite H.
Qed.

Lemma getitem_run (st : State) (df : ref) (d : DataFrame) (c : string) :
  nth_error (heap st) df = Some d ->
  DataFrameObject.getitem df c st = (pd.getitem c d, st).
Proof.
  intros H. unfold DataFrameObject.getitem, bind, deref, lift. now rewrite H.
Qed.

Lemma getitem_top (st : State) (h : list DataFrame) (x : DataFrame) (c : string) :
  heap st = h ++ [x] ->
  DataFrameObject.getitem (List.length h) c st = (pd.getitem c x, st).
Proof.
  intros H. apply getitem_run. rewrite H. apply nth_error_snoc_new.
Qed.

Lemma mutate_top (st : State) (h : list DataFrame) (x d : DataFrame) :
  heap st = h ++ [x] ->
  mutate (List.length h) d st = (Ok tt, set_heap (h ++ [d]) st).
Proof. intros H. unfold mutate. now rewrite H, replace_nth_snoc. Qed.

Lemma deref_top (st : State) (h : list DataFrame) (x : DataFrame) :
  heap st = h ++ [x] -> deref (List.length h) st = (Ok x, st).
Proof. intros H. apply deref_ok. rewrite H. apply nth_error_snoc_new. Qed.

Lemma setitem_top (st : State) (h : list DataFrame) (x : DataFrame) (c : string)
    (v : list cell) :
  heap st = h ++ [x] ->
  DataFrameObject.setitem (List.length h) c v st =
  (Ok tt, set_heap (h ++ [pd.setitem c v x]) st).
Proof.
  intros H. unfold DataFrameObject.setitem.
  rewrite (bind_eq _ _ _ _ (deref_top _ _ _ H)). now apply mutate_top with (x := x).
Qed.

Lemma fillna_top (st : State) (h : list DataFrame) (x : DataFrame) (v : cell) :
  heap st = h ++ [x] ->
  DataFrameObject.fillna_inplace (List.length h) v st =
  (Ok tt, set_heap (h ++ [pd.fillna v x]) st).
Proof.
  intros H. unfold DataFrameObject.fillna_inplace.
  rewrite (bind_eq _ _ _ _ (deref_top _ _ _ H)). now apply mutate_top with (x := x).
Qed.

Lemma drop_top (st : State) (h : list DataFrame) (x : DataFrame) (cs : list string) :
  heap st = h ++ [x] ->
  DataFrameObject.drop_inplace (List.length h) cs st =
  match pd.drop cs x with
  | Ok x' => (Ok tt, set_heap (h ++ [x']) st)
  | Raise e => (Raise e, st)
  end.
Proof.
  intros H. unfold DataFrameObject.drop_inplace.
  rewrite (bind_eq _ _ _ _ (deref_top _ _ _ H)).
  unfold bind, lift. destruct (pd.drop cs x); [now apply mutate_top with (x := x) | reflexivity].
Qed.

Lemma sort_top (st : State) (h : list DataFrame) (x : DataFrame) (c : string) :
  heap st = h ++ [x] ->
  DataFrameObject.sort_values_desc_inplace (List.length h) c st =
  match pd.sort_values_desc c x with
  | Ok x' => (Ok tt, set_heap (h ++ [x']) st)
  | Raise e => (Raise e, st)
  end.
Proof.
  intros H. unfold DataFrameObject.sort_values_desc_inplace.
  rewrite (bind_eq _ _ _ _ (deref_top _ _ _ H)).
  unfold bind, lift. destruct (pd.sort_values_desc c x); [now apply mutate_top with (x := x) | reflexivity].
Qed.

Lemma len_top (st : State) (h : list DataFrame) (x : DataFrame) :
  heap st = h ++ [x] ->
  DataFrameObject.len (List.length h) st = (Ok (List.length (rows x)), st).
Proof.
  intros H. unfold DataFrameObject.len.
  now rewrite (bind_eq _ _ _ _ (deref_top _ _ _ H)).
Qed.

Ltac exec lem := erewrite bind_eq by (eapply lem; cbn; reflexivity); cbn beta iota.
Ltac exec_lift o :=
  unfold bind at 1, lift at 1; destruct o eqn:?; cbn [obind].
Ltac stop := eexists; reflexivity.

(** ** Turnover postprocessing *)

(** [postproc_turnover_df] copies its argument, works on the copy and hands
    the copy back; whatever the outcome, the store gains one object and
    keeps the others. *)
Lemma postproc_run (st : State) (df : ref) (d : DataFrame) :
  nth_error (heap st) df = Some d ->
  exists x,
    preparing_sample_frame.postproc_turnover_df df st =
    match postproc_value d with
    | Ok d' => (Ok (List.length (heap st)), set_heap (heap st ++ [d']) st)
    | Raise e => (Raise e, set_heap (heap st ++ [x]) st)
    end.
Proof.
  intros Hd. unfold preparing_sample_frame.postproc_turnover_df, postproc_value.
  erewrite bind_eq by (apply copy_run; eassumption). cbn beta iota.
  exec fillna_top.
  exec getitem_top. destruct (pd.getitem "Sum_Turnov" _); cbn [obind]; [| stop].
  exec getitem_top. destruct (pd.getitem "Sum_Turnov_loc2" _); cbn [obind]; [| stop].
  exec_lift (pd.add a a0); [| stop].
  exec setitem_top.
  exec getitem_top. destruct (pd.getitem "OutletCt" _); cbn [obind]; [| stop].
  exec getitem_top. destruct (pd.getitem "OutletCt_loc2" _); cbn [obind]; [| stop].
  exec_lift (pd.add a2 a3); [| stop].
  exec setitem_top.
  exec getitem_top. destruct (pd.getitem "Total_TURNOV" _); cbn [obind]; [| stop].
  exec getitem_top. destruct (pd.getitem "Total_OutletCt" _); cbn [obind]; [| stop].
  exec_lift (pd.truediv a5 a6); [| stop].
  exec setitem_top.
  exists d. reflexivity.
Qed.

(** *** Columns as maps over the rows *)

Lemma getitem_mem (c : string) (d : DataFrame) :
  mem c (columns d) = true -> pd.getitem c d = Ok (map (get c) (rows d)).
Proof. unfold pd.getitem. now intros ->. Qed.

Lemma mem_add_column (c c' : string) (cols : list string) :
  mem c (add_column c' cols) = mem c cols || String.eqb c c'.
Proof.
  unfold add_column. destruct (mem c' cols) eqn:E.
  - destruct (String.eqb c c') eqn:E'.
    + apply String.eqb_eq in E'. subst. now rewrite E.
    + now rewrite orb_false_r.
  - rewrite mem_app. cbn. now rewrite orb_false_r.
Qed.

Lemma mem_add_column_old (c c' : string) (cols : list string) :
  mem c cols = true -> mem c (add_column c' cols) = true.
Proof. intros H. now rewrite mem_add_column, H. Qed.

Lemma mem_add_column_new (c : string) (cols : list string) :
  mem c (add_column c cols) = true.
Proof. rewrite mem_add_column, String.eqb_refl. apply orb_true_r. Qed.

Lemma setitem_map (c : string) (g : Row -> cell) (d : DataFrame) :
  pd.setitem c (map g (rows d)) d =
  mkDF (add_column c (columns d)) (map (fun r => set c (g r) r) (rows d)).
Proof.
  unfold pd.setitem. f_equal.
  induction (rows d) as [| r rs IH]; cbn; [reflexivity | now rewrite IH].
Qed.

Lemma add_numeric (a b : string) (rs : list Row) :
  forallb (fun r => is_num (get a r)) rs = true ->
  forallb (fun r => is_num (get b r)) rs = true ->
  pd.add (map (get a) rs) (map (get b) rs) =
  Ok (map (fun r => Num (num (get a r) + num (get b r))%float) rs).
Proof.
  unfold pd.add. induction rs as [| r rs IH]; cbn; [reflexivity |].
  rewrite !andb_true_iff. intros [Ha Has] [Hb Hbs].
  destruct (get a r), (get b r); try discriminate. cbn.
  now rewrite IH.
Qed.

Lemma truediv_numeric (a b : string) (rs : list Row) :
  forallb (fun r => is_num (get a r)) rs = true ->
  forallb (fun r => is_num (get b r)) rs = true ->
  pd.truediv (map (get a) rs) (map (get b) rs) =
  Ok (map (fun r => Num (num (get a r) / num (get b r))%float) rs).
Proof.
  unfold pd.truediv. induction rs as [| r rs IH]; cbn; [reflexivity |].
  rewrite !andb_true_iff. intros [Ha Has] [Hb Hbs].
  destruct (get a r), (get b r); try discriminate. cbn.
  now rewrite IH.
Qed.

Lemma lookup_fillna (c : string) (v : cell) (l : list (string * cell)) :
  In c (map fst l) ->
  lookup c (map (fun kv => (fst kv, if isna (snd kv) then v else snd kv)) l) =
  if isna (lookup c l) then v else lookup c l.
Proof.
  induction l as [| [k w] l IH]; cbn; [tauto |].
  intros [-> | H].
  - now rewrite String.eqb_refl.
  - destruct (String.eqb c k); [reflexivity | auto].
Qed.

Lemma is_num_lookup_fillna (c : string) (l : list (string * cell)) :
  is_num (lookup c (map (fun kv => (fst kv, if isna (snd kv) then Num 0 else snd kv)) l)) =
  is_num (lookup c l).
Proof.
  induction l as [| [k w] l IH]; cbn; [reflexivity |].
  destruct (String.eqb c k); [| assumption].
  destruct w; cbn; [destruct (is_nan x) |]; reflexivity.
Qed.

Lemma numeric_map (c : string) (f : Row -> Row) (rs : list Row) :
  (forall r, is_num (get c (f r)) = is_num (get c r)) ->
  forallb (fun r => is_num (get c r)) (map f rs) = forallb (fun r => is_num (get c r)) rs.
Proof.
  intros H. induction rs as [| r rs IH]; cbn; [reflexivity | now rewrite H, IH].
Qed.

Lemma same_names_eq (a b : list string) : same_names a b = true <-> a = b.
Proof.
  revert b. induction a as [| x a IH]; intros [| y b]; cbn;
    try (split; [discriminate | discriminate]); try tauto.
  rewrite andb_true_iff, String.eqb_eq, IH. split.
  - intros [-> ->]. reflexivity.
  - intros E. inversion E. auto.
Qed.

Lemma wfb_wf (d : DataFrame) : wfb d = true -> wf d.
Proof.
  unfold wfb, wf. rewrite andb_true_iff, nodupb_NoDup, forallb_forall, Forall_forall.
  intros [H1 H2]. split; [assumption |].
  intros r Hr. apply same_names_eq. auto.
Qed.

(** On a merged table postprocessing succeeds, row by row as [postproc_row]
    says. *)
Lemma postproc_value_merged (d : DataFrame) :
  merged_table d = true ->
  postproc_value d =
  Ok (mkDF (add_column "avg_TURNOV"
              (add_column "Total_OutletCt" (add_column "Total_TURNOV" (columns d))))
           (map postproc_row (rows d))).
Proof.
  unfold merged_table. cbn [forallb]. rewrite !andb_true_iff.
  intros (_ & (M1 & N1) & (M2 & N2) & (M3 & N3) & (M4 & N4) & _).
  unfold numeric in *. unfold postproc_value.
  set (d1 := pd.fillna (Num 0) d).
  assert (F : forall c, forallb (fun r => is_num (get c r)) (rows d1) =
                        forallb (fun r => is_num (get c r)) (rows d)).
  { intros c. apply numeric_map. intros r. apply is_num_lookup_fillna. }
  rewrite (getitem_mem "Sum_Turnov" d1), (getitem_mem "Sum_Turnov_loc2" d1) by assumption.
  cbn [obind]. rewrite add_numeric by (rewrite F; assumption). cbn [obind].
  rewrite setitem_map.
  set (d2 := mkDF _ _).
  assert (F2 : forall c, c <> "Total_TURNOV" ->
             forallb (fun r => is_num (get c r)) (rows d2) =
             forallb (fun r => is_num (get c r)) (rows d)).
  { intros c Hc. unfold d2. cbn [rows]. rewrite numeric_map, F; [reflexivity |].
    intros r. now rewrite get_set_other. }
  rewrite (getitem_mem "OutletCt" d2), (getitem_mem "OutletCt_loc2" d2)
    by (apply mem_add_column_old; assumption).
  cbn [obind]. rewrite add_numeric by (rewrite F2; [assumption | discriminate]).
  cbn [obind]. rewrite setitem_map.
  set (d3 := mkDF _ _).
  rewrite (getitem_mem "Total_TURNOV" d3)
    by (apply mem_add_column_old, mem_add_column_new).
  rewrite (getitem_mem "Total_OutletCt" d3) by apply mem_add_column_new.
  cbn [obind].
  rewrite truediv_numeric.
  - cbn [obind]. rewrite setitem_map. unfold d3, d2, d1. cbn [rows columns pd.fillna].
    rewrite !map_map. reflexivity.
  - unfold d3, d2. cbn [rows]. rewrite !forallb_forall. intros r Hr.
    apply in_map_iff in Hr. destruct Hr as (r2 & <- & Hr).
    apply in_map_iff in Hr. destruct Hr as (r1 & <- & Hr).
    rewrite get_set_other by discriminate. now rewrite get_set_same.
  - unfold d3. cbn [rows]. rewrite !forallb_forall. intros r Hr.
    apply in_map_iff in Hr. destruct Hr as (r2 & <- & Hr).
    now rewrite get_set_same.
Qed.

Lemma wf_row_In (d : DataFrame) (r : Row) (c : string) :
  wf d -> In r (rows d) -> In c (columns d) -> In c (map fst (cells r)).
Proof.
  intros [_ H] Hr Hc. rewrite Forall_forall in H. now rewrite (H r Hr).
Qed.

Lemma merged_table_numeric (d : DataFrame) (r : Row) (c : string) :
  merged_table d = true -> In r (rows d) ->
  In c ["Sum_Turnov"; "Sum_Turnov_loc2"; "OutletCt"; "OutletCt_loc2"] ->
  is_num (get c (fillna_row (Num 0) r)) = true.
Proof.
  unfold merged_table. rewrite andb_true_iff, forallb_forall.
  intros [_ H] Hr Hc. specialize (H c Hc). apply andb_true_iff in H.
  destruct H as [_ H]. unfold numeric in H. rewrite forallb_forall in H.
  unfold get, fillna_row. cbn [cells]. rewrite is_num_lookup_fillna. now apply H.
Qed.

(** Postprocessing a merged table succeeds; the result is the new object
    [List.length (heap st)], holding the rows [postproc_row] makes. *)
Lemma postproc_merged_run (st : State) (df : ref) (d : DataFrame) :
  nth_error (heap st) df = Some d ->
  merged_table d = true ->
  exists d' st',
    preparing_sample_frame.postproc_turnover_df df st = (Ok (List.length (heap st)), st') /\
    nth_error (heap st') (List.length (heap st)) = Some d' /\
    rows d' = map postproc_row (rows d).
Proof.
  intros Hd Hm. destruct (postproc_run st df d Hd) as [x Hrun].
  rewrite (postproc_value_merged d Hm) in Hrun.
  eexists. eexists. split; [exact Hrun |]. split.
  - cbn. apply nth_error_snoc_new.
  - reflexivity.
Qed.

(** C3: on a merged table, postprocessing replaces every missing value by 0
    and then, in every row, Total_TURNOV is Sum_Turnov + Sum_Turnov_loc2 and
    Total_OutletCt is OutletCt + OutletCt_loc2, on the replaced values. *)
Theorem aggregation_identity (st : State) (df : ref) (d : DataFrame) :
  nth_error (heap st) df = Some d ->
  merged_table d = true ->
  exists out d' st',
    preparing_sample_frame.postproc_turnover_df df st = (Ok out, st') /\
    nth_error (heap st') out = Some d' /\
    List.length (rows d') = List.length (rows d) /\
    forall i r r',
      nth_error (rows d) i = Some r ->
      nth_error (rows d') i = Some r' ->
      (forall c, In c (columns d) ->
                 c <> "Total_TURNOV" -> c <> "Total_OutletCt" -> c <> "avg_TURNOV" ->
                 get c r' = if isna (get c r) then Num 0 else get c r) /\
      cell_add (get "Sum_Turnov" r') (get "Sum_Turnov_loc2" r') = Ok (get "Total_TURNOV" r') /\
      cell_add (get "OutletCt" r') (get "OutletCt_loc2" r') = Ok (get "Total_OutletCt" r').
Proof.
  intros Hd Hm.
  destruct (postproc_merged_run st df d Hd Hm) as (d' & st' & Hrun & Hout & Hrows).
  exists (List.length (heap st)), d', st'.
  split; [assumption |]. split; [assumption |]. split.
  { rewrite Hrows. apply length_map. }
  intros i r r' Hr Hr'.
  rewrite Hrows, nth_error_map, Hr in Hr'. cbn in Hr'. injection Hr' as <-.
  assert (Hin : In r (rows d)) by (eapply nth_error_In; eassumption).
  assert (Hwf : wf d).
  { unfold merged_table in Hm. apply andb_true_iff in Hm. now apply wfb_wf. }
  unfold postproc_row. split; [| split].
  - intros c Hc H1 H2 H3.
    rewrite !get_set_other by assumption.
    unfold get, fillna_row. cbn [cells].
    apply lookup_fillna. eapply wf_row_In; eassumption.
  - rewrite !get_set_other by discriminate. rewrite get_set_same.
    pose proof (merged_table_numeric d r "Sum_Turnov" Hm Hin) as N1.
    pose proof (merged_table_numeric d r "Sum_Turnov_loc2" Hm Hin) as N2.
    destruct (get "Sum_Turnov" (fillna_row (Num 0) r));
      [| discriminate N1; cbn; tauto].
    destruct (get "Sum_Turnov_loc2" (fillna_row (Num 0) r));
      [| discriminate N2; cbn; tauto].
    reflexivity.
  - rewrite !get_set_other by discriminate. rewrite get_set_same.
    rewrite ?get_set_other by discriminate.
    pose proof (merged_table_numeric d r "OutletCt" Hm Hin) as N1.
    pose proof (merged_table_numeric d r "OutletCt_loc2" Hm Hin) as N2.
    destruct (get "OutletCt" (fillna_row (Num 0) r));
      [| discriminate N1; cbn; tauto].
    destruct (get "OutletCt_loc2" (fillna_row (Num 0) r));
      [| discriminate N2; cbn; tauto].
    reflexivity.
Qed.

Lemma aggregation_identity_witness :
  exists out d' st',
    preparing_sample_frame.postproc_turnover_df 0 (holding example_merged) = (Ok out, st') /\
    nth_error (heap st') out = Some d' /\
    List.length (rows d') = List.length (rows example_merged) /\
    forall i r r',
      nth_error (rows example_merged) i = Some r ->
      nth_error (rows d') i = Some r' ->
      (forall c, In c (columns example_merged) ->
                 c <> "Total_TURNOV" -> c <> "Total_OutletCt" -> c <> "avg_TURNOV" ->
                 get c r' = if isna (get c r) then Num 0 else get c r) /\
      cell_add (get "Sum_Turnov" r') (get "Sum_Turnov_loc2" r') = Ok (get "Total_TURNOV" r') /\
      cell_add (get "OutletCt" r') (get "OutletCt_loc2" r') = Ok (get "Total_OutletCt" r').
Proof.
  apply (aggregation_identity (holding example_merged) 0 example_merged); reflexivity.
Defined.

(** C8: on a merged table postprocessing goes through, whatever the outlet
    counts are.  The result has the rows of the input, one for one, and a
    column avg_TURNOV; in each row Total_TURNOV and Total_OutletCt are the
    sums of the row's two turnovers and of its two outlet counts, a missing
    value counting 0, and avg_TURNOV is their quotient as floats divide.
    So in a row whose outlets sum to zero the average is an infinity or
    NaN: NaN when the turnover sums to zero (or is NaN), an infinity
    otherwise. *)
Theorem division_by_zero_is_not_fatal (st : State) (df : ref) (d : DataFrame) :
  nth_error (heap st) df = Some d ->
  merged_table d = true ->
  exists out d' st',
    preparing_sample_frame.postproc_turnover_df df st = (Ok out, st') /\
    nth_error (heap st') out = Some d' /\
    In "avg_TURNOV" (columns d') /\
    List.length (rows d') = List.length (rows d) /\
    forall i r,
      nth_error (rows d) i = Some r ->
      exists r' turnover outlets,
        nth_error (rows d') i = Some r' /\
        cell_add (if isna (get "Sum_Turnov" r) then Num 0 else get "Sum_Turnov" r)
                 (if isna (get "Sum_Turnov_loc2" r) then Num 0 else get "Sum_Turnov_loc2" r)
        = Ok (Num turnover) /\
        cell_add (if isna (get "OutletCt" r) then Num 0 else get "OutletCt" r)
                 (if isna (get "OutletCt_loc2" r) then Num 0 else get "OutletCt_loc2" r)
        = Ok (Num outlets) /\
        get "Total_TURNOV" r' = Num turnover /\
        get "Total_OutletCt" r' = Num outlets /\
        get "avg_TURNOV" r' = Num (turnover / outlets) /\
        ((outlets =? 0)%float = true ->
         is_infinity (turnover / outlets) || is_nan (turnover / outlets) = true /\
         is_nan (turnover / outlets) = (turnover =? 0)%float || is_nan turnover).
Proof.
  intros Hd Hm. destruct (postproc_run st df d Hd) as [x Hrun].
  rewrite (postproc_value_merged d Hm) in Hrun.
  do 3 eexists. split; [exact Hrun |]. cbn [heap set_heap].
  split; [apply nth_error_snoc_new |]. cbn [columns rows].
  split; [apply mem_In, mem_add_column_new |].
  split; [apply length_map |].
  intros i r Hr.
  assert (Hin : In r (rows d)) by (eapply nth_error_In; eassumption).
  assert (Hwf : wf d).
  { unfold merged_table in Hm. apply andb_true_iff in Hm. now apply wfb_wf. }
  assert (Hfill : forall c,
             In c ["Sum_Turnov"; "Sum_Turnov_loc2"; "OutletCt"; "OutletCt_loc2"] ->
             get c (fillna_row (Num 0) r) = (if isna (get c r) then Num 0 else get c r) /\
             is_num (get c (fillna_row (Num 0) r)) = true).
  { intros c Hc. split; [| now apply (merged_table_numeric d)].
    unfold get, fillna_row. cbn [cells]. apply lookup_fillna.
    apply (wf_row_In d); [assumption | assumption |]. apply mem_In.
    unfold merged_table in Hm. rewrite andb_true_iff, forallb_forall in Hm.
    destruct Hm as [_ Hm]. specialize (Hm c Hc). now apply andb_true_iff in Hm. }
  destruct (Hfill "Sum_Turnov") as [<- N1]; [cbn; tauto |].
  destruct (Hfill "Sum_Turnov_loc2") as [<- N2]; [cbn; tauto |].
  destruct (Hfill "OutletCt") as [<- N3]; [cbn; tauto |].
  destruct (Hfill "OutletCt_loc2") as [<- N4]; [cbn; tauto |].
  exists (postproc_row r),
    (num (get "Sum_Turnov" (fillna_row (Num 0) r))
     + num (get "Sum_Turnov_loc2" (fillna_row (Num 0) r)))%float,
    (num (get "OutletCt" (fillna_row (Num 0) r))
     + num (get "OutletCt_loc2" (fillna_row (Num 0) r)))%float.
  split; [now rewrite nth_error_map, Hr |].
  split; [destruct (get "Sum_Turnov" (fillna_row (Num 0) r)); [| discriminate N1];
          destruct (get "Sum_Turnov_loc2" (fillna_row (Num 0) r)); [| discriminate N2];
          reflexivity |].
  split; [destruct (get "OutletCt" (fillna_row (Num 0) r)); [| discriminate N3];
          destruct (get "OutletCt_loc2" (fillna_row (Num 0) r)); [| discriminate N4];
          reflexivity |].
  unfold postproc_row.
  split; [now rewrite !get_set_other, get_set_same by discriminate |].
  split; [rewrite get_set_other, get_set_same by discriminate;
          now rewrite !get_set_other by discriminate |].
  split.
  - rewrite get_set_same, get_set_same.
    rewrite (get_set_other "Total_TURNOV" "Total_OutletCt"), get_set_same by discriminate.
    cbn [num]. now rewrite !get_set_other by discriminate.
  - intros Hzero. split; [now apply div_by_zero | now apply div_by_zero_nan].
Qed.

Lemma division_by_zero_is_not_fatal_witness :
  exists out d' st',
    preparing_sample_frame.postproc_turnover_df 0 (holding example_merged) = (Ok out, st') /\
    nth_error (heap st') out = Some d' /\
    In "avg_TURNOV" (columns d') /\
    List.length (rows d') = List.length (rows example_merged) /\
    forall i r,
      nth_error (rows example_merged) i = Some r ->
      exists r' turnover outlets,
        nth_error (rows d') i = Some r' /\
        cell_add (if isna (get "Sum_Turnov" r) then Num 0 else get "Sum_Turnov" r)
                 (if isna (get "Sum_Turnov_loc2" r) then Num 0 else get "Sum_Turnov_loc2" r)
        = Ok (Num turnover) /\
        cell_add (if isna (get "OutletCt" r) then Num 0 else get "OutletCt" r)
                 (if isna (get "OutletCt_loc2" r) then Num 0 else get "OutletCt_loc2" r)
        = Ok (Num outlets) /\
        get "Total_TURNOV" r' = Num turnover /\
        get "Total_OutletCt" r' = Num outlets /\
        get "avg_TURNOV" r' = Num (turnover / outlets) /\
        ((outlets =? 0)%float = true ->
         is_infinity (turnover / outlets) || is_nan (turnover / outlets) = true /\
         is_nan (turnover / outlets) = (turnover =? 0)%float || is_nan turnover).
Proof.
  apply (division_by_zero_is_not_fatal (holding example_merged) 0 example_merged);
    reflexivity.
Defined.

(** ** The size/role filter *)

Lemma subseq_filter {A} (f : A -> bool) (l : list A) : subseq (filter f l) l.
Proof.
  induction l as [| x l IH]; cbn; [constructor |].
  destruct (f x); now constructor.
Qed.

Lemma boolean_index_map (p : Row -> bool) (d : DataFrame) :
  pd.boolean_index (map p (rows d)) d = mkDF (columns d) (filter p (rows d)).
Proof.
  unfold pd.boolean_index. f_equal.
  induction (rows d) as [| r rs IH]; cbn; [reflexivity |].
  destruct (p r); cbn; now rewrite IH.
Qed.

Lemma ge_numeric (c : string) (bound : float) (rs : list Row) :
  forallb (fun r => is_num (get c r)) rs = true ->
  pd.ge (map (get c) rs) bound = Ok (map (fun r => (bound <=? num (get c r))%float) rs).
Proof.
  unfold pd.ge. induction rs as [| r rs IH]; cbn; [reflexivity |].
  rewrite andb_true_iff. intros [H Hs].
  destruct (get c r); try discriminate. cbn. now rewrite IH.
Qed.

Lemma and_mask_map (p q : Row -> bool) (rs : list Row) :
  pd.and_mask (map p rs) (map q rs) = map (fun r => p r && q r) rs.
Proof.
  unfold pd.and_mask. induction rs as [| r rs IH]; cbn; [reflexivity | now rewrite IH].
Qed.

(** On a table with a numeric Total_OutletCt the query keeps the rows the
    specification keeps. *)
Lemma query_value (d : DataFrame) :
  mem "Total_OutletCt" (columns d) = true ->
  mem "Merge_Num" (columns d) = true ->
  numeric "Total_OutletCt" d = true ->
  pd.query_ge_and_ne "Total_OutletCt" 250 "Merge_Num" 2 d =
  Ok (mkDF (columns d) (spec_size_role_filter (rows d))).
Proof.
  intros M1 M2 N. unfold pd.query_ge_and_ne. rewrite M1, M2. cbn [negb].
  rewrite ge_numeric by assumption. cbn [obind].
  unfold pd.ne. rewrite map_map, and_mask_map, boolean_index_map.
  unfold spec_size_role_filter. do 2 f_equal.
  apply filter_ext_in. intros r Hr. unfold spec_keeps.
  unfold numeric in N. rewrite forallb_forall in N. specialize (N r Hr).
  destruct (get "Total_OutletCt" r); [reflexivity | discriminate].
Qed.

(** A postprocessed table has a numeric Total_OutletCt column. *)
Lemma postprocessed_numeric (d0 d : DataFrame) :
  merged_table d0 = true -> postproc_value d0 = Ok d ->
  mem "Total_OutletCt" (columns d) = true /\ numeric "Total_OutletCt" d = true.
Proof.
  intros Hm Hv. rewrite (postproc_value_merged d0 Hm) in Hv. injection Hv as <-.
  split.
  - cbn [columns]. apply mem_add_column_old, mem_add_column_new.
  - unfold numeric. cbn [rows]. rewrite forallb_forall. intros r Hr.
    apply in_map_iff in Hr. destruct Hr as (r0 & <- & _).
    unfold postproc_row. rewrite get_set_other by discriminate.
    now rewrite get_set_same.
Qed.



(** ** Writing a table with its index *)

Lemma write_df_to_excel_run (st : State) (df : ref) (d : DataFrame) (outfile : string)
    (overwrite : bool) :
  nth_error (heap st) df = Some d ->
  can_write (disk st) outfile overwrite = true ->
  preparing_sample_frame.write_df_to_excel df outfile overwrite st =
  (Ok tt, set_disk (write_file outfile (Xlsx (to_sheet true d)) (disk st)) st).
Proof.
  intros Hd Hw. unfold can_write in Hw. rewrite !andb_true_iff in Hw.
  destruct Hw as [[Hex Hdir] Hpar]. apply negb_true_iff in Hdir.
  unfold preparing_sample_frame.write_df_to_excel, bind, path_exists.
  assert (E : (is_file (disk st) outfile || is_dir (disk st) outfile) && negb overwrite = false).
  { destruct overwrite; [apply andb_false_r |]. cbn in Hex.
    apply negb_true_iff in Hex. now rewrite Hex. }
  rewrite E. unfold to_excel, bind, deref. rewrite Hd. unfold write_to.
  now rewrite Hdir, Hpar.
Qed.

Lemma write_df_to_excel_inv (st st' : State) (df : ref) (outfile : string) (overwrite : bool) :
  preparing_sample_frame.write_df_to_excel df outfile overwrite st = (Ok tt, st') ->
  exists d,
    nth_error (heap st) df = Some d /\
    st' = set_disk (write_file outfile (Xlsx (to_sheet true d)) (disk st)) st.
Proof.
  unfold preparing_sample_frame.write_df_to_excel, bind, path_exists, raise.
  destruct ((is_file (disk st) outfile || is_dir (disk st) outfile) && negb overwrite);
    [discriminate |].
  unfold to_excel, bind, deref.
  destruct (nth_error (heap st) df) as [d |]; [| discriminate].
  unfold write_to.
  destruct (is_dir (disk st) outfile); [discriminate |].
  destruct (negb (is_dir (disk st) (parent outfile))); [discriminate |].
  intros H. injection H as <-. eauto.
Qed.

(** Writing never touches the store. *)
Lemma write_df_to_excel_heap (st : State) (df : ref) (outfile : string) (overwrite : bool) :
  heap (snd (preparing_sample_frame.write_df_to_excel df outfile overwrite st)) = heap st.
Proof.
  unfold preparing_sample_frame.write_df_to_excel, bind, path_exists, raise.
  destruct ((is_file (disk st) outfile || is_dir (disk st) outfile) && negb overwrite);
    [reflexivity |].
  unfold to_excel, bind, deref.
  destruct (nth_error (heap st) df) as [d |]; [| reflexivity].
  unfold write_to.
  destruct (is_dir (disk st) outfile); [reflexivity |].
  destruct (negb (is_dir (disk st) (parent outfile))); reflexivity.
Qed.

(** ** Duplicate detection *)

Lemma duplicated_run (st : State) (df : ref) (d : DataFrame) (c : string) :
  nth_error (heap st) df = Some d ->
  DataFrameObject.duplicated df c st = (pd.duplicated c d, st).
Proof.
  intros H. unfold DataFrameObject.duplicated, bind, deref, lift. now rewrite H.
Qed.

Lemma boolean_index_run (st : State) (df : ref) (d : DataFrame) (mask : list bool) :
  nth_error (heap st) df = Some d ->
  DataFrameObject.boolean_index df mask st =
  (Ok (List.length (heap st)), set_heap (heap st ++ [pd.boolean_index mask d]) st).
Proof.
  intros H. unfold DataFrameObject.boolean_index, bind, deref, new. now rewrite H.
Qed.

Lemma save_df_duplicates_run (st : State) (df : ref) (d : DataFrame) (col outfile : string)
    (overwrite : bool) :
  nth_error (heap st) df = Some d ->
  preparing_sample_frame.save_df_duplicates df col outfile overwrite st =
  match duplicates_value col d with
  | Ok selected =>
      preparing_sample_frame.write_df_to_excel (List.length (heap st)) outfile overwrite
        (set_heap (heap st ++ [selected]) st)
  | Raise e => (Raise e, st)
  end.
Proof.
  intros Hd. unfold preparing_sample_frame.save_df_duplicates, duplicates_value.
  rewrite (bind_eq _ _ _ _ (duplicated_run _ _ _ _ Hd)).
  destruct (pd.duplicated col d) as [mask | e]; cbn [obind]; [| reflexivity].
  now rewrite (bind_eq _ _ _ _ (boolean_index_run _ _ _ _ Hd)).
Qed.

Lemma subseq_nil_l {A} (l : list A) : subseq [] l.
Proof. induction l; constructor; auto. Qed.

Lemma subseq_boolean_index (mask : list bool) (d : DataFrame) :
  subseq (rows (pd.boolean_index mask d)) (rows d).
Proof.
  unfold pd.boolean_index. cbn [rows].
  revert mask. induction (rows d) as [| x rs IH]; intros [| b m]; cbn;
    try apply subseq_nil_l.
  destruct b; cbn; constructor; apply IH.
Qed.

Lemma boolean_index_In (mask : list bool) (d : DataFrame) (r : Row) :
  In r (rows (pd.boolean_index mask d)) <->
  exists i, nth_error (rows d) i = Some r /\ nth_error mask i = Some true.
Proof.
  unfold pd.boolean_index. cbn [rows].
  revert mask. induction (rows d) as [| x rs IH]; intros mask.
  - cbn. split; [tauto | intros ([| i] & H & _); discriminate].
  - destruct mask as [| b mask].
    + cbn. split; [tauto | intros ([| i] & _ & H); discriminate].
    + cbn [combine filter snd]. destruct b; cbn [map fst In]; rewrite IH; split.
      * intros [-> | (i & H1 & H2)]; [exists 0 | exists (S i)]; auto.
      * intros ([| i] & H1 & H2); cbn in *; [left; congruence | right; eauto].
      * intros (i & H1 & H2). exists (S i). auto.
      * intros ([| i] & H1 & H2); cbn in *; [discriminate | eauto].
Qed.

(** A value occurs at least twice in a list exactly when it occurs at
    another position than a given one of its own. *)
Lemma occurs_twice (l : list cell) (i : nat) (v : cell) :
  nth_error l i = Some v ->
  (2 <=? List.length (filter (key_eqb v) l))%nat = true <->
  exists j w, j <> i /\ nth_error l j = Some w /\ key_eqb v w = true.
Proof.
  intros Hi. rewrite Nat.leb_le.
  destruct (nth_error_split l i Hi) as (l1 & l2 & -> & Hlen).
  rewrite filter_app, length_app. cbn [filter]. rewrite key_eqb_refl. cbn [List.length].
  split.
  - intros H.
    destruct (filter (key_eqb v) l1) as [| w ws] eqn:E1.
    + destruct (filter (key_eqb v) l2) as [| w ws] eqn:E2; [cbn in H; lia |].
      assert (Hw : In w (filter (key_eqb v) l2)) by (rewrite E2; now left).
      apply filter_In in Hw. destruct Hw as [Hw Hk].
      apply In_nth_error in Hw. destruct Hw as [j Hj].
      exists (List.length l1 + S j), w. split; [lia |]. split; [| assumption].
      rewrite nth_error_app2 by lia.
      replace (List.length l1 + S j - List.length l1) with (S j) by lia. exact Hj.
    + assert (Hw : In w (filter (key_eqb v) l1)) by (rewrite E1; now left).
      apply filter_In in Hw. destruct Hw as [Hw Hk].
      apply In_nth_error in Hw. destruct Hw as [j Hj].
      assert (j < List.length l1) by (apply nth_error_Some; congruence).
      exists j, w. split; [lia |]. split; [| assumption].
      now rewrite nth_error_app1.
  - intros (j & w & Hne & Hj & Hk).
    destruct (Nat.lt_ge_cases j (List.length l1)) as [Hlt | Hge].
    + rewrite nth_error_app1 in Hj by assumption.
      assert (Hw : In w (filter (key_eqb v) l1)).
      { apply filter_In. split; [eapply nth_error_In; eassumption | assumption]. }
      destruct (filter (key_eqb v) l1); [destruct Hw | cbn; lia].
    + rewrite nth_error_app2 in Hj by assumption.
      destruct (j - List.length l1) as [| k] eqn:Ek; [lia |]. cbn in Hj.
      assert (Hw : In w (filter (key_eqb v) l2)).
      { apply filter_In. split; [eapply nth_error_In; eassumption | assumption]. }
      destruct (filter (key_eqb v) l2); [destruct Hw | cbn; lia].
Qed.

(** C5: [save_df_duplicates] writes the rows whose value in the column is
    the value of at least one other row, and no others.  Values are equal
    as keys: missing values count as one value. *)
Theorem duplicate_detection (st : State) (df : ref) (d : DataFrame) (col outfile : string)
    (overwrite : bool) :
  nth_error (heap st) df = Some d ->
  mem col (columns d) = true ->
  can_write (disk st) outfile overwrite = true ->
  exists selected st',
    preparing_sample_frame.save_df_duplicates df col outfile overwrite st = (Ok tt, st') /\
    find_file outfile (files (disk st')) = Some (Xlsx (to_sheet true selected)) /\
    columns selected = columns d /\
    subseq (rows selected) (rows d) /\
    forall r,
      In r (rows selected) <->
      exists i, nth_error (rows d) i = Some r /\
                exists j r', j <> i /\ nth_error (rows d) j = Some r' /\
                             key_eqb (get col r) (get col r') = true.
Proof.
  intros Hd Hc Hw.
  rewrite (save_df_duplicates_run st df d col outfile overwrite Hd).
  unfold duplicates_value, pd.duplicated. rewrite (getitem_mem col d Hc). cbn [obind].
  set (values := map (get col) (rows d)).
  set (mask := map (fun v => (2 <=? List.length (filter (key_eqb v) values))%nat) values).
  exists (pd.boolean_index mask d). eexists. split.
  { apply write_df_to_excel_run; [cbn; apply nth_error_snoc_new | exact Hw]. }
  split; [cbn; now rewrite String.eqb_refl |].
  split; [reflexivity |]. split.
  { apply subseq_boolean_index. }
  intros r. rewrite boolean_index_In. split.
  - intros (i & Hr & Hm). exists i. split; [assumption |].
    unfold mask in Hm. rewrite nth_error_map in Hm.
    assert (Hv : nth_error values i = Some (get col r)).
    { unfold values. now rewrite nth_error_map, Hr. }
    rewrite Hv in Hm. cbn in Hm. injection Hm as Hm.
    apply (occurs_twice values i _ Hv) in Hm.
    destruct Hm as (j & w & Hne & Hj & Hk).
    unfold values in Hj. rewrite nth_error_map in Hj.
    destruct (nth_error (rows d) j) as [r' |] eqn:Hr'; [| discriminate].
    cbn in Hj. injection Hj as <-. eauto.
  - intros (i & Hr & j & r' & Hne & Hr' & Hk). exists i. split; [assumption |].
    assert (Hv : nth_error values i = Some (get col r)).
    { unfold values. now rewrite nth_error_map, Hr. }
    unfold mask. rewrite nth_error_map, Hv. cbn. f_equal.
    apply (occurs_twice values i _ Hv).
    exists j, (get col r'). split; [assumption |]. split; [| assumption].
    unfold values. now rewrite nth_error_map, Hr'.
Qed.

Lemma duplicate_detection_witness :
  exists selected st',
    preparing_sample_frame.save_df_duplicates 0 "Merge_ID" "frame/2022_duplicate_1.xlsx" false
      (holding example_duplicates) = (Ok tt, st') /\
    find_file "frame/2022_duplicate_1.xlsx" (files (disk st'))
    = Some (Xlsx (to_sheet true selected)) /\
    columns selected = columns example_duplicates /\
    subseq (rows selected) (rows example_duplicates) /\
    forall r,
      In r (rows selected) <->
      exists i, nth_error (rows example_duplicates) i = Some r /\
                exists j r', j <> i /\ nth_error (rows example_duplicates) j = Some r' /\
                             key_eqb (get "Merge_ID" r) (get "Merge_ID" r') = true.
Proof.
  apply (duplicate_detection (holding example_duplicates) 0 example_duplicates
           "Merge_ID" "frame/2022_duplicate_1.xlsx" false); reflexivity.
Defined.

(** ** The sampler, run *)

Lemma boolean_index_top (st : State) (h : list DataFrame) (x : DataFrame) (mask : list bool) :
  heap st = h ++ [x] ->
  DataFrameObject.boolean_index (List.length h) mask st =
  (Ok (List.length (heap st)), set_heap (heap st ++ [pd.boolean_index mask x]) st).
Proof.
  intros H. apply boolean_index_run. rewrite H. apply nth_error_snoc_new.
Qed.

Lemma reset_index_top (st : State) (h : list DataFrame) (x : DataFrame) :
  heap st = h ++ [x] ->
  DataFrameObject.reset_index (List.length h) st =
  (Ok (List.length (heap st)), set_heap (heap st ++ [pd.reset_index x]) st).
Proof.
  intros H. unfold DataFrameObject.reset_index.
  now rewrite (bind_eq _ _ _ _ (deref_top _ _ _ H)).
Qed.

Lemma head_top (st : State) (h : list DataFrame) (x : DataFrame) (n : Z) :
  heap st = h ++ [x] ->
  DataFrameObject.head (List.length h) n st =
  (Ok (List.length (heap st)), set_heap (heap st ++ [pd.head n x]) st).
Proof.
  intros H. unfold DataFrameObject.head.
  now rewrite (bind_eq _ _ _ _ (deref_top _ _ _ H)).
Qed.

Lemma get_random_float_run (st : State) (size : nat) :
  sampling_code.get_random_float size st =
  (Ok (random_value (tape st) (drawn st) size),
   set_drawn (if (size =? 1)%nat then S (drawn st) else drawn st + size) st).
Proof.
  unfold sampling_code.get_random_float, random_value.
  destruct (size =? 1)%nat; reflexivity.
Qed.

Ltac halt :=
  eexists; eexists; split;
  [ reflexivity
  | split; [ cbn; rewrite <- ?app_assoc; reflexivity | intros ? ?; discriminate ] ].

(** [generate_replacement_locations] works on objects of its own: whatever
    the outcome, the objects that were in the store are still there,
    unchanged, followed by the new ones; on success the last new object is
    the selection. *)
Lemma generate_replacement_locations_run (st : State) (df : ref) (d : DataFrame)
    (region : cell) (n_locations : Z) :
  nth_error (heap st) df = Some d ->
  exists junk st',
    sampling_code.generate_replacement_locations df region n_locations st =
    (match replacement_locations_value (tape st) (drawn st) d region n_locations with
     | Ok _ => Ok (List.length (heap st) + 3)
     | Raise e => Raise e
     end, st') /\
    heap st' = heap st ++ junk /\
    forall d',
      replacement_locations_value (tape st) (drawn st) d region n_locations = Ok d' ->
      nth_error (heap st') (List.length (heap st) + 3) = Some d'.
Proof.
  intros Hd.
  unfold sampling_code.generate_replacement_locations, replacement_locations_value.
  erewrite bind_eq by (apply copy_run; eassumption). cbn beta iota.
  exec getitem_top. destruct (pd.getitem "Region" d) as [regions |]; cbn [obind]; [| halt].
  exec boolean_index_top.
  exec reset_index_top.
  set (regional := pd.reset_index _).
  exec getitem_top.
  destruct (pd.getitem "Sum_Turnov" regional) as [turnover |] eqn:Eturnover;
    cbn [obind]; [| halt].
  exec_lift (pd.sum turnover); [| halt].
  exec getitem_top. rewrite Eturnover.
  exec_lift (pd.truediv_scalar turnover a); [| halt].
  exec setitem_top.
  exec len_top.
  erewrite bind_eq by apply get_random_float_run. cbn beta iota.
  exec getitem_top. cbn [tape drawn set_heap set_drawn].
  destruct (pd.getitem "weight" _) as [weight |]; cbn [obind]; [| halt].
  exec_lift (pd.mul_random weight
               (random_value (tape st) (drawn st)
                  (Datatypes.length (rows (pd.setitem "weight" a0 regional))))); [| halt].
  exec setitem_top.
  exec sort_top. destruct (pd.sort_values_desc "weight" _); cbn [obind]; [| halt].
  exec drop_top. destruct (pd.drop ["weight"] _); cbn [obind]; [| halt].
  erewrite head_top by (cbn; reflexivity).
  cbn [heap set_heap set_drawn disk args tape drawn].
  set (h3 := ((heap st ++ [d]) ++ [_]) ++ [_]).
  assert (L : List.length h3 = List.length (heap st) + 3).
  { unfold h3. rewrite !length_app. cbn. lia. }
  rewrite L.
  eexists. eexists. split; [reflexivity |]. split.
  - cbn. unfold h3. rewrite <- !app_assoc. reflexivity.
  - intros d' E. injection E as <-. cbn. rewrite <- L. apply nth_error_snoc_new.
Qed.

(** ** Inputs are not mutated *)

Lemma nth_error_app_old {A} (h junk : list A) (r : nat) (x : A) :
  nth_error h r = Some x -> nth_error (h ++ junk) r = Some x.
Proof.
  intros H. rewrite nth_error_app1; [assumption |].
  apply nth_error_Some. congruence.
Qed.

Lemma ref_in_store (h : list DataFrame) (r : nat) (x : DataFrame) :
  nth_error h r = Some x -> r < List.length h.
Proof. intros H. apply nth_error_Some. congruence. Qed.

(** C9: after [postproc_turnover_df], [save_df_duplicates] or
    [generate_replacement_locations], whatever their outcome, the table
    passed in (and every other table that was in the store) is what it was;
    a table handed back is a new object. *)
Theorem stages_leave_their_input_unchanged (st : State) (df : ref) (d : DataFrame) :
  nth_error (heap st) df = Some d ->
  (forall r x,
     nth_error (heap st) r = Some x ->
     nth_error (heap (snd (preparing_sample_frame.postproc_turnover_df df st))) r = Some x)
  /\ (forall out st',
        preparing_sample_frame.postproc_turnover_df df st = (Ok out, st') -> out <> df)
  /\ (forall col outfile overwrite r x,
        nth_error (heap st) r = Some x ->
        nth_error
          (heap (snd (preparing_sample_frame.save_df_duplicates df col outfile overwrite st)))
          r = Some x)
  /\ (forall region n_locations r x,
        nth_error (heap st) r = Some x ->
        nth_error
          (heap (snd (sampling_code.generate_replacement_locations df region n_locations st)))
          r = Some x)
  /\ (forall region n_locations out st',
        sampling_code.generate_replacement_locations df region n_locations st = (Ok out, st') ->
        out <> df).
Proof.
  intros Hd. pose proof (ref_in_store _ _ _ Hd) as Hlt.
  split; [| split; [| split; [| split]]].
  - intros r x Hr. destruct (postproc_run st df d Hd) as [junk ->].
    destruct (postproc_value d); cbn; now apply nth_error_app_old.
  - intros out st'. destruct (postproc_run st df d Hd) as [junk ->].
    destruct (postproc_value d); intros E; [| discriminate].
    injection E as <- _. lia.
  - intros col outfile overwrite r x Hr.
    rewrite (save_df_duplicates_run st df d col outfile overwrite Hd).
    destruct (duplicates_value col d); [| assumption].
    rewrite write_df_to_excel_heap. cbn. now apply nth_error_app_old.
  - intros region n_locations r x Hr.
    destruct (generate_replacement_locations_run st df d region n_locations Hd)
      as (junk & st' & -> & Hheap & _).
    cbn [snd]. rewrite Hheap. now apply nth_error_app_old.
  - intros region n_locations out st1.
    destruct (generate_replacement_locations_run st df d region n_locations Hd)
      as (junk & st' & -> & _ & _).
    destruct (replacement_locations_value _ _ _ _ _); intros E; [| discriminate].
    injection E as <- _. lia.
Qed.

Lemma stages_leave_their_input_unchanged_witness :
  (forall r x,
     nth_error (heap (holding example_merged)) r = Some x ->
     nth_error (heap (snd (preparing_sample_frame.postproc_turnover_df 0
                             (holding example_merged)))) r = Some x)
  /\ (forall out st',
        preparing_sample_frame.postproc_turnover_df 0 (holding example_merged) = (Ok out, st') ->
        out <> 0)
  /\ (forall col outfile overwrite r x,
        nth_error (heap (holding example_merged)) r = Some x ->
        nth_error
          (heap (snd (preparing_sample_frame.save_df_duplicates 0 col outfile overwrite
                        (holding example_merged))))
          r = Some x)
  /\ (forall region n_locations r x,
        nth_error (heap (holding example_merged)) r = Some x ->
        nth_error
          (heap (snd (sampling_code.generate_replacement_locations 0 region n_locations
                        (holding example_merged))))
          r = Some x)
  /\ (forall region n_locations out st',
        sampling_code.generate_replacement_locations 0 region n_locations
          (holding example_merged) = (Ok out, st') ->
        out <> 0).
Proof.
  apply (stages_leave_their_input_unchanged (holding example_merged) 0 example_merged).
  reflexivity.
Defined.

(** ** The index column on disk *)

(** *** The names a reader gives *)

Lemma to_uint_nonnil (n : nat) : Nat.to_uint n <> Decimal.Nil.
Proof.
  intros H. pose proof (Unsigned.to_of (Nat.to_uint n)) as E.
  rewrite Unsigned.of_to, H in E. discriminate E.
Qed.

Lemma decimal_inj (a b : nat) : decimal a = decimal b -> a = b.
Proof.
  unfold decimal. intros H. apply Unsigned.to_uint_inj.
  pose proof (NilZero.usu _ (to_uint_nonnil a)) as Ea.
  pose proof (NilZero.usu _ (to_uint_nonnil b)) as Eb.
  rewrite H in Ea. congruence.
Qed.

(** The [k]-th name tried for a column that is named [c] already. *)
Lemma renamed_inj (c : string) (a b : nat) :
  (c ++ "." ++ decimal a)%string = (c ++ "." ++ decimal b)%string -> a = b.
Proof.
  intros H. apply string_app_inv_head in H. injection H as H. now apply decimal_inj.
Qed.

Lemma renamed_new (c : string) (k : nat) : (c ++ "." ++ decimal k)%string <> c.
Proof.
  intros H. apply (f_equal String.length) in H. rewrite length_append in H.
  cbn [String.append String.length] in H. lia.
Qed.

Lemma unnamed_names_plain (i : nat) (cols : list string) :
  mem "" cols = false -> unnamed_names i cols = cols.
Proof.
  revert i. induction cols as [| c cols IH]; intros i H; [reflexivity |].
  unfold mem in H. cbn [existsb] in H. apply orb_false_iff in H.
  destruct H as [H1 H2]. cbn [unnamed_names].
  destruct c as [| a c]; [discriminate H1 |].
  cbn [String.eqb]. f_equal. now apply IH.
Qed.

Lemma positions_named (i : nat) (cols : list string) :
  mem "" cols = false ->
  positions (fun c => negb (String.eqb c "")) i cols = seq i (List.length cols) /\
  positions (fun c => String.eqb c "") i cols = [].
Proof.
  revert i. induction cols as [| c cols IH]; intros i H; [split; reflexivity |].
  unfold mem in H. cbn [existsb] in H. apply orb_false_iff in H.
  destruct H as [H1 H2]. cbn [positions List.length seq].
  rewrite String.eqb_sym in H1. rewrite H1. cbn [negb].
  destruct (IH (S i) H2) as [-> ->]. split; reflexivity.
Qed.

Lemma count_of_cons (counts : list (string * nat)) (c x : string) (n : nat) :
  count_of ((x, n) :: counts) c = if String.eqb c x then n else count_of counts c.
Proof. unfold count_of. cbn [find fst]. now destruct (String.eqb c x). Qed.

Lemma mangle_zero (fuel : nat) (this_columns : list string) (old_col col : string)
    (counts : list (string * nat)) :
  mangle fuel this_columns old_col counts col 0 = (col, 0, counts).
Proof. destruct fuel; reflexivity. Qed.

Lemma set_column_same (pre post : list string) (c x : string) :
  set_column (List.length pre) x (pre ++ c :: post) = pre ++ x :: post.
Proof. induction pre as [| y pre IH]; cbn; [reflexivity | now rewrite IH]. Qed.

Lemma nth_middle_string (pre post : list string) (c : string) :
  nth (List.length pre) (pre ++ c :: post) "" = c.
Proof. induction pre as [| y pre IH]; cbn; [reflexivity | exact IH]. Qed.

(** Names that differ from each other and were not counted yet stay as
    they are, and each is counted once. *)
Lemma dedup_distinct (fuel : nat) (todo : list string) :
  forall (pre : list string) (counts : list (string * nat)),
  NoDup todo ->
  (forall c, In c todo -> count_of counts c = 0) ->
  fold_left (dedup_at fuel) (seq (List.length pre) (List.length todo)) (pre ++ todo, counts)
  = (pre ++ todo, rev (map (fun c => (c, 1)) todo) ++ counts).
Proof.
  induction todo as [| c todo IH]; intros pre counts Hnd Hnew; [reflexivity |].
  cbn [List.length seq fold_left]. unfold dedup_at at 2.
  rewrite nth_middle_string, (Hnew c) by now left.
  rewrite mangle_zero, set_column_same.
  change (pre ++ c :: todo) with (pre ++ [c] ++ todo). rewrite app_assoc.
  replace (S (List.length pre)) with (List.length (pre ++ [c]))
    by (rewrite length_app; cbn; lia).
  inversion Hnd as [| c' todo' Hc Hnd']; subst.
  rewrite IH; [| assumption |].
  - cbn [map rev]. now rewrite <- !app_assoc.
  - intros c' Hc'. rewrite count_of_cons.
    destruct (String.eqb c' c) eqn:E; [| apply Hnew; now right].
    apply String.eqb_eq in E. subst. contradiction.
Qed.

Lemma count_of_once (cols : list string) (c : string) :
  count_of (rev (map (fun c => (c, 1)) cols) ++ []) c = if mem c cols then 1 else 0.
Proof.
  rewrite app_nil_r. unfold count_of, mem.
  induction cols as [| x cols IH] using rev_ind; [reflexivity |].
  rewrite map_app, rev_app_distr, existsb_app. cbn [map rev app find fst existsb].
  rewrite orb_false_r.
  destruct (String.eqb c x); [now rewrite orb_true_r |].
  now rewrite orb_false_r.
Qed.

(** With distinct names, none of them empty, the reader keeps the header
    as it is. *)
Lemma header_names_plain (cols : list string) :
  nodupb cols = true -> mem "" cols = false -> header_names cols = cols.
Proof.
  intros Hnd Hempty. unfold header_names, dedup_names.
  rewrite unnamed_names_plain by assumption.
  destruct (positions_named 0 cols Hempty) as [-> ->]. rewrite app_nil_r.
  rewrite (dedup_distinct _ cols [] []); [reflexivity | now apply nodupb_NoDup |].
  reflexivity.
Qed.

(** The renaming loop stops at the first name that no column has. *)
Lemma mangle_first_free (this_columns : list string) (old_col : string) (k : nat) :
  mem (old_col ++ "." ++ decimal k)%string this_columns = false ->
  forall (fuel cur_count : nat) (counts : list (string * nat)) (col : string),
  1 <= cur_count <= k ->
  k - cur_count < fuel ->
  (forall j, cur_count <= j < k ->
             mem (old_col ++ "." ++ decimal j)%string this_columns = true) ->
  (forall x, x <> old_col -> mem x this_columns = false -> count_of counts x = 0) ->
  exists counts',
    mangle fuel this_columns old_col counts col cur_count
    = ((old_col ++ "." ++ decimal k)%string, 0, counts').
Proof.
  intros Hfree. induction fuel as [| fuel IH]; intros cur counts col Hcur Hfuel Htaken Hcounts;
    [lia |].
  destruct cur as [| c]; [lia |]. cbn [mangle].
  destruct (mem (old_col ++ "." ++ decimal (S c))%string this_columns) eqn:E.
  - assert (S c <> k) by (intros <-; congruence).
    apply IH; [lia | lia | intros j Hj; apply Htaken; lia |].
    intros x Hx Hmem. rewrite count_of_cons.
    apply String.eqb_neq in Hx. rewrite Hx. apply String.eqb_neq in Hx. now apply Hcounts.
  - assert (S c = k) as <-.
    { destruct (Nat.eq_dec (S c) k) as [| Hne]; [assumption |].
      rewrite Htaken in E by lia. discriminate. }
    rewrite count_of_cons.
    pose proof (renamed_new old_col (S c)) as Hnew. apply String.eqb_neq in Hnew.
    rewrite Hnew. apply String.eqb_neq in Hnew.
    rewrite (Hcounts _ Hnew E), mangle_zero. eauto.
Qed.

(** Of the names tried from [start] on, one more than there are columns,
    one is free. *)
Lemma first_free (this_columns : list string) (old_col : string) (start : nat) :
  exists k,
    start <= k <= start + List.length this_columns /\
    mem (old_col ++ "." ++ decimal k)%string this_columns = false /\
    forall j, start <= j < k -> mem (old_col ++ "." ++ decimal j)%string this_columns = true.
Proof.
  set (f := fun j => mem (old_col ++ "." ++ decimal j)%string this_columns).
  assert (H : forall m,
             (forall j, start <= j < start + m -> f j = true) \/
             exists k, start <= k < start + m /\ f k = false /\
                       forall j, start <= j < k -> f j = true).
  { induction m as [| m [IH | (k & Hk & Hf & Hlt)]].
    - left. intros j Hj. lia.
    - destruct (f (start + m)) eqn:E.
      + left. intros j Hj. destruct (Nat.eq_dec j (start + m)) as [-> |]; [assumption |].
        apply IH. lia.
      + right. exists (start + m). split; [lia |]. split; [assumption |].
        intros j Hj. apply IH. lia.
    - right. exists k. split; [lia |]. split; assumption. }
  destruct (H (S (List.length this_columns))) as [Hall | (k & Hk & Hf & Hlt)].
  - exfalso.
    set (tried := map (fun j => (old_col ++ "." ++ decimal j)%string)
                      (seq start (S (List.length this_columns)))).
    assert (Hnd : NoDup tried).
    { apply NoDup_map_NoDup_ForallPairs; [| apply seq_NoDup].
      intros a b _ _. apply renamed_inj. }
    assert (Hincl : incl tried this_columns).
    { intros x Hx. apply in_map_iff in Hx. destruct Hx as (j & <- & Hj).
      apply in_seq in Hj. apply mem_In. apply Hall. lia. }
    pose proof (NoDup_incl_length Hnd Hincl) as Hlen.
    unfold tried in Hlen. rewrite length_map, length_seq in Hlen. lia.
  - exists k. split; [lia |]. split; assumption.
Qed.

(** A sheet whose first header is empty and whose other headers are
    distinct names: the reader keeps the names and calls the first column
    by the first of ["Unnamed: 0"], ["Unnamed: 0.1"], ... that is none of
    them. *)
Lemma header_names_indexed (cols : list string) :
  nodupb cols = true ->
  mem "" cols = false ->
  exists k,
    header_names ("" :: cols) = index_name k :: cols /\
    mem (index_name k) cols = false /\
    forall j, j < k -> mem (index_name j) cols = true.
Proof.
  intros Hnd Hempty. unfold header_names, dedup_names.
  cbn [unnamed_names positions String.eqb negb List.length].
  rewrite unnamed_names_plain by assumption.
  destruct (positions_named 1 cols Hempty) as [-> ->].
  change ("Unnamed: " ++ decimal 0)%string with "Unnamed: 0".
  rewrite fold_left_app.
  rewrite (dedup_distinct _ cols ["Unnamed: 0"] []);
    [| now apply nodupb_NoDup | reflexivity].
  cbn [fold_left app]. unfold dedup_at. cbn [nth].
  rewrite count_of_once.
  destruct (mem "Unnamed: 0" cols) eqn:Htaken.
  - destruct (first_free ("Unnamed: 0" :: cols) "Unnamed: 0" 1) as (k & Hk & Hfree & Hlt).
    cbn [List.length] in Hk.
    destruct (mangle_first_free ("Unnamed: 0" :: cols) "Unnamed: 0" k Hfree
                (S (S (List.length cols))) 1
                (rev (map (fun c => (c, 1)) cols) ++ []) "Unnamed: 0")
      as (counts' & ->); [lia | lia | intros j Hj; apply Hlt; lia | |].
    { intros x Hx Hmem. rewrite count_of_once.
      unfold mem in Hmem. cbn [existsb] in Hmem. apply orb_false_iff in Hmem.
      destruct Hmem as [_ Hmem]. unfold mem. now rewrite Hmem. }
    exists k. destruct k as [| k']; [lia |]. cbn [fst set_column index_name].
    split; [reflexivity |]. split.
    + unfold mem in Hfree. cbn [existsb] in Hfree. apply orb_false_iff in Hfree.
      now destruct Hfree.
    + intros [| j] Hj; [assumption |]. cbn [index_name].
      specialize (Hlt (S j) ltac:(lia)). unfold mem in Hlt. cbn [existsb] in Hlt.
      apply orb_true_iff in Hlt. destruct Hlt as [Hlt | Hlt]; [| assumption].
      apply String.eqb_eq in Hlt. now apply renamed_new in Hlt.
  - rewrite mangle_zero. exists 0. cbn [fst set_column index_name].
    split; [reflexivity |]. split; [assumption |]. intros j Hj. lia.
Qed.

(** *** The reader's names in general *)

Lemma mangle_more_fuel (this_columns : list string) (old_col : string) (extra : nat) :
  forall (fuel cur_count : nat) (counts : list (string * nat)) (col c : string)
         (cs : list (string * nat)),
  mangle fuel this_columns old_col counts col cur_count = (c, 0, cs) ->
  mangle (fuel + extra) this_columns old_col counts col cur_count = (c, 0, cs).
Proof.
  induction fuel as [| fuel IH]; intros cur counts col c cs H.
  - cbn in H. injection H as <- -> <-. apply mangle_zero.
  - destruct cur as [| n]; [rewrite mangle_zero in *; assumption |].
    cbn [mangle Nat.add] in *.
    destruct (mem _ this_columns); now apply IH.
Qed.

(** The loop counts [old_col] only. *)
Lemma mangle_counts (this_columns : list string) (old_col : string) :
  forall (fuel cur_count : nat) (counts : list (string * nat)) (col c : string) (n : nat)
         (cs : list (string * nat)),
  mangle fuel this_columns old_col counts col cur_count = (c, n, cs) ->
  (forall x, x <> old_col -> count_of cs x = count_of counts x) /\
  (0 < count_of counts old_col -> 0 < count_of cs old_col).
Proof.
  induction fuel as [| fuel IH]; intros cur counts col c n cs H.
  - cbn in H. injection H as <- <- <-. auto.
  - destruct cur as [| m]; [cbn in H; injection H as <- <- <-; auto |].
    cbn [mangle] in H.
    assert (G : (forall x, x <> old_col ->
                           count_of cs x = count_of ((old_col, S (S m)) :: counts) x) /\
                (0 < count_of ((old_col, S (S m)) :: counts) old_col ->
                 0 < count_of cs old_col)).
    { destruct (mem _ this_columns); eapply IH; eassumption. }
    destruct G as [G1 G2]. split.
    + intros x Hx. rewrite (G1 x Hx), count_of_cons.
      apply String.eqb_neq in Hx. now rewrite Hx.
    + intros _. apply G2. rewrite count_of_cons, String.eqb_refl. lia.
Qed.

Lemma length_set_column (i : nat) (c : string) (l : list string) :
  List.length (set_column i c l) = List.length l.
Proof.
  revert i. induction l as [| x l IH]; intros [| i]; cbn; try reflexivity. now rewrite IH.
Qed.

Lemma nth_set_column_same (i : nat) (c : string) (l : list string) :
  i < List.length l -> nth i (set_column i c l) "" = c.
Proof.
  revert i. induction l as [| x l IH]; intros [| i] H; cbn in *; try lia; [reflexivity |].
  apply IH. lia.
Qed.

Lemma nth_set_column_other (i j : nat) (c : string) (l : list string) :
  j <> i -> nth j (set_column i c l) "" = nth j l "".
Proof.
  revert i j. induction l as [| x l IH]; intros [| i] [| j] H; cbn; try reflexivity; try lia.
  apply IH. lia.
Qed.

(** One round of the renaming keeps the names of the columns seen so far
    distinct and counted, and has fuel to spare. *)
Lemma dedup_at_counted (fuel : nat) (this_columns : list string)
    (counts : list (string * nat)) (done : list nat) (i : nat) :
  counted this_columns counts done ->
  ~ In i done ->
  i < List.length this_columns ->
  List.length this_columns < fuel ->
  exists this_columns' counts',
    dedup_at fuel (this_columns, counts) i = (this_columns', counts') /\
    List.length this_columns' = List.length this_columns /\
    counted this_columns' counts' (i :: done) /\
    forall extra, dedup_at (fuel + extra) (this_columns, counts) i = (this_columns', counts').
Proof.
  intros (Hin & Hseen & Hpos & Hinj) Hi Hlt Hfuel. unfold dedup_at.
  set (old_col := nth i this_columns "").
  destruct (count_of counts old_col) as [| c] eqn:Hc.
  - rewrite mangle_zero. do 2 eexists. split; [reflexivity |].
    split; [apply length_set_column |]. split; [| intros extra; now rewrite mangle_zero].
    unfold counted. rewrite length_set_column. repeat split.
    + intros j [<- | Hj]; [assumption | now apply Hin].
    + intros x Hx. rewrite count_of_cons in Hx.
      destruct (String.eqb x old_col) eqn:E.
      * apply String.eqb_eq in E. subst x. exists i. split; [now left |].
        now apply nth_set_column_same.
      * destruct (Hseen x Hx) as (j & Hj & <-). exists j. split; [now right |].
        apply nth_set_column_other. intros ->. contradiction.
    + intros j [<- | Hj]; rewrite count_of_cons.
      * rewrite nth_set_column_same, String.eqb_refl by assumption. lia.
      * rewrite nth_set_column_other by (intros ->; contradiction).
        destruct (String.eqb _ old_col); [lia | now apply Hpos].
    + assert (Hnew : forall j, In j done -> nth j this_columns "" <> old_col).
      { intros j Hj E. specialize (Hpos j Hj). rewrite E in Hpos. lia. }
      intros j1 j2 [<- | H1] [<- | H2]; [reflexivity | | |].
      * rewrite nth_set_column_same by assumption.
        rewrite nth_set_column_other by (intros ->; contradiction).
        intros E. symmetry in E. now apply Hnew in E.
      * rewrite nth_set_column_same by assumption.
        rewrite nth_set_column_other by (intros ->; contradiction).
        intros E. now apply Hnew in E.
      * rewrite !nth_set_column_other by (intros ->; contradiction). now apply Hinj.
  - destruct (first_free this_columns old_col (S c)) as (k & Hk & Hfree & Htaken).
    assert (Hcounts : forall x, x <> old_col -> mem x this_columns = false ->
                                count_of counts x = 0).
    { intros x _ Hx. destruct (count_of counts x) eqn:E; [reflexivity |].
      destruct (Hseen x ltac:(lia)) as (j & Hj & <-).
      apply mem_false in Hx. exfalso. apply Hx. apply nth_In. now apply Hin. }
    destruct (mangle_first_free this_columns old_col k Hfree fuel (S c) counts old_col)
      as (counts1 & Hrun); [lia | lia | assumption | assumption |].
    destruct (mangle_counts _ _ _ _ _ _ _ _ _ Hrun) as [Hother Hold].
    rewrite Hrun. do 2 eexists. split; [reflexivity |].
    split; [apply length_set_column |].
    split; [| intros extra; now rewrite (mangle_more_fuel _ _ _ _ _ _ _ _ _ Hrun)].
    set (col := (old_col ++ "." ++ decimal k)%string) in *.
    assert (Hcol : col <> old_col) by apply renamed_new.
    assert (Hfresh : forall j, j < List.length this_columns -> nth j this_columns "" <> col).
    { intros j Hj E. apply mem_false in Hfree. apply Hfree. rewrite <- E. now apply nth_In. }
    unfold counted. rewrite length_set_column. repeat split.
    + intros j [<- | Hj]; [assumption | now apply Hin].
    + intros x Hx. rewrite count_of_cons in Hx.
      destruct (String.eqb x col) eqn:E.
      * apply String.eqb_eq in E. subst x. exists i. split; [now left |].
        now apply nth_set_column_same.
      * assert (Hx' : 0 < count_of counts x).
        { destruct (String.eqb x old_col) eqn:E'.
          - apply String.eqb_eq in E'. subst x. lia.
          - apply String.eqb_neq in E'. now rewrite <- (Hother x E'). }
        destruct (Hseen x Hx') as (j & Hj & <-). exists j. split; [now right |].
        apply nth_set_column_other. intros ->. contradiction.
    + intros j [<- | Hj]; rewrite count_of_cons.
      * rewrite nth_set_column_same, String.eqb_refl by assumption. lia.
      * rewrite nth_set_column_other by (intros ->; contradiction).
        destruct (String.eqb _ col); [lia |].
        destruct (String.eqb (nth j this_columns "") old_col) eqn:E'.
        -- apply String.eqb_eq in E'. rewrite E'. apply Hold. lia.
        -- apply String.eqb_neq in E'. rewrite (Hother _ E'). now apply Hpos.
    + intros j1 j2 [<- | H1] [<- | H2]; [reflexivity | | |].
      * rewrite nth_set_column_same by assumption.
        rewrite nth_set_column_other by (intros ->; contradiction).
        intros E. symmetry in E. apply Hfresh in E; [contradiction | now apply Hin].
      * rewrite nth_set_column_same by assumption.
        rewrite nth_set_column_other by (intros ->; contradiction).
        intros E. apply Hfresh in E; [contradiction | now apply Hin].
      * rewrite !nth_set_column_other by (intros ->; contradiction). now apply Hinj.
Qed.

Lemma dedup_fold_counted (fuel : nat) (order : list nat) :
  forall (this_columns : list string) (counts : list (string * nat)) (done : list nat),
  counted this_columns counts done ->
  NoDup order ->
  (forall i, In i order -> ~ In i done /\ i < List.length this_columns) ->
  List.length this_columns < fuel ->
  exists this_columns' counts',
    fold_left (dedup_at fuel) order (this_columns, counts) = (this_columns', counts') /\
    List.length this_columns' = List.length this_columns /\
    counted this_columns' counts' (rev order ++ done) /\
    forall extra,
      fold_left (dedup_at (fuel + extra)) order (this_columns, counts)
      = (this_columns', counts').
Proof.
  induction order as [| i order IH]; intros this_columns counts done Hinv Hnd Hnew Hfuel.
  - do 2 eexists. repeat split; try reflexivity; apply Hinv.
  - inversion Hnd as [| i' order' Hi Hnd']; subst.
    destruct (Hnew i ltac:(now left)) as [Hdone Hlt].
    destruct (dedup_at_counted fuel this_columns counts done i Hinv Hdone Hlt Hfuel)
      as (this1 & counts1 & Hstep & Hlen & Hinv1 & Hmore).
    destruct (IH this1 counts1 (i :: done) Hinv1 Hnd')
      as (this2 & counts2 & H2 & Hlen2 & Hinv2 & Hmore2).
    { intros j Hj. destruct (Hnew j ltac:(now right)) as [Hj1 Hj2]. split; [| lia].
      intros [<- | Hj']; contradiction. }
    { lia. }
    exists this2, counts2. cbn [fold_left]. rewrite Hstep. split; [assumption |].
    split; [lia |]. split.
    + cbn [rev]. now rewrite <- app_assoc.
    + intros extra. now rewrite Hmore.
Qed.

Lemma In_positions (f : string -> bool) (h : list string) :
  forall i k,
  In i (positions f k h) <->
  k <= i /\ exists c, nth_error h (i - k) = Some c /\ f c = true.
Proof.
  induction h as [| c h IH]; intros i k; cbn [positions].
  - split; [contradiction |]. intros (_ & x & Hx & _). now destruct (i - k).
  - assert (Hrest : In i (positions f (S k) h) <->
                    k < i /\ exists x, nth_error (c :: h) (i - k) = Some x /\ f x = true).
    { rewrite IH. split.
      - intros (Hk & x & Hx & Hf). split; [lia |]. exists x.
        replace (i - k) with (S (i - S k)) by lia. auto.
      - intros (Hk & x & Hx & Hf). split; [lia |]. exists x.
        replace (i - k) with (S (i - S k)) in Hx by lia. auto. }
    destruct (f c) eqn:Hc; cbn [In]; rewrite Hrest; split.
    + intros [<- | (Hk & H)]; [| split; [lia | assumption]].
      split; [lia |]. exists c. now rewrite Nat.sub_diag.
    + intros (Hk & x & Hx & Hf). destruct (Nat.eq_dec k i) as [-> | Hne]; [now left |].
      right. split; [lia |]. eauto.
    + intros (Hk & H). split; [lia | assumption].
    + intros (Hk & x & Hx & Hf). destruct (Nat.eq_dec k i) as [-> | Hne].
      * rewrite Nat.sub_diag in Hx. cbn in Hx. congruence.
      * split; [lia |]. eauto.
Qed.

Lemma NoDup_positions (f : string -> bool) (h : list string) (k : nat) :
  NoDup (positions f k h).
Proof.
  revert k. induction h as [| c h IH]; intros k; cbn [positions]; [constructor |].
  destruct (f c); [| apply IH]. constructor; [| apply IH].
  rewrite In_positions. lia.
Qed.

Lemma length_unnamed_names (i : nat) (h : list string) :
  List.length (unnamed_names i h) = List.length h.
Proof. revert i. induction h as [| c h IH]; intros i; cbn; [reflexivity | now rewrite IH]. Qed.

(** Whatever the header, the names the reader gives are as many as the
    header has columns and differ from each other, and every renaming loop
    ends with fuel to spare. *)
Lemma header_names_distinct (h : list string) :
  List.length (header_names h) = List.length h /\
  NoDup (header_names h) /\
  forall extra, dedup_names (S (List.length h) + extra) h = header_names h.
Proof.
  unfold header_names, dedup_names.
  set (named := positions (fun c => negb (String.eqb c "")) 0 h).
  set (unnamed := positions (fun c => String.eqb c "") 0 h).
  destruct (dedup_fold_counted (S (List.length h)) (named ++ unnamed) (unnamed_names 0 h) [] [])
    as (this_columns & counts & Hrun & Hlen & (Hin & _ & _ & Hinj) & Hmore).
  { repeat split; try contradiction. cbn. lia. }
  { apply NoDup_app; [apply NoDup_positions | apply NoDup_positions |].
    intros i H1 H2. apply In_positions in H1, H2.
    destruct H1 as (_ & c & Hc & Hf), H2 as (_ & c' & Hc' & Hf').
    rewrite Hc in Hc'. injection Hc' as <-. rewrite Hf' in Hf. discriminate. }
  { intros i Hi. split; [auto |]. rewrite length_unnamed_names.
    apply in_app_iff in Hi. destruct Hi as [Hi | Hi]; apply In_positions in Hi;
      destruct Hi as (_ & c & Hc & _); rewrite Nat.sub_0_r in Hc;
      apply nth_error_Some; congruence. }
  { rewrite length_unnamed_names. lia. }
  rewrite length_unnamed_names in Hlen. rewrite Hrun. cbn [fst].
  split; [assumption |]. split; [| intros extra; now rewrite Hmore].
  assert (Hall : forall i, i < List.length h -> In i (rev (named ++ unnamed) ++ [])).
  { intros i Hi. rewrite app_nil_r. apply in_rev. rewrite rev_involutive.
    apply in_app_iff. destruct (nth_error h i) as [c |] eqn:Hc;
      [| apply nth_error_None in Hc; lia].
    destruct (String.eqb c "") eqn:E; [right | left]; apply In_positions;
      (split; [lia |]); exists c; rewrite Nat.sub_0_r; (split; [assumption |]);
      now rewrite E. }
  apply (NoDup_nth this_columns ""). intros i j Hi Hj E.
  apply Hinj; [apply Hall | apply Hall | assumption]; lia.
Qed.

(** *** What the writers put in a file *)

Lemma write_df_inv (st st' : State) (df : ref) (out_file : string) (overwrite : bool) :
  sampling_code.write_df df out_file overwrite st = (Ok tt, st') ->
  exists d,
    nth_error (heap st) df = Some d /\
    find_file out_file (files (disk st')) =
    Some (if sampling_code.is_file_excel out_file
          then Xlsx (to_sheet false d) else Csv (to_sheet false d)).
Proof.
  unfold sampling_code.write_df, bind.
  destruct (path_exists (parent out_file) st) as [[pe | e] st1] eqn:E1; [| discriminate].
  unfold path_exists in E1. injection E1 as <- <-.
  set (step := if negb _ then _ else _).
  destruct (step st) as [[[] | e] st2] eqn:E2; [| discriminate].
  assert (H2 : heap st2 = heap st).
  { subst step. destruct (negb _).
    - unfold mkdir_parents in E2.
      destruct (is_file (disk st) (parent out_file) || is_dir (disk st) (parent out_file));
        [discriminate |].
      destruct (find _ _); [discriminate |]. now injection E2 as <-.
    - unfold ret in E2. now injection E2 as <-. }
  unfold path_exists.
  destruct ((is_file (disk st2) out_file || is_dir (disk st2) out_file) && negb overwrite).
  { unfold global_args, raise. destruct (args st2); discriminate. }
  unfold ret.
  destruct (sampling_code.is_file_excel out_file) eqn:Ex;
    unfold to_excel, to_csv, bind, deref; rewrite H2;
    (destruct (nth_error (heap st) df) as [d |]; [| discriminate]);
    unfold write_to;
    (destruct (is_dir (disk st2) out_file); [discriminate |]);
    (destruct (negb (is_dir (disk st2) (parent out_file))); [discriminate |]);
    intros H; injection H as <-; exists d; (split; [reflexivity |]);
    cbn; now rewrite String.eqb_refl.
Qed.

(** C10, as stated: the table [merge_facility_ID] returns on the indexed
    example has a column "Unnamed: 0" of its own.  Read back, the file
    written for it has that column and, before it, the index under the name
    "Unnamed: 0.1": the column gained is not called "Unnamed: 0", and the
    column of that name is not absent from the table in memory. *)
Lemma index_column_name_already_taken :
  exists merged st' d s,
    preparing_sample_frame.merge_facility_ID 0 "frame/ID_Merge.xlsx" false
      (holding example_indexed) = (Ok merged, st') /\
    nth_error (heap st') merged = Some d /\
    find_file "frame/ID_Merge.xlsx" (files (disk st')) = Some (Xlsx s) /\
    columns (of_sheet s) = "Unnamed: 0.1" :: columns d /\
    In "Unnamed: 0" (columns d).
Proof.
  do 4 eexists. split; [vm_compute; reflexivity |].
  split; [vm_compute; reflexivity |].
  split; [vm_compute; reflexivity |].
  split; [vm_compute; reflexivity |].
  left. reflexivity.
Qed.

(** C10, amended: a file written by [write_df_to_excel] holds the row index
    as a leading column under an empty header, whatever the table, and a
    file written by [write_df] holds the table's columns only.  So a
    frame-preparation output read back has, for a table whose column names
    differ from each other and are not empty, the table's columns preceded
    by one column more, under a name the table in memory has not:
    "Unnamed: 0", or, when the table has a column of that name, the first of
    "Unnamed: 0.1", "Unnamed: 0.2", ... that it has not.  A sampling output
    read back has the table's columns and no other. *)
Theorem index_column_on_disk (st st' : State) (df : ref) (d : DataFrame)
    (outfile : string) (overwrite : bool) :
  nth_error (heap st) df = Some d ->
  (preparing_sample_frame.write_df_to_excel df outfile overwrite st = (Ok tt, st') ->
   exists s,
     find_file outfile (files (disk st')) = Some (Xlsx s) /\
     header s = "" :: columns d /\
     body s = map (fun r => label_cell (label r) :: map (fun c => get c r) (columns d))
                  (rows d) /\
     (nodupb (columns d) = true ->
      mem "" (columns d) = false ->
      exists k,
        columns (of_sheet s) = index_name k :: columns d /\
        ~ In (index_name k) (columns d) /\
        forall j, j < k -> In (index_name j) (columns d)))
  /\
  (sampling_code.write_df df outfile overwrite st = (Ok tt, st') ->
   exists f s,
     find_file outfile (files (disk st')) = Some f /\
     (f = Xlsx s \/ f = Csv s) /\
     header s = columns d /\
     body s = map (fun r => map (fun c => get c r) (columns d)) (rows d) /\
     (nodupb (columns d) = true ->
      mem "" (columns d) = false ->
      columns (of_sheet s) = columns d)).
Proof.
  intros Hd. split.
  - intros H. apply write_df_to_excel_inv in H. destruct H as (d0 & Hd0 & ->).
    rewrite Hd in Hd0. injection Hd0 as <-.
    exists (to_sheet true d). split; [cbn; now rewrite String.eqb_refl |].
    split; [reflexivity |]. split; [reflexivity |].
    intros Hnd Hempty.
    destruct (header_names_indexed (columns d) Hnd Hempty) as (k & Hnames & Hfree & Htaken).
    exists k. split; [exact Hnames |]. split; [now apply mem_false |].
    intros j Hj. apply mem_In. now apply Htaken.
  - intros H. apply write_df_inv in H. destruct H as (d0 & Hd0 & Hf).
    rewrite Hd in Hd0. injection Hd0 as <-.
    eexists. exists (to_sheet false d). split; [exact Hf |].
    split; [destruct (sampling_code.is_file_excel outfile); auto |].
    split; [reflexivity |]. split; [reflexivity |].
    intros Hnd Hempty. cbn. now apply header_names_plain.
Qed.

Lemma index_column_on_disk_witness :
  (exists s,
     find_file "frame/out.xlsx"
       (files (disk (snd (preparing_sample_frame.write_df_to_excel 0 "frame/out.xlsx" false
                            (holding example_merged)))))
     = Some (Xlsx s) /\
     header s = "" :: columns example_merged /\
     body s = map (fun r => label_cell (label r)
                            :: map (fun c => get c r) (columns example_merged))
                  (rows example_merged) /\
     exists k,
       columns (of_sheet s) = index_name k :: columns example_merged /\
       ~ In (index_name k) (columns example_merged) /\
       forall j, j < k -> In (index_name j) (columns example_merged))
  /\
  (exists f s,
     find_file "frame/out.xlsx"
       (files (disk (snd (sampling_code.write_df 0 "frame/out.xlsx" false
                            (holding example_merged)))))
     = Some f /\
     (f = Xlsx s \/ f = Csv s) /\
     header s = columns example_merged /\
     body s = map (fun r => map (fun c => get c r) (columns example_merged))
                  (rows example_merged) /\
     columns (of_sheet s) = columns example_merged).
Proof.
  split.
  - destruct (proj1 (index_column_on_disk (holding example_merged) _ 0 example_merged
                       "frame/out.xlsx" false eq_refl) eq_refl)
      as (s & Hfile & Hheader & Hbody & Hnames).
    exists s. split; [exact Hfile |]. split; [exact Hheader |]. split; [exact Hbody |].
    apply Hnames; reflexivity.
  - destruct (proj2 (index_column_on_disk (holding example_merged) _ 0 example_merged
                       "frame/out.xlsx" false eq_refl) eq_refl)
      as (f & s & Hfile & Hkind & Hheader & Hbody & Hnames).
    exists f, s. split; [exact Hfile |]. split; [exact Hkind |]. split; [exact Hheader |].
    split; [exact Hbody |]. apply Hnames; reflexivity.
Defined.

(** ** The sampler's selection *)

Lemma get_relabel (c : string) (n : Z) (l : list Row) :
  map (get c) (relabel_from n l) = map (get c) l.
Proof.
  revert n. induction l as [| r l IH]; intros n; cbn; [reflexivity | now rewrite IH].
Qed.

Lemma length_relabel (n : Z) (l : list Row) :
  List.length (relabel_from n l) = List.length l.
Proof.
  revert n. induction l as [| r l IH]; intros n; cbn; [reflexivity | now rewrite IH].
Qed.

Lemma setitem_rows_other (c c' : string) (l : list Row) (values : list cell) :
  List.length values = List.length l -> c <> c' ->
  map (get c) (map (fun rv => set c' (snd rv) (fst rv)) (combine l values)) = map (get c) l.
Proof.
  intros Hlen Hne. revert values Hlen.
  induction l as [| r l IH]; intros [| v values] Hlen;
    cbn [map combine fst snd List.length] in *; try discriminate; [reflexivity |].
  rewrite get_set_other by assumption. f_equal. apply IH. lia.
Qed.

Lemma setitem_rows_same (c : string) (l : list Row) (values : list cell) :
  List.length values = List.length l ->
  map (get c) (map (fun rv => set c (snd rv) (fst rv)) (combine l values)) = values.
Proof.
  revert values. induction l as [| r l IH]; intros [| v values] Hlen;
    cbn [map combine fst snd List.length] in *; try discriminate; [reflexivity |].
  rewrite get_set_same. f_equal. apply IH. lia.
Qed.

Lemma setitem_rows_length (c : string) (l : list Row) (values : list cell) :
  List.length values = List.length l ->
  List.length (map (fun rv => set c (snd rv) (fst rv)) (combine l values)) = List.length l.
Proof. intros H. rewrite length_map, length_combine. lia. Qed.

Lemma lookup_filter_other (c : string) (cs : list string) (l : list (string * cell)) :
  mem c cs = false ->
  lookup c (filter (fun kv => negb (mem (fst kv) cs)) l) = lookup c l.
Proof.
  intros H. induction l as [| [k v] l IH]; cbn; [reflexivity |].
  destruct (String.eqb c k) eqn:E.
  - apply String.eqb_eq in E. subst k. rewrite H. cbn. now rewrite String.eqb_refl.
  - destruct (mem k cs); cbn; [assumption | now rewrite E].
Qed.

Lemma insert_desc_perm (x : float * Row) (l : list (float * Row)) :
  Permutation (pd.insert_desc x l) (x :: l).
Proof.
  induction l as [| y l IH]; cbn; [reflexivity |].
  destruct (pd.precedes (fst y) (fst x)); [| reflexivity].
  rewrite IH. apply perm_swap.
Qed.

Lemma sort_desc_perm (l : list (float * Row)) : Permutation (pd.sort_desc l) l.
Proof.
  induction l as [| x l IH]; cbn; [reflexivity |].
  rewrite insert_desc_perm. now constructor.
Qed.

Lemma map_snd_combine {A B} (a : list A) (b : list B) :
  List.length a = List.length b -> map snd (combine a b) = b.
Proof.
  revert b. induction a as [| x a IH]; intros [| y b] H; cbn in *; try discriminate;
    [reflexivity |].
  f_equal. apply IH. lia.
Qed.

Lemma series_map_numeric {B} (f : cell -> outcome B) (g : float -> B) (a : list cell) :
  (forall x, f (Num x) = Ok (g x)) ->
  forallb is_num a = true ->
  pd.series_map f a = Ok (map (fun c => g (num c)) a).
Proof.
  intros Hf. induction a as [| c a IH]; cbn; [reflexivity |].
  rewrite andb_true_iff. intros [Hc Ha].
  destruct c; [| discriminate]. rewrite Hf. cbn. now rewrite IH.
Qed.

Lemma sum_numeric (a : list cell) :
  forallb is_num a = true -> exists total, pd.sum a = Ok (Num total).
Proof.
  unfold pd.sum. generalize 0%float as acc.
  induction a as [| c a IH]; intros acc; cbn; [eauto |].
  rewrite andb_true_iff. intros [Hc Ha].
  destruct c; [| discriminate]. now apply IH.
Qed.

Lemma mul_random_numeric (a : list cell) (tape : nat -> float) (drawn : nat) :
  forallb is_num a = true ->
  exists w,
    pd.mul_random a (random_value tape drawn (List.length a)) = Ok w /\
    List.length w = List.length a /\
    forallb is_num w = true.
Proof.
  intros Ha. unfold random_value, pd.mul_random.
  destruct (List.length a =? 1)%nat.
  - rewrite (series_map_numeric _ (fun x => Num (x * tape drawn)%float)) by auto.
    eexists. split; [reflexivity |]. split; [apply length_map |].
    rewrite forallb_forall. intros c Hc. apply in_map_iff in Hc.
    destruct Hc as (c0 & <- & _). reflexivity.
  - rewrite length_map, length_seq, Nat.eqb_refl.
    assert (G : forall ys : list float,
              List.length ys = List.length a ->
              exists w,
                pd.series_zip
                  (fun x y => match y with
                              | Num y' => cell_mul_float x y'
                              | Str _ => Raise TypeError
                              end) a (map Num ys) = Ok w /\
                List.length w = List.length a /\ forallb is_num w = true).
    { clear drawn. induction a as [| c a IH]; intros [| y ys] Hlen; cbn in *;
        try discriminate; [eauto |].
      apply andb_true_iff in Ha. destruct Ha as [Hc Ha].
      destruct c; [| discriminate]. cbn.
      destruct (IH Ha ys) as (w & -> & Hw & Hn); [lia |].
      cbn. eexists. split; [reflexivity |]. cbn. split; [lia | assumption]. }
    apply G. now rewrite length_map, length_seq.
Qed.

Lemma colwise_In (w : string) (L L' : list Row) (p : Row) :
  List.length L' = List.length L ->
  (forall c, c <> w -> map (get c) L' = map (get c) L) ->
  In p L' ->
  exists r, In r L /\ forall c, c <> w -> get c p = get c r.
Proof.
  intros Hlen Hcol Hin. apply In_nth_error in Hin. destruct Hin as [i Hi].
  destruct (nth_error L i) as [r |] eqn:Hr.
  - exists r. split; [eapply nth_error_In; eassumption |].
    intros c Hc. specialize (Hcol c Hc).
    assert (E : nth_error (map (get c) L') i = nth_error (map (get c) L) i) by now rewrite Hcol.
    rewrite !nth_error_map, Hi, Hr in E. cbn in E. congruence.
  - apply nth_error_None in Hr.
    assert (i < List.length L') by (apply nth_error_Some; congruence). lia.
Qed.

Lemma find_missing_none (cs cols : list string) :
  forallb (fun c => mem c cols) cs = true ->
  find (fun c => negb (mem c cols)) cs = None.
Proof.
  induction cs as [| c cs IH]; cbn [forallb find]; [reflexivity |].
  rewrite andb_true_iff. intros [-> H]. cbn [negb]. auto.
Qed.

Lemma replacement_locations_value_spec (tape : nat -> float) (drawn : nat) (d : DataFrame)
    (region : cell) (n : Z) :
  mem "Region" (columns d) = true ->
  mem "Sum_Turnov" (columns d) = true ->
  numeric "Sum_Turnov" d = true ->
  (0 <= n)%Z ->
  let candidates := filter (fun r => cell_eq (get "Region" r) region) (rows d) in
  exists d' P,
    replacement_locations_value tape drawn d region n = Ok d' /\
    List.length P = List.length candidates /\
    (forall p, In p P ->
               exists r, In r candidates /\ forall c, c <> "weight" -> get c p = get c r) /\
    (forall c, c <> "weight" -> Permutation (map (get c) P) (map (get c) candidates)) /\
    (forall c, c <> "weight" -> map (get c) (rows d') = firstn (Z.to_nat n) (map (get c) P)).
Proof.
  intros MR MS NS Hn candidates.
  unfold replacement_locations_value.
  rewrite (getitem_mem "Region" d MR). cbn [obind].
  unfold pd.eq. rewrite map_map, boolean_index_map. fold candidates.
  unfold pd.reset_index. cbn [columns rows].
  set (R1 := relabel candidates).
  rewrite (getitem_mem "Sum_Turnov" (mkDF (columns d) R1) MS). cbn [obind rows].
  assert (N1 : forallb is_num (map (get "Sum_Turnov") R1) = true).
  { unfold R1, relabel. rewrite get_relabel. rewrite forallb_forall. intros c Hc.
    apply in_map_iff in Hc. destruct Hc as (r & <- & Hr).
    apply filter_In in Hr. destruct Hr as [Hr _].
    unfold numeric in NS. rewrite forallb_forall in NS. now apply NS. }
  destruct (sum_numeric _ N1) as [total ->]. cbn [obind].
  unfold pd.truediv_scalar.
  rewrite (series_map_numeric _ (fun x => Num (x / total)%float)) by auto. cbn [obind].
  set (w1 := map _ (map (get "Sum_Turnov") R1)).
  assert (L1 : List.length w1 = List.length R1) by (unfold w1; now rewrite !length_map).
  assert (Nw1 : forallb is_num w1 = true).
  { unfold w1. rewrite forallb_forall. intros c Hc. apply in_map_iff in Hc.
    destruct Hc as (c0 & <- & _). reflexivity. }
  set (d2 := pd.setitem "weight" w1 _).
  set (R2 := rows d2).
  assert (L2 : List.length R2 = List.length R1).
  { unfold R2, d2, pd.setitem. cbn [rows]. now apply setitem_rows_length. }
  assert (C2 : forall c, c <> "weight" -> map (get c) R2 = map (get c) R1).
  { intros c Hc. unfold R2, d2, pd.setitem. cbn [rows]. now apply setitem_rows_other. }
  rewrite (getitem_mem "weight" d2) by apply mem_add_column_new. cbn [obind].
  fold R2.
  replace (map (get "weight") R2) with w1
    by (symmetry; unfold R2, d2, pd.setitem; cbn [rows]; now apply setitem_rows_same).
  replace (List.length R2) with (List.length w1) by congruence.
  destruct (mul_random_numeric w1 tape drawn Nw1) as (w2 & -> & Lw2 & Nw2). cbn [obind].
  set (d3 := pd.setitem "weight" w2 d2).
  set (R3 := rows d3).
  assert (Lw23 : List.length w2 = List.length R2) by congruence.
  assert (L3 : List.length R3 = List.length R2).
  { unfold R3, d3, pd.setitem. cbn [rows]. now apply setitem_rows_length. }
  assert (C3 : forall c, c <> "weight" -> map (get c) R3 = map (get c) R2).
  { intros c Hc. unfold R3, d3, pd.setitem. cbn [rows]. now apply setitem_rows_other. }
  unfold pd.sort_values_desc.
  rewrite (getitem_mem "weight" d3) by apply mem_add_column_new. cbn [obind].
  fold R3.
  replace (map (get "weight") R3) with w2
    by (symmetry; unfold R3, d3, pd.setitem; cbn [rows]; now apply setitem_rows_same).
  rewrite (series_map_numeric pd.sort_key (fun x => x)) by auto. cbn [obind].
  set (P := map snd (pd.sort_desc (combine (map num w2) R3))).
  assert (HP : Permutation P R3).
  { unfold P. rewrite sort_desc_perm. rewrite map_snd_combine; [reflexivity |].
    rewrite length_map. congruence. }
  unfold pd.drop. cbn [columns rows].
  rewrite find_missing_none
    by (cbn [forallb]; rewrite andb_true_r; apply mem_add_column_new).
  exists (pd.head n
            (mkDF (filter (fun c => negb (mem c ["weight"])) (columns d3))
                  (map (fun r => mkRow (label r)
                                   (filter (fun kv => negb (mem (fst kv) ["weight"]))
                                           (cells r)))
                       (relabel P)))), P.
  split; [reflexivity |].
  assert (L0 : List.length R1 = List.length candidates) by apply length_relabel.
  assert (C1 : forall c, map (get c) R1 = map (get c) candidates)
    by (intros c; apply get_relabel).
  split; [rewrite (Permutation_length HP); congruence |].
  split.
  { intros p Hp. apply (colwise_In "weight" candidates R3).
    - congruence.
    - intros c Hc. now rewrite C3, C2, C1.
    - eapply Permutation_in; eassumption. }
  split.
  { intros c Hc. rewrite (Permutation_map (get c) HP). now rewrite C3, C2, C1. }
  intros c Hc. unfold pd.head. cbn [rows].
  replace (0 <=? n)%Z with true by (symmetry; now apply Z.leb_le).
  rewrite <- firstn_map. f_equal. rewrite map_map.
  unfold relabel. rewrite <- (get_relabel c 0 P). apply map_ext. intros r.
  unfold get. cbn [cells]. apply lookup_filter_other.
  unfold mem. cbn [existsb]. rewrite orb_false_r. now apply String.eqb_neq.
Qed.


(** *** Distinct keys *)

Lemma is_unique_distinct (l : list cell) : is_unique l = true <-> distinct_keys l.
Proof.
  unfold distinct_keys. induction l as [| a l IH]; cbn.
  - split; [constructor | reflexivity].
  - rewrite andb_true_iff, forallb_forall, IH. split.
    + intros [H1 H2]. constructor; [| assumption].
      apply Forall_forall. intros b Hb. apply negb_true_iff. auto.
    + intros H. inversion H as [| ? ? H1 H2]; subst. split; [| assumption].
      intros b Hb. apply negb_true_iff. rewrite Forall_forall in H1. auto.
Qed.

Lemma distinct_keys_perm (l l' : list cell) :
  Permutation l l' -> distinct_keys l -> distinct_keys l'.
Proof.
  unfold distinct_keys. induction 1 as [| x l l' Hp IH | x y l | l l' l'' H1 IH1 H2 IH2];
    intros H.
  - assumption.
  - inversion H as [| ? ? Hx Hl]; subst. constructor; [| auto].
    rewrite Forall_forall in *. intros b Hb. apply Hx.
    eapply Permutation_in; [apply Permutation_sym |]; eassumption.
  - inversion H as [| ? ? Hy Hxl]; subst.
    inversion Hxl as [| ? ? Hx Hl]; subst.
    inversion Hy as [| ? ? Hyx Hyl]; subst.
    constructor; [| constructor; assumption].
    constructor; [now rewrite key_eqb_sym | assumption].
  - auto.
Qed.

Lemma distinct_keys_subseq (l l' : list cell) :
  subseq l l' -> distinct_keys l' -> distinct_keys l.
Proof.
  unfold distinct_keys. induction 1 as [| x l1 l2 Hs IH | x l1 l2 Hs IH]; intros H.
  - assumption.
  - inversion H; subst. auto.
  - inversion H as [| ? ? Hx Hl]; subst. constructor; [| auto].
    rewrite Forall_forall in *. intros b Hb. apply Hx.
    clear - Hs Hb. induction Hs; cbn in *; tauto.
Qed.

Lemma subseq_firstn {A} (n : nat) (l : list A) : subseq (firstn n l) l.
Proof.
  revert n. induction l as [| x l IH]; intros [| n]; cbn.
  - constructor.
  - constructor.
  - apply subseq_nil_l.
  - apply subseq_keep, IH.
Qed.

Lemma subseq_map {A B} (f : A -> B) (l l' : list A) :
  subseq l l' -> subseq (map f l) (map f l').
Proof.
  induction 1; cbn; [apply subseq_nil | now apply subseq_skip | now apply subseq_keep].
Qed.

Lemma subseq_In {A} (l l' : list A) (x : A) : subseq l l' -> In x l -> In x l'.
Proof. induction 1; cbn; tauto. Qed.

(** C6: for a table with unique FacilityID values, a region and a count
    N >= 0, the sampler returns min(N, R) rows, R being the number of rows
    of the region; each returned row is a row of the region (the same
    values in every column), and no FacilityID occurs twice among them. *)
Theorem sampling_count_bound (st : State) (df : ref) (d : DataFrame) (region : cell) (n : Z) :
  nth_error (heap st) df = Some d ->
  mem "Region" (columns d) = true ->
  mem "Sum_Turnov" (columns d) = true ->
  numeric "Sum_Turnov" d = true ->
  is_unique (map (get "FacilityID") (rows d)) = true ->
  (0 <= n)%Z ->
  exists out d' st',
    sampling_code.generate_replacement_locations df region n st = (Ok out, st') /\
    nth_error (heap st') out = Some d' /\
    List.length (rows d') =
    Nat.min (Z.to_nat n)
            (List.length (filter (fun r => cell_eq (get "Region" r) region) (rows d))) /\
    (forall r',
       In r' (rows d') ->
       exists r,
         In r (rows d) /\ cell_eq (get "Region" r) region = true /\
         forall c, c <> "weight" -> get c r' = get c r) /\
    is_unique (map (get "FacilityID") (rows d')) = true.
Proof.
  intros Hd MR MS NS HU Hn.
  destruct (replacement_locations_value_spec (tape st) (drawn st) d region n MR MS NS Hn)
    as (d' & P & Hv & HlenP & HsrcP & HpermP & Hcols).
  destruct (generate_replacement_locations_run st df d region n Hd)
    as (junk & st' & Hrun & _ & Hout).
  rewrite Hv in Hrun. specialize (Hout d' Hv).
  exists (List.length (heap st) + 3), d', st'.
  split; [assumption |]. split; [assumption |].
  assert (Hlen : List.length (rows d') = List.length (firstn (Z.to_nat n) P)).
  { pose proof (Hcols "" ltac:(discriminate)) as E.
    apply (f_equal (@List.length cell)) in E.
    now rewrite firstn_map, !length_map in E. }
  split; [| split].
  - rewrite Hlen, length_firstn, HlenP. reflexivity.
  - intros r' Hr'.
    destruct (colwise_In "weight" (firstn (Z.to_nat n) P) (rows d') r' Hlen) as (p & Hp & Hagree);
      [ intros c Hc; rewrite <- firstn_map; now apply Hcols | assumption |].
    apply (subseq_In _ _ _ (subseq_firstn _ _)) in Hp.
    destruct (HsrcP p Hp) as (r & Hr & Hpr).
    apply filter_In in Hr. destruct Hr as [Hr Hreg].
    exists r. split; [assumption |]. split; [assumption |].
    intros c Hc. rewrite Hagree by assumption. now apply Hpr.
  - apply is_unique_distinct. rewrite (Hcols "FacilityID") by discriminate.
    apply (distinct_keys_subseq _ _ (subseq_firstn _ _)).
    apply (distinct_keys_perm _ _ (Permutation_sym (HpermP "FacilityID" ltac:(discriminate)))).
    apply (distinct_keys_subseq _ (map (get "FacilityID") (rows d))).
    + apply subseq_map, subseq_filter.
    + now apply is_unique_distinct.
Qed.

Lemma sampling_count_bound_witness :
  exists out d' st',
    sampling_code.generate_replacement_locations 0 (Str "North") 2 (holding example_frame)
    = (Ok out, st') /\
    nth_error (heap st') out = Some d' /\
    List.length (rows d') =
    Nat.min (Z.to_nat 2)
            (List.length (filter (fun r => cell_eq (get "Region" r) (Str "North"))
                                 (rows example_frame))) /\
    (forall r',
       In r' (rows d') ->
       exists r,
         In r (rows example_frame) /\ cell_eq (get "Region" r) (Str "North") = true /\
         forall c, c <> "weight" -> get c r' = get c r) /\
    is_unique (map (get "FacilityID") (rows d')) = true.
Proof.
  apply (sampling_count_bound (holding example_frame) 0 example_frame (Str "North") 2);
    try reflexivity.
  discriminate.
Defined.

(** ** The two self joins *)

Lemma cells_relabel (n : Z) (l : list Row) :
  map cells (relabel_from n l) = map cells l.
Proof.
  revert n. induction l as [| r l IH]; intros n; cbn; [reflexivity | now rewrite IH].
Qed.

Lemma find_map {A B} (f : B -> bool) (g : A -> B) (l : list A) :
  find f (map g l) = option_map g (find (fun x => f (g x)) l).
Proof.
  induction l as [| x l IH]; cbn; [reflexivity |].
  destruct (f (g x)); [reflexivity | assumption].
Qed.

(** With distinct keys, the rows matching a key are the first match alone. *)
Lemma filter_unique {A} (key : A -> cell) (k : cell) (l : list A) :
  distinct_keys (map key l) ->
  filter (fun x => key_eqb k (key x)) l =
  match find (fun x => key_eqb k (key x)) l with
  | Some x => [x]
  | None => []
  end.
Proof.
  unfold distinct_keys. induction l as [| x l IH]; cbn [map filter find]; [reflexivity |].
  intros H. inversion H as [| ? ? Hx Hl]; subst.
  destruct (key_eqb k (key x)) eqn:E; [| auto].
  f_equal. rewrite Forall_forall in Hx.
  clear IH H. induction l as [| y l IH]; cbn [filter]; [reflexivity |].
  destruct (key_eqb k (key y)) eqn:Ey.
  - exfalso. assert (key_eqb (key x) (key y) = true).
    { eapply key_eqb_trans; [| exact Ey]. now rewrite key_eqb_sym. }
    rewrite Hx in H; [discriminate | now left].
  - apply IH.
    + intros b Hb. apply Hx. now right.
    + inversion Hl; subst. assumption.
Qed.

(** With distinct keys, a row that matches is the row [find] returns. *)
Lemma find_unique {A} (key : A -> cell) (k : cell) (l : list A) (x : A) :
  distinct_keys (map key l) ->
  In x l -> key_eqb k (key x) = true ->
  find (fun y => key_eqb k (key y)) l = Some x.
Proof.
  unfold distinct_keys. induction l as [| a l IH]; cbn [map find In]; [tauto |].
  intros H Hin Hk. inversion H as [| ? ? Ha Hl]; subst.
  destruct (key_eqb k (key a)) eqn:E.
  - destruct Hin as [-> | Hin]; [reflexivity |].
    exfalso. rewrite Forall_forall in Ha.
    assert (key_eqb (key a) (key x) = true).
    { eapply key_eqb_trans; [| exact Hk]. now rewrite key_eqb_sym. }
    rewrite Ha in H0; [discriminate | now apply in_map].
  - destruct Hin as [-> | Hin]; [congruence | auto].
Qed.

Lemma find_none {A} (f : A -> bool) (l : list A) :
  (forall x, In x l -> f x = false) -> find f l = None.
Proof.
  induction l as [| x l IH]; cbn; [reflexivity |].
  intros H. rewrite (H x) by now left. apply IH. intros y Hy. apply H. now right.
Qed.

Lemma flat_map_singleton {A B} (f : A -> list B) (g : A -> B) (l : list A) :
  (forall x, f x = [g x]) -> flat_map f l = map g l.
Proof.
  intros H. induction l as [| x l IH]; cbn; [reflexivity |].
  now rewrite H, IH.
Qed.

Lemma merge_left_unique (left right : DataFrame) (left_on right_on suffix : string) :
  mem right_on (columns right) = true ->
  mem left_on (columns left) = true ->
  has_text (map (get left_on) (rows left)) = has_text (map (get right_on) (rows right)) ->
  nodupb (columns left ++ map (pd.suffixed (columns left) suffix) (columns right)) = true ->
  distinct_keys (map (get right_on) (rows right)) ->
  exists m,
    pd.merge_left left right left_on right_on suffix = Ok m /\
    columns m = columns left ++ map (pd.suffixed (columns left) suffix) (columns right) /\
    map cells (rows m) =
    map (joined (pd.suffixed (columns left) suffix) (columns right) left_on right_on
                (map cells (rows right)))
        (map cells (rows left)).
Proof.
  intros Mr Ml Hk Hnd Hu. unfold pd.merge_left.
  rewrite Mr, Ml, Hk, xorb_nilpotent, Hnd. cbn [negb].
  eexists. split; [reflexivity |]. split; [reflexivity |].
  cbn [rows]. unfold relabel. rewrite cells_relabel.
  rewrite (flat_map_singleton _
             (fun l => mkRow (label l)
                         (joined (pd.suffixed (columns left) suffix) (columns right)
                                 left_on right_on (map cells (rows right)) (cells l)))).
  - now rewrite !map_map.
  - intros l.
    rewrite (filter_unique (get right_on) (get left_on l) (rows right) Hu).
    unfold joined. rewrite find_map. unfold get.
    destruct (find _ (rows right)) as [r |]; reflexivity.
Qed.

Lemma lookup_app (c : string) (a b : list (string * cell)) :
  lookup c (a ++ b) = if mem c (map fst a) then lookup c a else lookup c b.
Proof.
  induction a as [| [k v] a IH]; cbn [app lookup map fst]; [reflexivity |].
  unfold mem. cbn [existsb].
  destruct (String.eqb c k); [reflexivity | exact IH].
Qed.

Lemma lookup_proj (c : string) (cs : list string) (cl : list (string * cell)) :
  In c cs -> lookup c (map (fun c => (c, lookup c cl)) cs) = lookup c cl.
Proof.
  induction cs as [| k cs IH]; cbn [map lookup In]; [tauto |].
  destruct (String.eqb c k) eqn:E.
  - apply String.eqb_eq in E. now subst.
  - intros [-> | H]; [rewrite String.eqb_refl in E; discriminate | auto].
Qed.

Lemma mem_filter (c : string) (f : string -> bool) (l : list string) :
  mem c (filter f l) = mem c l && f c.
Proof.
  induction l as [| k l IH]; cbn [filter]; [reflexivity |].
  unfold mem in *. destruct (f k) eqn:Ek; cbn [existsb]; rewrite IH.
  - destruct (String.eqb c k) eqn:E; [| reflexivity].
    apply String.eqb_eq in E. subst. now rewrite Ek.
  - destruct (String.eqb c k) eqn:E; [| reflexivity].
    apply String.eqb_eq in E. subst. rewrite Ek. now rewrite andb_false_r.
Qed.

Lemma keys_filter (cs : list string) (l : list (string * cell)) :
  map fst (filter (fun kv => negb (mem (fst kv) cs)) l) =
  filter (fun k => negb (mem k cs)) (map fst l).
Proof.
  induction l as [| [k v] l IH]; cbn [filter map fst]; [reflexivity |].
  destruct (negb (mem k cs)); cbn [map fst]; now rewrite IH.
Qed.

Lemma NoDup_app_disjoint {A} (a b : list A) :
  NoDup a -> NoDup b -> (forall x, In x b -> ~ In x a) -> NoDup (a ++ b).
Proof.
  intros Ha Hb Hd. induction a as [| x a IH]; cbn; [assumption |].
  inversion Ha; subst. constructor.
  - rewrite in_app_iff. intros [H | H]; [contradiction |].
    apply (Hd x H). now left.
  - apply IH; [assumption |]. intros y Hy Hin. apply (Hd y Hy). now right.
Qed.

Lemma find_ext_all {A} (f g : A -> bool) (l : list A) :
  (forall x, f x = g x) -> find f l = find g l.
Proof.
  intros H. induction l as [| x l IH]; cbn; [reflexivity |].
  now rewrite H, IH.
Qed.

Lemma getitem_list_value (cs : list string) (d : DataFrame) :
  forallb (fun c => mem c (columns d)) cs = true ->
  pd.getitem_list cs d =
  Ok (mkDF cs (map (fun r => mkRow (label r) (map (fun c => (c, get c r)) cs)) (rows d))).
Proof.
  intros H. unfold pd.getitem_list. now rewrite find_missing_none.
Qed.

Lemma drop_value (cs : list string) (d : DataFrame) :
  forallb (fun c => mem c (columns d)) cs = true ->
  pd.drop cs d =
  Ok (mkDF (filter (fun c => negb (mem c cs)) (columns d))
           (map (fun r => mkRow (label r)
                            (filter (fun kv => negb (mem (fst kv) cs)) (cells r)))
                (rows d))).
Proof.
  intros H. unfold pd.drop. now rewrite find_missing_none.
Qed.

(** One stage of the pipeline's self joins: pick columns of the table,
    left-join them back on the table, drop some columns.  With distinct
    right-hand keys every row is kept once, extended by the picked columns
    of its partner. *)
Lemma self_join_value (d : DataFrame) (picked : list string)
    (left_on right_on suffix : string) (dropped : list string) :
  wf d ->
  forallb (fun c => mem c (columns d)) picked = true ->
  In right_on picked ->
  mem left_on (columns d) = true ->
  has_text (map (get left_on) (rows d)) = has_text (map (get right_on) (rows d)) ->
  NoDup (columns d ++ map (pd.suffixed (columns d) suffix) picked) ->
  forallb (fun c => mem c (columns d ++ map (pd.suffixed (columns d) suffix) picked))
          dropped = true ->
  distinct_keys (map (get right_on) (rows d)) ->
  exists m,
    (right <-? pd.getitem_list picked d ;;
     merged <-? pd.merge_left d right left_on right_on suffix ;;
     pd.drop dropped merged) = Ok m /\
    wf m /\
    columns m = filter (fun c => negb (mem c dropped))
                       (columns d ++ map (pd.suffixed (columns d) suffix) picked) /\
    map cells (rows m) =
    map (fun cl => filter (fun kv => negb (mem (fst kv) dropped))
                     (joined (pd.suffixed (columns d) suffix) picked left_on right_on
                             (map cells (rows d)) cl))
        (map cells (rows d)).
Proof.
  intros [Hnd Hrows] Hpicked Hro Hlo Hkind Hnd2 Hdropped Hu.
  rewrite (getitem_list_value picked d Hpicked). cbn [obind].
  set (right := mkDF picked _).
  assert (Hkeys : map (get right_on) (rows right) = map (get right_on) (rows d)).
  { unfold right. cbn [rows]. rewrite map_map. apply map_ext. intros r.
    unfold get at 1. cbn [cells]. now apply lookup_proj. }
  destruct (merge_left_unique d right left_on right_on suffix) as (m & -> & Hcols & Hcells).
  { apply mem_In. exact Hro. }
  { exact Hlo. }
  { now rewrite Hkeys. }
  { apply nodupb_NoDup. exact Hnd2. }
  { now rewrite Hkeys. }
  cbn [obind]. rewrite drop_value by now rewrite Hcols.
  eexists. split; [reflexivity |].
  assert (J : map cells (rows m) =
              map (joined (pd.suffixed (columns d) suffix) picked left_on right_on
                          (map cells (rows d)))
                  (map cells (rows d))).
  { rewrite Hcells. apply map_ext. intros cl. unfold joined. f_equal.
    apply map_ext_in. intros c Hc. f_equal.
    unfold right. cbn [rows columns]. rewrite map_map. cbn [cells].
    rewrite !find_map.
    rewrite (find_ext_all (fun x => key_eqb (lookup left_on cl)
                                  (lookup right_on (map (fun c0 => (c0, get c0 x)) picked)))
                      (fun x => key_eqb (lookup left_on cl) (lookup right_on (cells x)))).
    - destruct (find _ (rows d)) as [r |]; cbn [option_map]; [| reflexivity].
      now apply lookup_proj.
    - intros r. f_equal. now apply lookup_proj. }
  split; [| split].
  - split; cbn [columns rows].
    + apply NoDup_filter. now rewrite Hcols.
    + apply Forall_forall. intros r Hr. apply in_map_iff in Hr.
      destruct Hr as (r0 & <- & Hr0). unfold wf_row. cbn [cells].
      rewrite keys_filter, Hcols. f_equal.
      assert (In (cells r0) (map cells (rows m))) as Hin by now apply in_map.
      rewrite J in Hin. apply in_map_iff in Hin. destruct Hin as (cl & <- & Hcl).
      unfold joined. rewrite map_app, map_map. cbn [fst]. f_equal.
      apply in_map_iff in Hcl. destruct Hcl as (r1 & <- & Hr1).
      rewrite Forall_forall in Hrows. now apply Hrows.
  - cbn [columns]. now rewrite Hcols.
  - cbn [rows]. rewrite map_map. cbn [cells].
    rewrite <- (map_map cells (fun cl => filter (fun kv => negb (mem (fst kv) dropped)) cl)).
    rewrite J. now rewrite (map_map _ (fun cl => filter _ cl)).
Qed.

(** *** The merges, run *)

Lemma getitem_list_run (st : State) (df : ref) (d : DataFrame) (cs : list string) :
  nth_error (heap st) df = Some d ->
  DataFrameObject.getitem_list df cs st =
  match pd.getitem_list cs d with
  | Ok d' => (Ok (List.length (heap st)), set_heap (heap st ++ [d']) st)
  | Raise e => (Raise e, st)
  end.
Proof.
  intros H. unfold DataFrameObject.getitem_list.
  rewrite (bind_eq _ _ _ _ (deref_ok _ _ _ H)).
  unfold bind, lift. destruct (pd.getitem_list cs d); reflexivity.
Qed.

Lemma merge_left_run (st : State) (left right : ref) (l r : DataFrame)
    (left_on right_on suffix : string) :
  nth_error (heap st) left = Some l ->
  nth_error (heap st) right = Some r ->
  DataFrameObject.merge_left left right left_on right_on suffix st =
  match pd.merge_left l r left_on right_on suffix with
  | Ok d' => (Ok (List.length (heap st)), set_heap (heap st ++ [d']) st)
  | Raise e => (Raise e, st)
  end.
Proof.
  intros Hl Hr. unfold DataFrameObject.merge_left.
  rewrite (bind_eq _ _ _ _ (deref_ok _ _ _ Hl)).
  rewrite (bind_eq _ _ _ _ (deref_ok _ _ _ Hr)).
  unfold bind, lift. destruct (pd.merge_left l r left_on right_on suffix); reflexivity.
Qed.

Lemma merge_facility_ID_run (st : State) (df : ref) (d m : DataFrame) (outfile : string)
    (overwrite : bool) :
  nth_error (heap st) df = Some d ->
  merge_facility_ID_value d = Ok m ->
  can_write (disk st) outfile overwrite = true ->
  exists st',
    preparing_sample_frame.merge_facility_ID df outfile overwrite st =
    (Ok (S (List.length (heap st))), st') /\
    nth_error (heap st') (S (List.length (heap st))) = Some m /\
    disk st' = write_file outfile (Xlsx (to_sheet true m)) (disk st).
Proof.
  intros Hd Hv Hw. unfold merge_facility_ID_value in Hv.
  unfold preparing_sample_frame.merge_facility_ID.
  rewrite (bind_eq _ _ _ _ (getitem_list_run _ _ _ _ Hd)).
  destruct (pd.getitem_list _ d) as [right |]; cbn [obind] in Hv; [| discriminate].
  erewrite bind_eq
    by (eapply merge_left_run;
        [cbn; apply nth_error_snoc_old; eassumption | cbn; apply nth_error_snoc_new]).
  destruct (pd.merge_left d right _ _ _) as [merged |]; cbn [obind] in Hv; [| discriminate].
  cbn beta iota.
  erewrite bind_eq by (eapply drop_top; cbn; reflexivity).
  change ("Merge_ID" ++ "_merge")%string with "Merge_ID_merge". rewrite Hv.
  erewrite bind_eq
    by (apply write_df_to_excel_run; [cbn; apply nth_error_snoc_new | exact Hw]).
  assert (L : List.length (heap st ++ [right]) = S (List.length (heap st)))
    by (rewrite length_app; cbn; lia).
  cbn [heap set_heap set_disk disk args tape drawn]. rewrite L.
  eexists. split; [reflexivity |]. split; [| reflexivity].
  cbn [heap set_heap set_disk disk args tape drawn]. rewrite <- L.
  apply nth_error_snoc_new.
Qed.

Lemma merge_turnover_outlets_run (st : State) (df : ref) (d m : DataFrame) (outfile : string)
    (overwrite : bool) :
  nth_error (heap st) df = Some d ->
  merge_turnover_outlets_value d = Ok m ->
  can_write (disk st) outfile overwrite = true ->
  exists st',
    preparing_sample_frame.merge_turnover_outlets df outfile overwrite st =
    (Ok (S (List.length (heap st))), st') /\
    nth_error (heap st') (S (List.length (heap st))) = Some m /\
    disk st' = write_file outfile (Xlsx (to_sheet true m)) (disk st).
Proof.
  intros Hd Hv Hw. unfold merge_turnover_outlets_value in Hv.
  unfold preparing_sample_frame.merge_turnover_outlets.
  rewrite (bind_eq _ _ _ _ (getitem_list_run _ _ _ _ Hd)).
  destruct (pd.getitem_list _ d) as [right |]; cbn [obind] in Hv; [| discriminate].
  erewrite bind_eq
    by (eapply merge_left_run;
        [cbn; apply nth_error_snoc_old; eassumption | cbn; apply nth_error_snoc_new]).
  destruct (pd.merge_left d right _ _ _) as [merged |]; cbn [obind] in Hv; [| discriminate].
  cbn beta iota.
  erewrite bind_eq by (eapply drop_top; cbn; reflexivity).
  change ("FacilityID" ++ "_loc2")%string with "FacilityID_loc2". rewrite Hv.
  erewrite bind_eq
    by (apply write_df_to_excel_run; [cbn; apply nth_error_snoc_new | exact Hw]).
  assert (L : List.length (heap st ++ [right]) = S (List.length (heap st)))
    by (rewrite length_app; cbn; lia).
  cbn [heap set_heap set_disk disk args tape drawn]. rewrite L.
  eexists. split; [reflexivity |]. split; [| reflexivity].
  cbn [heap set_heap set_disk disk args tape drawn]. rewrite <- L.
  apply nth_error_snoc_new.
Qed.

Lemma can_write_after_write (fs : FS) (p q : string) (f : file) (overwrite : bool) :
  q <> p -> can_write (write_file p f fs) q overwrite = can_write fs q overwrite.
Proof.
  intros Hne. unfold can_write, is_file, is_dir.
  now rewrite find_file_write_other.
Qed.

Lemma find_ext_in {A} (f g : A -> bool) (l : list A) :
  (forall x, In x l -> f x = g x) -> find f l = find g l.
Proof.
  induction l as [| x l IH]; cbn; [reflexivity |].
  intros H. rewrite (H x) by now left.
  rewrite IH; [reflexivity |]. intros y Hy. apply H. now right.
Qed.

(** The cells of a stage's row at a column that the table had before, and
    at a column the stage made. *)
Lemma joined_lookup_old (rename : string -> string) (picked dropped : list string)
    (left_on right_on c : string) (all_cells : list (list (string * cell)))
    (cl : list (string * cell)) :
  mem c (map fst cl) = true -> mem c dropped = false ->
  lookup c (filter (fun kv => negb (mem (fst kv) dropped))
                   (joined rename picked left_on right_on all_cells cl)) =
  lookup c cl.
Proof.
  intros Hc Hd. rewrite lookup_filter_other by assumption.
  unfold joined. now rewrite lookup_app, Hc.
Qed.

Lemma joined_lookup_new (rename : string -> string) (picked dropped : list string)
    (left_on right_on c : string) (all_cells : list (list (string * cell)))
    (cl : list (string * cell)) :
  mem c (map fst cl) = false -> mem c dropped = false ->
  lookup c (filter (fun kv => negb (mem (fst kv) dropped))
                   (joined rename picked left_on right_on all_cells cl)) =
  lookup c (map (fun c0 =>
                   (rename c0,
                    match find (fun cr => key_eqb (lookup left_on cl) (lookup right_on cr))
                               all_cells with
                    | Some cr => lookup c0 cr
                    | None => NaN
                    end)) picked).
Proof.
  intros Hc Hd. rewrite lookup_filter_other by assumption.
  unfold joined. now rewrite lookup_app, Hc.
Qed.

Lemma has_text_false (values : list cell) :
  (forall v, In v values -> is_num v = true) -> has_text values = false.
Proof.
  intros H. unfold has_text. induction values as [| v values IH]; cbn; [reflexivity |].
  rewrite (H v) by now left. cbn. apply IH. intros w Hw. apply H. now right.
Qed.

Lemma numeric_has_text (c : string) (d : DataFrame) :
  numeric c d = true -> has_text (map (get c) (rows d)) = false.
Proof.
  unfold numeric. rewrite forallb_forall. intros H. apply has_text_false.
  intros v Hv. apply in_map_iff in Hv. destruct Hv as (r & <- & Hr). auto.
Qed.

Lemma suffixed_present (cols : list string) (suffix c : string) :
  mem c cols = true -> pd.suffixed cols suffix c = (c ++ suffix)%string.
Proof. unfold pd.suffixed. now intros ->. Qed.

Lemma merges_value_spec (d : DataFrame) :
  merge_ready d = true ->
  is_unique (map (get "FacilityID") (rows d)) = true ->
  exists m1 m2,
    merge_facility_ID_value d = Ok m1 /\
    merge_turnover_outlets_value m1 = Ok m2 /\
    List.length (rows m2) = List.length (rows d) /\
    forall i acceptor merged,
      nth_error (rows d) i = Some acceptor ->
      nth_error (rows m2) i = Some merged ->
      (forall c, In c (columns d) -> c <> "Unnamed: 0" -> get c merged = get c acceptor) /\
      (forall donor,
         In donor (rows d) ->
         key_eqb (get "Merge_ID" acceptor) (get "FacilityID" donor) = true ->
         get "LocName_merge" merged = get "LocName" donor /\
         get "FacilityID_merge" merged = get "FacilityID" donor /\
         get "Sum_Turnov_loc2" merged = get "Sum_Turnov" donor /\
         get "OutletCt_loc2" merged = get "OutletCt" donor) /\
      (notna (map (get "FacilityID") (rows d)) = true ->
       (forall donor,
          In donor (rows d) ->
          key_eqb (get "Merge_ID" acceptor) (get "FacilityID" donor) = false) ->
       get "LocName_merge" merged = NaN /\
       get "FacilityID_merge" merged = NaN /\
       get "Sum_Turnov_loc2" merged = NaN /\
       get "OutletCt_loc2" merged = NaN).
Proof.
  intros Hready Hunique.
  unfold merge_ready in Hready. cbn [forallb] in Hready.
  rewrite !andb_true_iff, !negb_true_iff in Hready.
  destruct Hready as
    [[[[Hwfb (M_LN & M_FID & M_MID & M_ST & M_OC & M_U & _)]
       (A_LNm & A_FIDm & A_MIDm & A_FIDl & A_STl & A_OCl & _)] N_FID] N_MID].
  pose proof (wfb_wf d Hwfb) as Hwf. destruct Hwf as [Hnd Hrows].
  apply is_unique_distinct in Hunique.
  (* first join *)
  assert (R1 : map (pd.suffixed (columns d) "_merge") ["LocName"; "FacilityID"; "Merge_ID"]
               = ["LocName_merge"; "FacilityID_merge"; "Merge_ID_merge"]).
  { cbn [map]. now rewrite !suffixed_present by assumption. }
  destruct (self_join_value d ["LocName"; "FacilityID"; "Merge_ID"]
              "Merge_ID" "FacilityID" "_merge" ["Merge_ID_merge"])
    as (m1 & Hv1 & Hwf1 & Hc1 & Hcells1).
  { now split. }
  { cbn [forallb]. now rewrite M_LN, M_FID, M_MID. }
  { cbn. auto. }
  { exact M_MID. }
  { now rewrite !numeric_has_text. }
  { rewrite R1. apply NoDup_app_disjoint; [assumption | now apply nodupb_NoDup |].
    intros x [<- | [<- | [<- | []]]]; now apply mem_false. }
  { rewrite R1. cbn [forallb]. rewrite mem_app. now rewrite orb_true_r. }
  { exact Hunique. }
  rewrite R1 in Hc1.
  set (CL := map cells (rows d)) in *.
  set (S1 := fun cl : list (string * cell) =>
               filter (fun kv => negb (mem (fst kv) ["Merge_ID_merge"]))
                 (joined (pd.suffixed (columns d) "_merge")
                         ["LocName"; "FacilityID"; "Merge_ID"] "Merge_ID" "FacilityID" CL cl))
    in *.
  assert (Mem1 : forall c,
             mem c (columns m1) =
             (mem c (columns d)
              || mem c ["LocName_merge"; "FacilityID_merge"; "Merge_ID_merge"])
             && negb (mem c ["Merge_ID_merge"])).
  { intros c. now rewrite Hc1, mem_filter, mem_app. }
  assert (Hkeys : forall cl, In cl CL -> map fst cl = columns d).
  { intros cl Hcl. apply in_map_iff in Hcl. destruct Hcl as (r & <- & Hr).
    rewrite Forall_forall in Hrows. now apply Hrows. }
  assert (Old1 : forall cl c,
             In cl CL -> mem c (columns d) = true -> lookup c (S1 cl) = lookup c cl).
  { intros cl c Hcl Hc. unfold S1. apply joined_lookup_old.
    - now rewrite (Hkeys cl Hcl).
    - unfold mem. cbn [existsb]. rewrite orb_false_r. apply String.eqb_neq.
      intros ->. congruence. }
  assert (New1 : forall cl c,
             In cl CL -> mem c (columns d) = false -> mem c ["Merge_ID_merge"] = false ->
             lookup c (S1 cl) =
             lookup c
               (map (fun c0 =>
                       (pd.suffixed (columns d) "_merge" c0,
                        match find (fun cr => key_eqb (lookup "Merge_ID" cl)
                                                      (lookup "FacilityID" cr)) CL with
                        | Some cr => lookup c0 cr
                        | None => NaN
                        end)) ["LocName"; "FacilityID"; "Merge_ID"])).
  { intros cl c Hcl Hc Hd. unfold S1. apply joined_lookup_new; [| assumption].
    now rewrite (Hkeys cl Hcl). }
  assert (K1 : map (get "FacilityID") (rows m1) = map (get "FacilityID") (rows d)).
  { transitivity (map (lookup "FacilityID") (map cells (rows m1)));
      [now rewrite map_map |].
    rewrite Hcells1, map_map.
    transitivity (map (lookup "FacilityID") CL); [| unfold CL; now rewrite map_map].
    apply map_ext_in. intros cl Hcl. now apply Old1. }
  (* second join *)
  assert (R2 : map (pd.suffixed (columns m1) "_loc2") ["FacilityID"; "Sum_Turnov"; "OutletCt"]
               = ["FacilityID_loc2"; "Sum_Turnov_loc2"; "OutletCt_loc2"]).
  { cbn [map].
    rewrite !suffixed_present; [reflexivity | ..];
      rewrite Mem1, ?M_OC, ?M_ST, ?M_FID; reflexivity. }
  destruct (self_join_value m1 ["FacilityID"; "Sum_Turnov"; "OutletCt"]
              "FacilityID_merge" "FacilityID" "_loc2" ["Unnamed: 0"; "FacilityID_loc2"])
    as (m2 & Hv2 & Hwf2 & Hc2 & Hcells2).
  { exact Hwf1. }
  { cbn [forallb]. rewrite !Mem1, M_FID, M_ST, M_OC. reflexivity. }
  { cbn. auto. }
  { rewrite Mem1, A_FIDm. reflexivity. }
  { rewrite K1, (numeric_has_text "FacilityID" d N_FID).
    transitivity (has_text (map (lookup "FacilityID_merge") (map cells (rows m1))));
      [now rewrite map_map |].
    rewrite Hcells1, map_map. apply has_text_false. intros v Hv.
    apply in_map_iff in Hv. destruct Hv as (cl & <- & Hcl).
    rewrite New1; [| assumption | assumption | reflexivity].
    cbn [map]. rewrite !suffixed_present by assumption.
    transitivity
      (is_num match find (fun cr => key_eqb (lookup "Merge_ID" cl) (lookup "FacilityID" cr))
                         CL with
              | Some cr => lookup "FacilityID" cr
              | None => NaN
              end); [reflexivity |].
    destruct (find _ CL) as [cr |] eqn:E; [| reflexivity].
    apply find_some in E. destruct E as [E _].
    unfold CL in E. apply in_map_iff in E. destruct E as (r & <- & Hr).
    unfold numeric in N_FID. rewrite forallb_forall in N_FID. now apply N_FID. }
  { rewrite R2. apply NoDup_app_disjoint; [apply Hwf1 | now apply nodupb_NoDup |].
    intros x [<- | [<- | [<- | []]]]; apply mem_false;
      rewrite Mem1, ?A_FIDl, ?A_STl, ?A_OCl; reflexivity. }
  { rewrite R2. cbn [forallb]. rewrite !mem_app, !Mem1, M_U, A_FIDl. reflexivity. }
  { now rewrite K1. }
  exists m1, m2. split; [exact Hv1 |]. split; [exact Hv2 |].
  rewrite Hcells1 in Hcells2.
  set (S2 := fun cl : list (string * cell) =>
               filter (fun kv => negb (mem (fst kv) ["Unnamed: 0"; "FacilityID_loc2"]))
                 (joined (pd.suffixed (columns m1) "_loc2")
                         ["FacilityID"; "Sum_Turnov"; "OutletCt"]
                         "FacilityID_merge" "FacilityID" (map S1 CL) cl)) in *.
  split.
  { apply (f_equal (@List.length _)) in Hcells2.
    unfold CL in Hcells2. now rewrite !length_map in Hcells2. }
  intros i acceptor merged Ha Hm.
  set (cl := cells acceptor).
  assert (Hcl : In cl CL) by (apply in_map; eapply nth_error_In; eassumption).
  assert (Ecells : cells merged = S2 (S1 cl)).
  { assert (E : nth_error (map cells (rows m2)) i = Some (cells merged))
      by now rewrite nth_error_map, Hm.
    rewrite Hcells2 in E. unfold CL in E. rewrite !nth_error_map, Ha in E.
    cbn in E. now injection E as <-. }
  assert (Hkeys1 : forall c1, In c1 (map S1 CL) -> map fst c1 = columns m1).
  { intros c1 Hc1'. rewrite <- Hcells1 in Hc1'. apply in_map_iff in Hc1'.
    destruct Hc1' as (r & <- & Hr). destruct Hwf1 as [_ Hrows1].
    rewrite Forall_forall in Hrows1. now apply Hrows1. }
  assert (Old2 : forall c1 c,
             In c1 (map S1 CL) -> mem c (columns m1) = true ->
             mem c ["Unnamed: 0"; "FacilityID_loc2"] = false ->
             lookup c (S2 c1) = lookup c c1).
  { intros c1 c Hc1' Hc Hd. unfold S2. apply joined_lookup_old; [| assumption].
    now rewrite (Hkeys1 c1 Hc1'). }
  assert (New2 : forall c1 c,
             In c1 (map S1 CL) -> mem c (columns m1) = false ->
             mem c ["Unnamed: 0"; "FacilityID_loc2"] = false ->
             lookup c (S2 c1) =
             lookup c
               (map (fun c0 =>
                       (pd.suffixed (columns m1) "_loc2" c0,
                        match find (fun cr => key_eqb (lookup "FacilityID_merge" c1)
                                                      (lookup "FacilityID" cr))
                                   (map S1 CL) with
                        | Some cr => lookup c0 cr
                        | None => NaN
                        end)) ["FacilityID"; "Sum_Turnov"; "OutletCt"])).
  { intros c1 c Hc1' Hc Hd. unfold S2. apply joined_lookup_new; [| assumption].
    now rewrite (Hkeys1 c1 Hc1'). }
  assert (Hc1in : In (S1 cl) (map S1 CL)) by now apply in_map.
  assert (HU : distinct_keys (map (lookup "FacilityID") CL)).
  { unfold CL. rewrite map_map. exact Hunique. }
  set (p1 := find (fun cr => key_eqb (lookup "Merge_ID" cl) (lookup "FacilityID" cr)) CL).
  assert (E_LN : get "LocName_merge" merged =
                 match p1 with Some cr => lookup "LocName" cr | None => NaN end).
  { unfold get. rewrite Ecells.
    rewrite Old2; [| assumption | rewrite Mem1, A_LNm; reflexivity | reflexivity].
    rewrite New1; [| assumption | assumption | reflexivity].
    cbn [map]. rewrite !suffixed_present by assumption. reflexivity. }
  assert (E_FID1 : lookup "FacilityID_merge" (S1 cl) =
                   match p1 with Some cr => lookup "FacilityID" cr | None => NaN end).
  { rewrite New1; [| assumption | assumption | reflexivity].
    cbn [map]. rewrite !suffixed_present by assumption. reflexivity. }
  assert (E_FID : get "FacilityID_merge" merged =
                  match p1 with Some cr => lookup "FacilityID" cr | None => NaN end).
  { unfold get. rewrite Ecells.
    rewrite Old2; [| assumption | rewrite Mem1, A_FIDm; reflexivity | reflexivity].
    exact E_FID1. }
  set (p2 := find (fun x => key_eqb (lookup "FacilityID_merge" (S1 cl))
                                    (lookup "FacilityID" x)) CL).
  assert (P2 : find (fun cr => key_eqb (lookup "FacilityID_merge" (S1 cl))
                                       (lookup "FacilityID" cr)) (map S1 CL)
               = option_map S1 p2).
  { rewrite find_map. unfold p2. f_equal. apply find_ext_in.
    intros x Hx. f_equal. now apply Old1. }
  assert (Present2 : forall c, mem c (columns d) = true ->
                               pd.suffixed (columns m1) "_loc2" c = (c ++ "_loc2")%string).
  { intros c Hc. apply suffixed_present. rewrite Mem1, Hc. cbn [orb andb].
    apply negb_true_iff. unfold mem. cbn [existsb]. rewrite orb_false_r.
    apply String.eqb_neq. intros ->. congruence. }
  assert (E_ST : get "Sum_Turnov_loc2" merged =
                 match p2 with Some cr => lookup "Sum_Turnov" cr | None => NaN end).
  { unfold get. rewrite Ecells.
    rewrite New2; [| assumption | rewrite Mem1, A_STl; reflexivity | reflexivity].
    rewrite P2. cbn [map]. rewrite !Present2 by assumption.
    destruct p2 as [cr |] eqn:E2; cbn [option_map]; [| reflexivity].
    transitivity (lookup "Sum_Turnov" (S1 cr)); [reflexivity |].
    apply Old1; [| assumption]. apply find_some in E2. apply E2. }
  assert (E_OC : get "OutletCt_loc2" merged =
                 match p2 with Some cr => lookup "OutletCt" cr | None => NaN end).
  { unfold get. rewrite Ecells.
    rewrite New2; [| assumption | rewrite Mem1, A_OCl; reflexivity | reflexivity].
    rewrite P2. cbn [map]. rewrite !Present2 by assumption.
    destruct p2 as [cr |] eqn:E2; cbn [option_map]; [| reflexivity].
    transitivity (lookup "OutletCt" (S1 cr)); [reflexivity |].
    apply Old1; [| assumption]. apply find_some in E2. apply E2. }
  split; [| split].
  - intros c Hc Hne. apply mem_In in Hc.
    assert (c <> "Merge_ID_merge") by (intros ->; congruence).
    assert (c <> "FacilityID_loc2") by (intros ->; congruence).
    unfold get. rewrite Ecells. rewrite Old2; [now apply Old1 | assumption | |].
    + rewrite Mem1, Hc. cbn [orb andb]. apply negb_true_iff.
      unfold mem. cbn [existsb]. rewrite orb_false_r. now apply String.eqb_neq.
    + unfold mem. cbn [existsb]. rewrite orb_false_r. apply orb_false_iff.
      split; now apply String.eqb_neq.
  - intros donor Hdonor Hmatch.
    assert (Hd : In (cells donor) CL) by now apply in_map.
    assert (Hp1 : p1 = Some (cells donor)).
    { unfold p1. apply (find_unique (lookup "FacilityID")); assumption. }
    assert (Hp2 : p2 = Some (cells donor)).
    { unfold p2. rewrite E_FID1, Hp1.
      apply (find_unique (lookup "FacilityID")); [assumption | assumption |].
      apply key_eqb_refl. }
    rewrite E_LN, E_FID, E_ST, E_OC, Hp1, Hp2. repeat split; reflexivity.
  - intros Hnotna Hnone.
    assert (Hp1 : p1 = None).
    { unfold p1. apply find_none. intros x Hx. apply in_map_iff in Hx.
      destruct Hx as (donor & <- & Hdonor). now apply Hnone. }
    assert (Hp2 : p2 = None).
    { unfold p2. rewrite E_FID1, Hp1. apply find_none. intros x Hx.
      apply in_map_iff in Hx. destruct Hx as (donor & <- & Hdonor).
      destruct (key_eqb NaN (lookup "FacilityID" (cells donor))) eqn:E; [| reflexivity].
      apply key_eqb_isna in E. unfold notna in Hnotna.
      rewrite forallb_forall in Hnotna.
      specialize (Hnotna (get "FacilityID" donor) (in_map _ _ _ Hdonor)).
      unfold get in Hnotna. rewrite <- E in Hnotna. discriminate Hnotna. }
    rewrite E_LN, E_FID, E_ST, E_OC, Hp1, Hp2. repeat split; reflexivity.
Qed.

(** C2, as stated: in a table with unique FacilityID values, a row whose
    Merge_ID matches no FacilityID still gets the turnover and outlets of
    the row whose FacilityID is missing. *)
Lemma unmatched_row_is_given_a_donor :
  is_unique (map (get "FacilityID") (rows example_null_id)) = true /\
  exists acceptor,
    nth_error (rows example_null_id) 0 = Some acceptor /\
    (forall donor,
       In donor (rows example_null_id) ->
       key_eqb (get "Merge_ID" acceptor) (get "FacilityID" donor) = false) /\
    exists m1 st1 m2 st2 d2 merged,
      preparing_sample_frame.merge_facility_ID 0 "frame/ID_Merge.xlsx" false (holding example_null_id)
      = (Ok m1, st1) /\
      preparing_sample_frame.merge_turnover_outlets m1 "frame/Intermediate.xlsx" false st1
      = (Ok m2, st2) /\
      nth_error (heap st2) m2 = Some d2 /\
      nth_error (rows d2) 0 = Some merged /\
      get "Sum_Turnov_loc2" merged = Num 50 /\
      get "OutletCt_loc2" merged = Num 100 /\
      isna (get "Sum_Turnov_loc2" merged) = false.
Proof.
  split; [reflexivity |].
  eexists. split; [reflexivity |]. split.
  - intros donor [<- | [<- | []]]; reflexivity.
  - do 6 eexists.
    split; [vm_compute; reflexivity |].
    split; [vm_compute; reflexivity |].
    split; [vm_compute; reflexivity |].
    split; [vm_compute; reflexivity |].
    repeat split; reflexivity.
Qed.

(** C2, amended: for a table with unique FacilityID values none of which
    is missing, the two self joins succeed, keep the rows one for one, give
    every row whose Merge_ID equals a donor's FacilityID exactly that
    donor's LocName, FacilityID, Sum_Turnov and OutletCt in LocName_merge,
    FacilityID_merge, Sum_Turnov_loc2 and OutletCt_loc2, and give every row
    without a matching donor missing values there. *)
Theorem join_correctness (st : State) (df : ref) (d : DataFrame) (out1 out2 : string)
    (overwrite : bool) :
  nth_error (heap st) df = Some d ->
  merge_ready d = true ->
  is_unique (map (get "FacilityID") (rows d)) = true ->
  notna (map (get "FacilityID") (rows d)) = true ->
  can_write (disk st) out1 overwrite = true ->
  can_write (disk st) out2 overwrite = true ->
  out2 <> out1 ->
  exists m1 st1 m2 st2 d2,
    preparing_sample_frame.merge_facility_ID df out1 overwrite st = (Ok m1, st1) /\
    preparing_sample_frame.merge_turnover_outlets m1 out2 overwrite st1 = (Ok m2, st2) /\
    nth_error (heap st2) m2 = Some d2 /\
    List.length (rows d2) = List.length (rows d) /\
    forall i acceptor merged,
      nth_error (rows d) i = Some acceptor ->
      nth_error (rows d2) i = Some merged ->
      (forall c, In c (columns d) -> c <> "Unnamed: 0" -> get c merged = get c acceptor) /\
      (forall donor,
         In donor (rows d) ->
         key_eqb (get "Merge_ID" acceptor) (get "FacilityID" donor) = true ->
         get "LocName_merge" merged = get "LocName" donor /\
         get "FacilityID_merge" merged = get "FacilityID" donor /\
         get "Sum_Turnov_loc2" merged = get "Sum_Turnov" donor /\
         get "OutletCt_loc2" merged = get "OutletCt" donor) /\
      ((forall donor,
          In donor (rows d) ->
          key_eqb (get "Merge_ID" acceptor) (get "FacilityID" donor) = false) ->
       get "LocName_merge" merged = NaN /\
       get "FacilityID_merge" merged = NaN /\
       get "Sum_Turnov_loc2" merged = NaN /\
       get "OutletCt_loc2" merged = NaN).
Proof.
  intros Hd Hready Hunique Hnotna Hw1 Hw2 Hne.
  destruct (merges_value_spec d Hready Hunique) as (d1 & d2 & Hv1 & Hv2 & Hlen & Hrows).
  destruct (merge_facility_ID_run st df d d1 out1 overwrite Hd Hv1 Hw1)
    as (st1 & Hrun1 & Hm1 & Hdisk1).
  destruct (merge_turnover_outlets_run st1 _ d1 d2 out2 overwrite Hm1 Hv2)
    as (st2 & Hrun2 & Hm2 & _).
  { rewrite Hdisk1. now rewrite can_write_after_write. }
  exists (S (List.length (heap st))), st1, (S (List.length (heap st1))), st2, d2.
  split; [assumption |]. split; [assumption |]. split; [assumption |].
  split; [assumption |].
  intros i acceptor merged Ha Hm.
  destruct (Hrows i acceptor merged Ha Hm) as (H1 & H2 & H3).
  split; [assumption |]. split; [assumption |]. now apply H3.
Qed.

Lemma join_correctness_witness :
  exists m1 st1 m2 st2 d2,
    preparing_sample_frame.merge_facility_ID 0 "frame/ID_Merge.xlsx" false (holding example_indexed)
    = (Ok m1, st1) /\
    preparing_sample_frame.merge_turnover_outlets m1 "frame/Intermediate.xlsx" false st1
    = (Ok m2, st2) /\
    nth_error (heap st2) m2 = Some d2 /\
    List.length (rows d2) = List.length (rows example_indexed) /\
    forall i acceptor merged,
      nth_error (rows example_indexed) i = Some acceptor ->
      nth_error (rows d2) i = Some merged ->
      (forall c, In c (columns example_indexed) -> c <> "Unnamed: 0" -> get c merged = get c acceptor) /\
      (forall donor,
         In donor (rows example_indexed) ->
         key_eqb (get "Merge_ID" acceptor) (get "FacilityID" donor) = true ->
         get "LocName_merge" merged = get "LocName" donor /\
         get "FacilityID_merge" merged = get "FacilityID" donor /\
         get "Sum_Turnov_loc2" merged = get "Sum_Turnov" donor /\
         get "OutletCt_loc2" merged = get "OutletCt" donor) /\
      ((forall donor,
          In donor (rows example_indexed) ->
          key_eqb (get "Merge_ID" acceptor) (get "FacilityID" donor) = false) ->
       get "LocName_merge" merged = NaN /\
       get "FacilityID_merge" merged = NaN /\
       get "Sum_Turnov_loc2" merged = NaN /\
       get "OutletCt_loc2" merged = NaN).
Proof.
  apply (join_correctness (holding example_indexed) 0
           example_indexed "frame/ID_Merge.xlsx" "frame/Intermediate.xlsx"
           false); try reflexivity.
  discriminate.
Defined.
(** * Further properties *)

(** ** Files are never lost without [force] *)

Lemma extends_refl (fs : FS) : extends fs fs.
Proof. split; auto. Qed.

Lemma extends_trans (a b c : FS) : extends a b -> extends b c -> extends a c.
Proof. intros [H1 H2] [H3 H4]. split; auto. Qed.

Lemma keeps_disk_files {A} (m : M A) : keeps_disk m -> keeps_files m.
Proof. intros H st. rewrite H. apply extends_refl. Qed.

Lemma keeps_disk_bind {A B} (m : M A) (k : A -> M B) :
  keeps_disk m -> (forall a, keeps_disk (k a)) -> keeps_disk (bind m k).
Proof.
  intros Hm Hk st. unfold bind. specialize (Hm st).
  destruct (m st) as [[a | e] st1]; cbn [snd] in *; [| assumption].
  now rewrite Hk.
Qed.

Lemma keeps_files_bind {A B} (m : M A) (k : A -> M B) :
  keeps_files m -> (forall a, keeps_files (k a)) -> keeps_files (bind m k).
Proof.
  intros Hm Hk st. unfold bind. specialize (Hm st).
  destruct (m st) as [[a | e] st1]; cbn [snd] in *; [| assumption].
  eapply extends_trans; [eassumption | apply Hk].
Qed.

Lemma keeps_disk_ret {A} (a : A) : keeps_disk (ret a).
Proof. intros st. reflexivity. Qed.

Lemma keeps_disk_raise {A} (e : exn) : keeps_disk (@raise A e).
Proof. intros st. reflexivity. Qed.

Lemma keeps_disk_lift {A} (o : outcome A) : keeps_disk (lift o).
Proof. intros st. reflexivity. Qed.

Lemma keeps_disk_deref (r : ref) : keeps_disk (deref r).
Proof. intros st. unfold deref. now destruct (nth_error _ _). Qed.

Lemma keeps_disk_new (d : DataFrame) : keeps_disk (new d).
Proof. intros st. reflexivity. Qed.

Lemma keeps_disk_mutate (r : ref) (d : DataFrame) : keeps_disk (mutate r d).
Proof. intros st. reflexivity. Qed.

Lemma keeps_disk_path_exists (p : string) : keeps_disk (path_exists p).
Proof. intros st. reflexivity. Qed.

Lemma keeps_disk_global_args : keeps_disk global_args.
Proof. intros st. unfold global_args. now destruct (args st). Qed.

Lemma keeps_disk_np_random_rand : keeps_disk np_random_rand.
Proof. intros st. reflexivity. Qed.

Lemma keeps_disk_np_random_rand_n (n : nat) : keeps_disk (np_random_rand_n n).
Proof. intros st. reflexivity. Qed.

Lemma keeps_disk_read_excel (p : string) : keeps_disk (read_excel p).
Proof.
  intros st. unfold read_excel. destruct (find_file _ _) as [[s | s] |]; reflexivity.
Qed.

Lemma keeps_disk_read_csv (p : string) : keeps_disk (read_csv p).
Proof.
  intros st. unfold read_csv. destruct (find_file _ _) as [[s | s] |]; reflexivity.
Qed.

Create HintDb keeps discriminated.

#[local] Hint Resolve keeps_disk_ret keeps_disk_raise keeps_disk_lift keeps_disk_deref
  keeps_disk_new keeps_disk_mutate keeps_disk_path_exists keeps_disk_global_args
  keeps_disk_np_random_rand keeps_disk_np_random_rand_n keeps_disk_read_excel
  keeps_disk_read_csv : keeps.

(** Chains of [bind] are taken apart, and each link is looked up. *)
Ltac keeps :=
  repeat first
    [ progress intros
    | solve [auto with keeps]
    | apply keeps_disk_bind
    | apply keeps_files_bind
    | match goal with
      | |- keeps_disk (if ?b then _ else _) => destruct b
      | |- keeps_files (if ?b then _ else _) => destruct b
      | |- keeps_files _ => apply keeps_disk_files
      end ].

Lemma keeps_disk_copy (df : ref) : keeps_disk (DataFrameObject.copy df).
Proof. unfold DataFrameObject.copy. keeps. Qed.

Lemma keeps_disk_getitem (df : ref) (c : string) : keeps_disk (DataFrameObject.getitem df c).
Proof. unfold DataFrameObject.getitem. keeps. Qed.

Lemma keeps_disk_getitem_list (df : ref) (cs : list string) :
  keeps_disk (DataFrameObject.getitem_list df cs).
Proof. unfold DataFrameObject.getitem_list. keeps. Qed.

Lemma keeps_disk_setitem (df : ref) (c : string) (v : list cell) :
  keeps_disk (DataFrameObject.setitem df c v).
Proof. unfold DataFrameObject.setitem. keeps. Qed.

Lemma keeps_disk_drop_inplace (df : ref) (cs : list string) :
  keeps_disk (DataFrameObject.drop_inplace df cs).
Proof. unfold DataFrameObject.drop_inplace. keeps. Qed.

Lemma keeps_disk_fillna_inplace (df : ref) (v : cell) :
  keeps_disk (DataFrameObject.fillna_inplace df v).
Proof. unfold DataFrameObject.fillna_inplace. keeps. Qed.

Lemma keeps_disk_sort_values (df : ref) (c : string) :
  keeps_disk (DataFrameObject.sort_values_desc_inplace df c).
Proof. unfold DataFrameObject.sort_values_desc_inplace. keeps. Qed.

Lemma keeps_disk_merge_left (l r : ref) (lo ro sfx : string) :
  keeps_disk (DataFrameObject.merge_left l r lo ro sfx).
Proof. unfold DataFrameObject.merge_left. keeps. Qed.

Lemma keeps_disk_boolean_index (df : ref) (mask : list bool) :
  keeps_disk (DataFrameObject.boolean_index df mask).
Proof. unfold DataFrameObject.boolean_index. keeps. Qed.

Lemma keeps_disk_duplicated (df : ref) (c : string) :
  keeps_disk (DataFrameObject.duplicated df c).
Proof. unfold DataFrameObject.duplicated. keeps. Qed.

Lemma keeps_disk_query (df : ref) (c1 : string) (b : float) (c2 : string) (k : float) :
  keeps_disk (DataFrameObject.query_ge_and_ne df c1 b c2 k).
Proof. unfold DataFrameObject.query_ge_and_ne. keeps. Qed.

Lemma keeps_disk_reset_index (df : ref) : keeps_disk (DataFrameObject.reset_index df).
Proof. unfold DataFrameObject.reset_index. keeps. Qed.

Lemma keeps_disk_head (df : ref) (n : Z) : keeps_disk (DataFrameObject.head df n).
Proof. unfold DataFrameObject.head. keeps. Qed.

Lemma keeps_disk_len (df : ref) : keeps_disk (DataFrameObject.len df).
Proof. unfold DataFrameObject.len. keeps. Qed.

Lemma keeps_disk_deref_all (frames : list ref) : keeps_disk (deref_all frames).
Proof. induction frames; cbn [deref_all]; keeps. Qed.

#[local] Hint Resolve keeps_disk_copy keeps_disk_getitem keeps_disk_getitem_list
  keeps_disk_setitem keeps_disk_drop_inplace keeps_disk_fillna_inplace keeps_disk_sort_values
  keeps_disk_merge_left keeps_disk_boolean_index keeps_disk_duplicated keeps_disk_query
  keeps_disk_reset_index keeps_disk_head keeps_disk_len keeps_disk_deref_all : keeps.

Lemma keeps_disk_concat (frames : list ref) : keeps_disk (concat frames).
Proof. unfold concat. keeps. Qed.

Lemma keeps_disk_get_random_float (size : nat) :
  keeps_disk (sampling_code.get_random_float size).
Proof. unfold sampling_code.get_random_float. keeps. Qed.

Lemma keeps_disk_load_df (p : string) : keeps_disk (sampling_code.load_df p).
Proof. unfold sampling_code.load_df. keeps. Qed.

Lemma keeps_disk_postproc (df : ref) :
  keeps_disk (preparing_sample_frame.postproc_turnover_df df).
Proof. unfold preparing_sample_frame.postproc_turnover_df. keeps. Qed.

#[local] Hint Resolve keeps_disk_concat keeps_disk_get_random_float keeps_disk_load_df
  keeps_disk_postproc : keeps.

Lemma keeps_disk_generate (df : ref) (region : cell) (n : Z) :
  keeps_disk (sampling_code.generate_replacement_locations df region n).
Proof. unfold sampling_code.generate_replacement_locations. keeps. Qed.

#[local] Hint Resolve keeps_disk_generate : keeps.

Lemma keeps_disk_for_each_region (df : ref) (n : Z) (regions : list cell) :
  keeps_disk (sampling_code.for_each_region df n regions).
Proof. induction regions; cbn [sampling_code.for_each_region]; keeps. Qed.

#[local] Hint Resolve keeps_disk_for_each_region : keeps.

Lemma extends_write_new (fs : FS) (p : string) (f : file) :
  is_file fs p = false -> extends fs (write_file p f fs).
Proof.
  intros H. split.
  - intros q g Hq. rewrite find_file_write_other; [assumption |].
    intros ->. unfold is_file in H. now rewrite Hq in H.
  - intros q Hq. exact Hq.
Qed.

Lemma keeps_files_write_df_to_excel (df : ref) (outfile : string) :
  keeps_files (preparing_sample_frame.write_df_to_excel df outfile false).
Proof.
  intros st. unfold preparing_sample_frame.write_df_to_excel, bind, path_exists.
  destruct (is_file (disk st) outfile) eqn:F; cbn [orb andb negb].
  { apply extends_refl. }
  destruct (is_dir (disk st) outfile) eqn:D; cbn [andb].
  { apply extends_refl. }
  unfold to_excel, bind, deref.
  destruct (nth_error (heap st) df); [| apply extends_refl].
  unfold write_to. rewrite D.
  destruct (negb (is_dir (disk st) (parent outfile))); [apply extends_refl |].
  cbn. now apply extends_write_new.
Qed.

#[local] Hint Resolve keeps_files_write_df_to_excel : keeps.

Lemma keeps_files_merge_facility_ID (df : ref) (outfile : string) :
  keeps_files (preparing_sample_frame.merge_facility_ID df outfile false).
Proof. unfold preparing_sample_frame.merge_facility_ID. keeps. Qed.

Lemma keeps_files_merge_turnover_outlets (df : ref) (outfile : string) :
  keeps_files (preparing_sample_frame.merge_turnover_outlets df outfile false).
Proof. unfold preparing_sample_frame.merge_turnover_outlets. keeps. Qed.

Lemma keeps_files_save_df_duplicates (df : ref) (col outfile : string) :
  keeps_files (preparing_sample_frame.save_df_duplicates df col outfile false).
Proof. unfold preparing_sample_frame.save_df_duplicates. keeps. Qed.

#[local] Hint Resolve keeps_files_merge_facility_ID keeps_files_merge_turnover_outlets
  keeps_files_save_df_duplicates : keeps.

Lemma keeps_files_main (infile : string) :
  keeps_files (preparing_sample_frame.main infile false).
Proof. unfold preparing_sample_frame.main. cbn zeta. keeps. Qed.

Lemma keeps_files_mkdir_parents (d : string) : keeps_files (mkdir_parents d).
Proof.
  intros st. unfold mkdir_parents.
  destruct (is_file (disk st) d || is_dir (disk st) d); [apply extends_refl |].
  destruct (find _ _); [apply extends_refl |].
  split; cbn; [auto |].
  intros p. unfold is_dir. cbn [dirs]. rewrite mem_app.
  intros H. apply orb_true_iff in H. destruct H as [-> | ->]; [reflexivity |].
  now rewrite !orb_true_r.
Qed.

Lemma keeps_files_guarded_write (df : ref) (out_file : string) :
  keeps_files
    (e <- path_exists out_file ;;
     (if e && negb false then
        a <- global_args ;;
        raise (FileExistsError (sampling_code.file_exists_message (ns_outfile a)))
      else ret tt) ;;
     if sampling_code.is_file_excel out_file then to_excel df out_file false
     else to_csv df out_file false).
Proof.
  intros st. unfold bind at 1. unfold path_exists at 1.
  destruct (is_file (disk st) out_file) eqn:F; cbn [orb andb negb].
  { unfold bind, global_args, raise. destruct (args st); apply extends_refl. }
  destruct (is_dir (disk st) out_file) eqn:D; cbn [andb].
  { unfold bind, global_args, raise. destruct (args st); apply extends_refl. }
  unfold bind at 1, ret.
  destruct (sampling_code.is_file_excel out_file);
    unfold to_excel, to_csv, bind, deref;
    (destruct (nth_error (heap st) df); [| apply extends_refl]);
    unfold write_to; rewrite D;
    (destruct (negb (is_dir (disk st) (parent out_file))); [apply extends_refl |]);
    cbn; now apply extends_write_new.
Qed.

Lemma keeps_files_write_df (df : ref) (out_file : string) :
  keeps_files (sampling_code.write_df df out_file false).
Proof.
  unfold sampling_code.write_df.
  apply keeps_files_bind; [keeps |]. intros pe.
  apply keeps_files_bind.
  { destruct (negb pe); [apply keeps_files_mkdir_parents | keeps]. }
  intros _. apply keeps_files_guarded_write.
Qed.

#[local] Hint Resolve keeps_files_write_df : keeps.

Lemma keeps_files_sampling_main (infile outfile : string) (n : Z) :
  keeps_files (sampling_code.main infile outfile n false).
Proof. unfold sampling_code.main. cbn zeta. keeps. Qed.

(** ** Only the output files are written *)

Lemma keeps_disk_writes_only {A} (ps : list string) (m : M A) :
  keeps_disk m -> writes_only ps m.
Proof. intros H st p _. now rewrite H. Qed.

Lemma writes_only_bind {A B} (ps : list string) (m : M A) (k : A -> M B) :
  writes_only ps m -> (forall a, writes_only ps (k a)) -> writes_only ps (bind m k).
Proof.
  intros Hm Hk st p Hp. unfold bind. specialize (Hm st p Hp).
  destruct (m st) as [[a | e] st1]; cbn [snd] in *; [| assumption].
  now rewrite Hk.
Qed.

Lemma writes_only_write_to (ps : list string) (p : string) (f : file) :
  In p ps -> writes_only ps (write_to p f).
Proof.
  intros Hin st q Hq. unfold write_to.
  destruct (is_dir (disk st) p); [reflexivity |].
  destruct (negb _); [reflexivity |].
  cbn [snd disk set_disk]. apply find_file_write_other. intros ->. contradiction.
Qed.

Lemma writes_only_to_excel (ps : list string) (df : ref) (p : string) (index : bool) :
  In p ps -> writes_only ps (to_excel df p index).
Proof.
  intros Hin. unfold to_excel. apply writes_only_bind.
  - apply keeps_disk_writes_only. auto with keeps.
  - intros d. now apply writes_only_write_to.
Qed.

Lemma writes_only_to_csv (ps : list string) (df : ref) (p : string) (index : bool) :
  In p ps -> writes_only ps (to_csv df p index).
Proof.
  intros Hin. unfold to_csv. apply writes_only_bind.
  - apply keeps_disk_writes_only. auto with keeps.
  - intros d. now apply writes_only_write_to.
Qed.

Lemma writes_only_mkdir_parents (ps : list string) (d : string) :
  writes_only ps (mkdir_parents d).
Proof.
  intros st p _. unfold mkdir_parents.
  destruct (_ || _); [reflexivity |]. destruct (find _ _); reflexivity.
Qed.

Ltac writes :=
  repeat first
    [ progress intros
    | solve [auto with keeps]
    | apply writes_only_bind
    | match goal with
      | |- writes_only _ (if ?b then _ else _) => destruct b
      | |- writes_only _ _ => apply keeps_disk_writes_only
      end ].

Lemma writes_only_write_df_to_excel (ps : list string) (df : ref) (outfile : string)
    (overwrite : bool) :
  In outfile ps -> writes_only ps (preparing_sample_frame.write_df_to_excel df outfile overwrite).
Proof.
  intros Hin. unfold preparing_sample_frame.write_df_to_excel. cbn zeta.
  apply writes_only_bind; [writes |]. intros e.
  destruct (e && negb overwrite); [writes |]. now apply writes_only_to_excel.
Qed.

Lemma writes_only_merge_facility_ID (ps : list string) (df : ref) (outfile : string)
    (overwrite : bool) :
  In outfile ps -> writes_only ps (preparing_sample_frame.merge_facility_ID df outfile overwrite).
Proof.
  intros Hin. unfold preparing_sample_frame.merge_facility_ID. cbn zeta.
  do 3 (apply writes_only_bind; [solve [writes] |]; intros ?).
  apply writes_only_bind; [now apply writes_only_write_df_to_excel | writes].
Qed.

Lemma writes_only_merge_turnover_outlets (ps : list string) (df : ref) (outfile : string)
    (overwrite : bool) :
  In outfile ps ->
  writes_only ps (preparing_sample_frame.merge_turnover_outlets df outfile overwrite).
Proof.
  intros Hin. unfold preparing_sample_frame.merge_turnover_outlets. cbn zeta.
  do 3 (apply writes_only_bind; [solve [writes] |]; intros ?).
  apply writes_only_bind; [now apply writes_only_write_df_to_excel | writes].
Qed.

Lemma writes_only_save_df_duplicates (ps : list string) (df : ref) (col outfile : string)
    (overwrite : bool) :
  In outfile ps ->
  writes_only ps (preparing_sample_frame.save_df_duplicates df col outfile overwrite).
Proof.
  intros Hin. unfold preparing_sample_frame.save_df_duplicates.
  do 2 (apply writes_only_bind; [solve [writes] |]; intros ?).
  now apply writes_only_write_df_to_excel.
Qed.

Lemma writes_only_main (infile : string) (force : bool) :
  writes_only (frame_outputs infile) (preparing_sample_frame.main infile force).
Proof.
  unfold preparing_sample_frame.main. cbn zeta.
  apply writes_only_bind; [writes |]. intros locations.
  apply writes_only_bind;
    [apply writes_only_merge_facility_ID; cbn; tauto |]. intros locations_merged.
  apply writes_only_bind;
    [apply writes_only_merge_turnover_outlets; cbn; tauto |]. intros turnover_merged.
  apply writes_only_bind; [writes |]. intros postprocessed.
  apply writes_only_bind;
    [apply writes_only_write_df_to_excel; cbn; tauto |]. intros _.
  apply writes_only_bind; [writes |]. intros filtered.
  apply writes_only_bind;
    [apply writes_only_write_df_to_excel; cbn; tauto |]. intros _.
  apply writes_only_bind;
    [apply writes_only_save_df_duplicates; cbn; tauto |]. intros _.
  apply writes_only_save_df_duplicates; cbn; tauto.
Qed.

Lemma writes_only_write_df (df : ref) (out_file : string) (overwrite : bool) :
  writes_only [out_file] (sampling_code.write_df df out_file overwrite).
Proof.
  unfold sampling_code.write_df.
  apply writes_only_bind; [writes |]. intros pe.
  apply writes_only_bind.
  { destruct (negb pe); [apply writes_only_mkdir_parents | writes]. }
  intros _. apply writes_only_bind; [writes |]. intros e.
  apply writes_only_bind; [writes |]. intros _.
  destruct (sampling_code.is_file_excel out_file);
    [apply writes_only_to_excel | apply writes_only_to_csv]; now left.
Qed.

Lemma writes_only_sampling_main (infile outfile : string) (n : Z) (force : bool) :
  writes_only [outfile] (sampling_code.main infile outfile n force).
Proof.
  unfold sampling_code.main. cbn zeta.
  do 4 (apply writes_only_bind; [solve [writes] |]; intros ?).
  apply writes_only_write_df.
Qed.

(** ** Left joins in general *)

Lemma In_relabel (n : Z) (l : list Row) (r : Row) :
  In r (relabel_from n l) -> exists r0, In r0 l /\ cells r = cells r0.
Proof.
  revert n. induction l as [| x l IH]; intros n; cbn [relabel_from In]; [tauto |].
  intros [<- | H].
  - exists x. split; [now left | reflexivity].
  - destruct (IH _ H) as (r0 & H0 & E). exists r0. split; [now right | assumption].
Qed.

(** A left join that passes the checks of [merge] returns rows of this
    shape: the cells of a left row, followed by the right-hand columns
    taken from one right row whose key matches, or all missing. *)
Lemma merge_left_rows (left right : DataFrame) (left_on right_on suffix : string) :
  mem right_on (columns right) = true ->
  mem left_on (columns left) = true ->
  has_text (map (get left_on) (rows left)) = has_text (map (get right_on) (rows right)) ->
  nodupb (columns left ++ map (pd.suffixed (columns left) suffix) (columns right)) = true ->
  exists m,
    pd.merge_left left right left_on right_on suffix = Ok m /\
    columns m = columns left ++ map (pd.suffixed (columns left) suffix) (columns right) /\
    forall row,
      In row (rows m) ->
      exists l v,
        In l (rows left) /\
        cells row =
        cells l ++ map (fun c => (pd.suffixed (columns left) suffix c, v c)) (columns right) /\
        ((forall c, v c = NaN) \/
         exists r, In r (rows right) /\
                   key_eqb (get left_on l) (get right_on r) = true /\
                   forall c, v c = get c r).
Proof.
  intros Mr Ml Hk Hnd. unfold pd.merge_left.
  rewrite Mr, Ml, Hk, xorb_nilpotent, Hnd. cbn [negb].
  eexists. split; [reflexivity |]. split; [reflexivity |].
  cbn [rows]. intros row Hrow. apply In_relabel in Hrow.
  destruct Hrow as (row0 & Hrow0 & ->).
  apply in_flat_map in Hrow0. destruct Hrow0 as (l & Hl & Hin).
  destruct (filter _ (rows right)) as [| r0 partners] eqn:F.
  - destruct Hin as [<- | []]. exists l, (fun _ => NaN).
    split; [assumption |]. split; [reflexivity |]. now left.
  - apply in_map_iff in Hin. destruct Hin as (r & <- & Hr).
    rewrite <- F in Hr. apply filter_In in Hr. destruct Hr as [Hr Hmatch].
    exists l, (fun c => get c r).
    split; [assumption |]. split; [reflexivity |]. right. eauto.
Qed.

Lemma lookup_renamed (rename : string -> string) (v : string -> cell) (cs : list string)
    (c : string) :
  NoDup (map rename cs) -> In c cs ->
  lookup (rename c) (map (fun c0 => (rename c0, v c0)) cs) = v c.
Proof.
  induction cs as [| k cs IH]; cbn [map lookup In]; [tauto |].
  intros Hnd Hin. inversion Hnd as [| ? ? Hk Hcs]; subst.
  destruct Hin as [-> | Hin]; [now rewrite String.eqb_refl |].
  destruct (String.eqb (rename c) (rename k)) eqn:E; [| auto].
  apply String.eqb_eq in E. exfalso. apply Hk. rewrite <- E. now apply in_map.
Qed.

Lemma NoDup_app_apart {A} (a b : list A) :
  NoDup (a ++ b) -> forall x, In x a -> ~ In x b.
Proof.
  induction a as [| y a IH]; cbn [In app]; [tauto |].
  intros Hnd x [-> | Hx] Hb; inversion Hnd as [| ? ? Hy Hys]; subst.
  - apply Hy. apply in_or_app. now right.
  - now apply (IH Hys x).
Qed.

Lemma wf_wfb (d : DataFrame) : wf d -> wfb d = true.
Proof.
  intros [Hnd Hrows]. unfold wfb. apply andb_true_iff. split.
  - now apply nodupb_NoDup.
  - apply forallb_forall. intros r Hr. apply same_names_eq.
    rewrite Forall_forall in Hrows. now apply Hrows.
Qed.

(** One stage of the pipeline's self joins, without any condition on the
    keys: the stage succeeds, the result is well formed, and each of its
    rows is a row of the table extended by the picked columns of one row of
    the table, or by missing values. *)
Lemma self_join_rows (d : DataFrame) (picked : list string)
    (left_on right_on suffix : string) (dropped : list string) :
  wf d ->
  forallb (fun c => mem c (columns d)) picked = true ->
  In right_on picked ->
  mem left_on (columns d) = true ->
  has_text (map (get left_on) (rows d)) = has_text (map (get right_on) (rows d)) ->
  NoDup (columns d ++ map (pd.suffixed (columns d) suffix) picked) ->
  forallb (fun c => mem c (columns d ++ map (pd.suffixed (columns d) suffix) picked))
          dropped = true ->
  exists m,
    (right <-? pd.getitem_list picked d ;;
     merged <-? pd.merge_left d right left_on right_on suffix ;;
     pd.drop dropped merged) = Ok m /\
    wf m /\
    columns m = filter (fun c => negb (mem c dropped))
                       (columns d ++ map (pd.suffixed (columns d) suffix) picked) /\
    forall row,
      In row (rows m) ->
      exists l r,
        In l (rows d) /\
        (forall c, mem c (columns d) = true -> mem c dropped = false ->
                   get c row = get c l) /\
        (forall c, In c picked -> mem (pd.suffixed (columns d) suffix c) dropped = false ->
                   get (pd.suffixed (columns d) suffix c) row =
                   match r with Some r => get c r | None => NaN end) /\
        match r with Some r => In r (rows d) | None => True end.
Proof.
  intros [Hnd Hrows] Hpicked Hro Hlo Hkind Hnd2 Hdropped.
  rewrite (getitem_list_value picked d Hpicked). cbn [obind].
  set (right := mkDF picked _).
  assert (Hproj : forall c r, In c picked ->
                    get c (mkRow (label r) (map (fun c0 => (c0, get c0 r)) picked)) = get c r).
  { intros c r Hc. unfold get at 1. cbn [cells]. now apply lookup_proj. }
  assert (Hkeys : map (get right_on) (rows right) = map (get right_on) (rows d)).
  { unfold right. cbn [rows]. rewrite map_map. apply map_ext. intros r. now apply Hproj. }
  destruct (merge_left_rows d right left_on right_on suffix) as (m & -> & Hcols & Hshape).
  { apply mem_In. exact Hro. }
  { exact Hlo. }
  { now rewrite Hkeys. }
  { apply nodupb_NoDup. exact Hnd2. }
  cbn [obind]. rewrite drop_value by now rewrite Hcols.
  eexists. split; [reflexivity |].
  cbn [columns rows]. unfold right in Hcols, Hshape. cbn [columns rows] in Hcols, Hshape.
  assert (Hnd3 : NoDup (map (pd.suffixed (columns d) suffix) picked))
    by (eapply NoDup_app_remove_l; eassumption).
  split; [| split].
  - split; cbn [columns rows].
    + apply NoDup_filter. now rewrite Hcols.
    + apply Forall_forall. intros r Hr. apply in_map_iff in Hr.
      destruct Hr as (r0 & <- & Hr0). unfold wf_row. cbn [cells].
      rewrite keys_filter, Hcols. f_equal.
      destruct (Hshape r0 Hr0) as (l & v & Hl & -> & _).
      rewrite map_app, map_map. cbn [fst]. f_equal.
      rewrite Forall_forall in Hrows. now apply Hrows.
  - now rewrite Hcols.
  - intros row Hrow. apply in_map_iff in Hrow. destruct Hrow as (r0 & <- & Hr0).
    destruct (Hshape r0 Hr0) as (l & v & Hl & Ecells & Hv).
    assert (Hkeysl : map fst (cells l) = columns d)
      by (rewrite Forall_forall in Hrows; now apply Hrows).
    assert (Old : forall c, mem c (columns d) = true -> mem c dropped = false ->
                            get c (mkRow (label r0)
                                     (filter (fun kv => negb (mem (fst kv) dropped)) (cells r0)))
                            = get c l).
    { intros c Hc Hd. unfold get. cbn [cells].
      rewrite lookup_filter_other by assumption.
      now rewrite Ecells, lookup_app, Hkeysl, Hc. }
    assert (New : forall c, In c picked ->
                            mem (pd.suffixed (columns d) suffix c) dropped = false ->
                            get (pd.suffixed (columns d) suffix c)
                                (mkRow (label r0)
                                   (filter (fun kv => negb (mem (fst kv) dropped)) (cells r0)))
                            = v c).
    { intros c Hc Hd. unfold get. cbn [cells].
      rewrite lookup_filter_other by assumption.
      rewrite Ecells, lookup_app, Hkeysl.
      replace (mem (pd.suffixed (columns d) suffix c) (columns d)) with false.
      - now apply lookup_renamed.
      - symmetry. apply mem_false. intros Hin.
        apply (NoDup_app_apart _ _ Hnd2 _ Hin). now apply in_map. }
    destruct Hv as [Hnan | (r & Hr & _ & Hget)].
    + exists l, None. split; [assumption |]. split; [exact Old |]. split; [| exact I].
      intros c Hc Hd. rewrite New by assumption. apply Hnan.
    + apply in_map_iff in Hr. destruct Hr as (r1 & <- & Hr1).
      exists l, (Some r1). split; [assumption |]. split; [exact Old |]. split; [| exact Hr1].
      intros c Hc Hd. rewrite New by assumption. rewrite Hget. now apply Hproj.
Qed.

(** The same stage, column by column: a numeric column stays numeric, and
    the copy of a numeric column is numeric. *)
Lemma self_join_numeric (d : DataFrame) (picked : list string)
    (left_on right_on suffix : string) (dropped : list string) :
  wf d ->
  forallb (fun c => mem c (columns d)) picked = true ->
  In right_on picked ->
  mem left_on (columns d) = true ->
  has_text (map (get left_on) (rows d)) = has_text (map (get right_on) (rows d)) ->
  NoDup (columns d ++ map (pd.suffixed (columns d) suffix) picked) ->
  forallb (fun c => mem c (columns d ++ map (pd.suffixed (columns d) suffix) picked))
          dropped = true ->
  exists m,
    (right <-? pd.getitem_list picked d ;;
     merged <-? pd.merge_left d right left_on right_on suffix ;;
     pd.drop dropped merged) = Ok m /\
    wf m /\
    (forall c, mem c (columns m) =
               (mem c (columns d) || mem c (map (pd.suffixed (columns d) suffix) picked))
               && negb (mem c dropped)) /\
    (forall c, mem c (columns d) = true -> mem c dropped = false ->
               numeric c d = true -> numeric c m = true) /\
    (forall c, In c picked -> mem (pd.suffixed (columns d) suffix c) dropped = false ->
               numeric c d = true -> numeric (pd.suffixed (columns d) suffix c) m = true).
Proof.
  intros Hwf Hpicked Hro Hlo Hkind Hnd2 Hdropped.
  destruct (self_join_rows d picked left_on right_on suffix dropped
              Hwf Hpicked Hro Hlo Hkind Hnd2 Hdropped) as (m & Hv & Hwfm & Hcols & Hshape).
  exists m. split; [exact Hv |]. split; [exact Hwfm |].
  split; [| split].
  - intros c. now rewrite Hcols, mem_filter, mem_app.
  - intros c Hc Hd Hn. unfold numeric in *. rewrite forallb_forall in *.
    intros row Hrow. destruct (Hshape row Hrow) as (l & r & Hl & Hold & _).
    rewrite Hold by assumption. now apply Hn.
  - intros c Hc Hd Hn. unfold numeric in *. rewrite forallb_forall in *.
    intros row Hrow. destruct (Hshape row Hrow) as (l & r & Hl & _ & Hnew & Hr).
    rewrite Hnew by assumption. destruct r as [r |]; [now apply Hn | reflexivity].
Qed.

Lemma mem_one (c k : string) : mem c [k] = String.eqb c k.
Proof. unfold mem. cbn [existsb]. apply orb_false_r. Qed.

(** The first merge on a table that has the three columns it reads and
    none of the three it creates. *)
Lemma merge_facility_ID_value_ok (d : DataFrame) :
  wf d ->
  forallb (fun c => mem c (columns d)) ["LocName"; "FacilityID"; "Merge_ID"] = true ->
  forallb (fun c => negb (mem c (columns d)))
          ["LocName_merge"; "FacilityID_merge"; "Merge_ID_merge"] = true ->
  numeric "FacilityID" d = true ->
  numeric "Merge_ID" d = true ->
  exists m1,
    merge_facility_ID_value d = Ok m1 /\
    wf m1 /\
    (forall c, mem c (columns m1) =
               mem c (columns d) || mem c ["LocName_merge"; "FacilityID_merge"]) /\
    (forall c, mem c (columns d) = true -> numeric c d = true -> numeric c m1 = true) /\
    numeric "FacilityID_merge" m1 = true.
Proof.
  intros Hwf Hin Hout N_FID N_MID.
  cbn [forallb] in Hin, Hout. rewrite !andb_true_iff in Hin.
  rewrite !andb_true_iff, !negb_true_iff in Hout.
  destruct Hin as (M_LN & M_FID & M_MID & _).
  destruct Hout as (A_LNm & A_FIDm & A_MIDm & _).
  assert (R1 : map (pd.suffixed (columns d) "_merge") ["LocName"; "FacilityID"; "Merge_ID"]
               = ["LocName_merge"; "FacilityID_merge"; "Merge_ID_merge"]).
  { cbn [map]. now rewrite !suffixed_present by assumption. }
  destruct (self_join_numeric d ["LocName"; "FacilityID"; "Merge_ID"]
              "Merge_ID" "FacilityID" "_merge" ["Merge_ID_merge"])
    as (m1 & Hv1 & Hwf1 & Hmem & Hold & Hnew).
  { exact Hwf. }
  { cbn [forallb]. now rewrite M_LN, M_FID, M_MID. }
  { cbn. auto. }
  { exact M_MID. }
  { now rewrite !numeric_has_text. }
  { rewrite R1. apply NoDup_app_disjoint; [apply Hwf | now apply nodupb_NoDup |].
    intros x [<- | [<- | [<- | []]]]; now apply mem_false. }
  { rewrite R1. cbn [forallb]. rewrite mem_app. now rewrite orb_true_r. }
  exists m1. split; [exact Hv1 |]. split; [exact Hwf1 |].
  rewrite R1 in Hmem.
  split; [| split].
  - intros c. rewrite Hmem, mem_one.
    destruct (String.eqb c "Merge_ID_merge") eqn:E.
    + apply String.eqb_eq in E. subst c. now rewrite A_MIDm.
    + cbn [negb]. rewrite andb_true_r. f_equal.
      unfold mem. cbn [existsb]. now rewrite E.
  - intros c Hc Hn. apply Hold; [assumption | | assumption].
    rewrite mem_one. apply String.eqb_neq. intros ->. congruence.
  - specialize (Hnew "FacilityID").
    rewrite suffixed_present in Hnew by assumption.
    apply Hnew; [cbn; auto | reflexivity | assumption].
Qed.

(** The merge of the two merges: on a table that has the columns and
    numbers in its identifiers, turnover and outlets, both succeed and
    give a table that postprocessing accepts. *)
Lemma frame_merges_ok (d : DataFrame) :
  merge_ready d = true ->
  numeric "Sum_Turnov" d = true ->
  numeric "OutletCt" d = true ->
  exists m1 m2,
    merge_facility_ID_value d = Ok m1 /\
    merge_turnover_outlets_value m1 = Ok m2 /\
    merged_table m2 = true /\
    (forall c, mem c (columns d) = true -> c <> "Unnamed: 0" -> mem c (columns m2) = true) /\
    mem "FacilityID_merge" (columns m2) = true.
Proof.
  intros Hready N_ST N_OC.
  unfold merge_ready in Hready. cbn [forallb] in Hready.
  rewrite !andb_true_iff, !negb_true_iff in Hready.
  destruct Hready as
    [[[[Hwfb (M_LN & M_FID & M_MID & M_ST & M_OC & M_U & _)]
       (A_LNm & A_FIDm & A_MIDm & A_FIDl & A_STl & A_OCl & _)] N_FID] N_MID].
  pose proof (wfb_wf d Hwfb) as Hwf.
  destruct (merge_facility_ID_value_ok d Hwf) as (m1 & Hv1 & Hwf1 & Mem1 & Old1 & N_FIDm);
    [ cbn [forallb]; now rewrite M_LN, M_FID, M_MID
    | cbn [forallb]; now rewrite A_LNm, A_FIDm, A_MIDm
    | assumption | assumption |].
  assert (R2 : map (pd.suffixed (columns m1) "_loc2") ["FacilityID"; "Sum_Turnov"; "OutletCt"]
               = ["FacilityID_loc2"; "Sum_Turnov_loc2"; "OutletCt_loc2"]).
  { cbn [map].
    rewrite !suffixed_present; [reflexivity | ..];
      rewrite Mem1, ?M_OC, ?M_ST, ?M_FID; reflexivity. }
  destruct (self_join_numeric m1 ["FacilityID"; "Sum_Turnov"; "OutletCt"]
              "FacilityID_merge" "FacilityID" "_loc2" ["Unnamed: 0"; "FacilityID_loc2"])
    as (m2 & Hv2 & Hwf2 & Mem2 & Old2 & New2).
  { exact Hwf1. }
  { cbn [forallb]. rewrite !Mem1, M_FID, M_ST, M_OC. reflexivity. }
  { cbn. auto. }
  { rewrite Mem1, A_FIDm. reflexivity. }
  { rewrite !numeric_has_text; [reflexivity | now apply Old1 | assumption]. }
  { rewrite R2. apply NoDup_app_disjoint; [apply Hwf1 | now apply nodupb_NoDup |].
    intros x [<- | [<- | [<- | []]]]; apply mem_false;
      rewrite Mem1, ?A_FIDl, ?A_STl, ?A_OCl; reflexivity. }
  { rewrite R2. cbn [forallb]. rewrite !mem_app, !Mem1, M_U, A_FIDl. reflexivity. }
  rewrite R2 in Mem2.
  exists m1, m2. split; [exact Hv1 |]. split; [exact Hv2 |].
  assert (Keep : forall c, mem c (columns d) = true -> c <> "Unnamed: 0" ->
                           mem c ["Unnamed: 0"; "FacilityID_loc2"] = false).
  { intros c Hc Hne. unfold mem. cbn [existsb]. rewrite orb_false_r.
    apply orb_false_iff. split; apply String.eqb_neq; [assumption |].
    intros ->. congruence. }
  assert (Present2 : forall c, mem c (columns d) = true ->
                               pd.suffixed (columns m1) "_loc2" c = (c ++ "_loc2")%string).
  { intros c Hc. apply suffixed_present. now rewrite Mem1, Hc. }
  split; [| split; [| rewrite Mem2, Mem1, A_FIDm; reflexivity]].
  - assert (N1 : numeric "Sum_Turnov" m2 = true).
    { apply Old2; [now rewrite Mem1, M_ST | apply Keep; [assumption | discriminate] |].
      now apply Old1. }
    assert (N2 : numeric "OutletCt" m2 = true).
    { apply Old2; [now rewrite Mem1, M_OC | apply Keep; [assumption | discriminate] |].
      now apply Old1. }
    assert (N3 : numeric "Sum_Turnov_loc2" m2 = true).
    { pose proof (New2 "Sum_Turnov") as H. rewrite Present2 in H by assumption.
      apply H; [cbn; auto | reflexivity | now apply Old1]. }
    assert (N4 : numeric "OutletCt_loc2" m2 = true).
    { pose proof (New2 "OutletCt") as H. rewrite Present2 in H by assumption.
      apply H; [cbn; auto | reflexivity | now apply Old1]. }
    unfold merged_table. rewrite (wf_wfb m2 Hwf2). cbn [forallb andb].
    rewrite N1, N2, N3, N4, !andb_true_r.
    rewrite !Mem2, !Mem1, M_ST, M_OC, A_STl, A_OCl. reflexivity.
  - intros c Hc Hne. rewrite Mem2, Mem1, Hc. cbn [orb andb].
    now rewrite Keep.
Qed.

(** ** The frame preparation, run *)

Lemma read_excel_run (st : State) (p : string) (s : sheet) :
  find_file p (files (disk st)) = Some (Xlsx s) ->
  read_excel p st = (Ok (List.length (heap st)), set_heap (heap st ++ [of_sheet s]) st).
Proof. intros H. unfold read_excel. now rewrite H. Qed.

Lemma query_run (st : State) (df : ref) (d : DataFrame) (c1 : string) (b : float)
    (c2 : string) (k : float) :
  nth_error (heap st) df = Some d ->
  DataFrameObject.query_ge_and_ne df c1 b c2 k st =
  match pd.query_ge_and_ne c1 b c2 k d with
  | Ok d' => (Ok (List.length (heap st)), set_heap (heap st ++ [d']) st)
  | Raise e => (Raise e, st)
  end.
Proof.
  intros H. unfold DataFrameObject.query_ge_and_ne.
  rewrite (bind_eq _ _ _ _ (deref_ok _ _ _ H)).
  unfold bind, lift. destruct (pd.query_ge_and_ne c1 b c2 k d); reflexivity.
Qed.

Lemma joinpath_inj (d a b : string) : joinpath d a = joinpath d b -> a = b.
Proof.
  unfold joinpath. destruct (String.eqb d "."); [auto |].
  destruct (String.eqb d "/").
  - intros H. now injection H.
  - intros H. apply string_app_inv_head in H. now injection H.
Qed.

Lemma find_file_write_same (p : string) (f : file) (fs : FS) :
  find_file p (files (write_file p f fs)) = Some f.
Proof. cbn. now rewrite String.eqb_refl. Qed.

(** The paths of two different output files differ. *)
Ltac apart := let E := fresh in intros E; apply joinpath_inj in E; discriminate E.

Lemma frame_outputs_apart (infile : string) : NoDup (frame_outputs infile).
Proof.
  unfold frame_outputs. cbn [map].
  repeat (constructor; [cbn [In]; intros H; repeat (destruct H as [H | H]; [revert H; apart |]);
                        exact H |]).
  constructor.
Qed.

(** [main] on a readable input whose six tables can be computed and
    written: it returns normally, and the disk afterwards is the disk
    before with the six tables written, one after the other. *)
Lemma main_run (st : State) (infile : string) (force : bool) (s : sheet)
    (m1 m2 p q d1 d2 : DataFrame) :
  find_file infile (files (disk st)) = Some (Xlsx s) ->
  frame_tables (of_sheet s) = Ok [m1; m2; p; q; d1; d2] ->
  forallb (fun path => can_write (disk st) path force) (frame_outputs infile) = true ->
  exists st',
    preparing_sample_frame.main infile force st = (Ok tt, st') /\
    disk st' =
    fold_left (fun fs pt => write_file (fst pt) (Xlsx (to_sheet true (snd pt))) fs)
              (combine (frame_outputs infile) [m1; m2; p; q; d1; d2]) (disk st).
Proof.
  intros Hfile Htab Hcw. unfold frame_tables in Htab.
  destruct (merge_facility_ID_value (of_sheet s)) as [m1' |] eqn:V1;
    cbn [obind] in Htab; [| discriminate].
  destruct (merge_turnover_outlets_value m1') as [m2' |] eqn:V2;
    cbn [obind] in Htab; [| discriminate].
  destruct (postproc_value m2') as [p' |] eqn:V3; cbn [obind] in Htab; [| discriminate].
  destruct (pd.query_ge_and_ne _ _ _ _ p') as [q' |] eqn:V4;
    cbn [obind] in Htab; [| discriminate].
  destruct (duplicates_value "Merge_ID" q') as [d1' |] eqn:V5;
    cbn [obind] in Htab; [| discriminate].
  destruct (duplicates_value "FacilityID_merge" q') as [d2' |] eqn:V6;
    cbn [obind] in Htab; [| discriminate].
  injection Htab as -> -> -> -> -> ->.
  unfold frame_outputs in *. cbn [map forallb] in Hcw. rewrite !andb_true_iff in Hcw.
  destruct Hcw as (W1 & W2 & W3 & W4 & W5 & W6 & _).
  cbn [map combine fold_left fst snd].
  unfold preparing_sample_frame.main. cbn zeta.
  set (dir := parent infile) in *.
  rewrite (bind_eq _ _ _ _ (read_excel_run _ _ _ Hfile)). cbn beta iota.
  destruct (merge_facility_ID_run (set_heap (heap st ++ [of_sheet s]) st)
              (List.length (heap st)) (of_sheet s) m1
              (joinpath dir "CPI_New_Sampling_Frame_TableToExcel__ID_Merge_2022.xlsx") force)
    as (st2 & R2 & H2 & D2); [cbn; apply nth_error_snoc_new | exact V1 | exact W1 |].
  rewrite (bind_eq _ _ _ _ R2). cbn beta iota. cbn [disk set_heap] in D2.
  destruct (merge_turnover_outlets_run st2 _ m1 m2
              (joinpath dir "CPI_New_Sampling_Frame_TableToExcel__Intermediate_2022.xlsx")
              force H2 V2)
    as (st3 & R3 & H3 & D3).
  { rewrite D2, can_write_after_write by apart. exact W2. }
  rewrite (bind_eq _ _ _ _ R3). cbn beta iota.
  destruct (postproc_run st3 _ m2 H3) as (x & R4). rewrite V3 in R4.
  rewrite (bind_eq _ _ _ _ R4). cbn beta iota.
  erewrite bind_eq
    by (apply write_df_to_excel_run;
        [ cbn; apply nth_error_snoc_new
        | cbn [disk set_heap]; rewrite D3, D2, !can_write_after_write by apart; exact W3 ]).
  cbn beta iota. cbn [heap disk set_heap set_disk].
  erewrite bind_eq by (eapply query_run; cbn; apply nth_error_snoc_new).
  rewrite V4. cbn beta iota. cbn [heap disk set_heap set_disk].
  set (h4 := heap st3 ++ [p]).
  erewrite bind_eq
    by (apply write_df_to_excel_run;
        [ cbn; apply nth_error_snoc_new
        | cbn [disk set_heap set_disk]; rewrite D3, D2, !can_write_after_write by apart;
          exact W4 ]).
  cbn beta iota. cbn [heap disk set_heap set_disk].
  erewrite bind_eq
    by (rewrite (save_df_duplicates_run _ _ q) by (cbn; apply nth_error_snoc_new);
        rewrite V5; apply write_df_to_excel_run;
        [ cbn; apply nth_error_snoc_new
        | cbn [disk set_heap set_disk]; rewrite D3, D2, !can_write_after_write by apart;
          exact W5 ]).
  cbn beta iota. cbn [heap disk set_heap set_disk].
  rewrite (save_df_duplicates_run _ _ q)
    by (cbn; apply nth_error_snoc_old; apply nth_error_snoc_new).
  rewrite V6.
  rewrite (write_df_to_excel_run _ _ d2);
    [ | cbn; apply nth_error_snoc_new
      | cbn [disk set_heap set_disk]; rewrite D3, D2, !can_write_after_write by apart;
        exact W6 ].
  eexists. split; [reflexivity |].
  cbn [heap disk set_heap set_disk]. now rewrite D3, D2.
Qed.

Lemma duplicates_value_ok (col : string) (d : DataFrame) :
  mem col (columns d) = true ->
  duplicates_value col d =
  Ok (pd.boolean_index
        (map (fun v => (2 <=? List.length (filter (key_eqb v) (map (get col) (rows d))))%nat)
             (map (get col) (rows d))) d).
Proof.
  intros H. unfold duplicates_value, pd.duplicated. now rewrite (getitem_mem col d H).
Qed.

(** On an input the frame preparation accepts, all six tables can be
    computed. *)
Lemma frame_tables_ok (d : DataFrame) :
  frame_ready d = true ->
  exists m1 m2 p q d1 d2,
    frame_tables d = Ok [m1; m2; p; q; d1; d2] /\
    merged_table m2 = true /\
    rows p = map postproc_row (rows m2) /\
    q = mkDF (columns p) (spec_size_role_filter (rows p)) /\
    duplicates_value "Merge_ID" q = Ok d1 /\
    duplicates_value "FacilityID_merge" q = Ok d2.
Proof.
  unfold frame_ready. rewrite !andb_true_iff.
  intros [[[[Hready M_MN] N_MN] N_ST] N_OC].
  destruct (frame_merges_ok d Hready N_ST N_OC) as (m1 & m2 & V1 & V2 & Hm2 & Hkeep & M_FIDm).
  assert (M_MID : mem "Merge_ID" (columns d) = true).
  { unfold merge_ready in Hready. cbn [forallb] in Hready.
    rewrite !andb_true_iff in Hready. tauto. }
  pose proof (postproc_value_merged m2 Hm2) as V3.
  set (p := mkDF _ (map postproc_row (rows m2))) in V3.
  destruct (postprocessed_numeric m2 p Hm2 V3) as [M_TO N_TO].
  assert (Hp : forall c, mem c (columns m2) = true -> mem c (columns p) = true).
  { intros c Hc. unfold p. cbn [columns]. now repeat apply mem_add_column_old. }
  pose proof (query_value p M_TO
                (Hp _ (Hkeep "Merge_Num" M_MN ltac:(discriminate))) N_TO) as V4.
  set (q := mkDF (columns p) _) in V4.
  pose proof (duplicates_value_ok "Merge_ID" q
                (Hp _ (Hkeep "Merge_ID" M_MID ltac:(discriminate)))) as V5.
  pose proof (duplicates_value_ok "FacilityID_merge" q (Hp _ M_FIDm)) as V6.
  do 6 eexists. unfold frame_tables.
  rewrite V1. cbn [obind]. rewrite V2. cbn [obind]. rewrite V3. cbn [obind].
  rewrite V4. cbn [obind]. rewrite V5. cbn [obind]. rewrite V6. cbn [obind].
  split; [reflexivity |]. split; [assumption |]. split; [reflexivity |].
  split; [reflexivity |]. split; assumption.
Qed.

Lemma written_tables (fs : FS) (paths : list string) (tables : list DataFrame) :
  NoDup paths -> List.length paths = List.length tables ->
  Forall2 (fun path t =>
             find_file path
               (files (fold_left
                         (fun fs pt => write_file (fst pt) (Xlsx (to_sheet true (snd pt))) fs)
                         (combine paths tables) fs))
             = Some (Xlsx (to_sheet true t)))
          paths tables.
Proof.
  intros Hnd. revert tables fs.
  induction Hnd as [| path paths Hpath Hnd IH]; intros [| t tables] fs Hlen;
    try discriminate; [constructor |].
  cbn [combine fold_left fst snd]. constructor.
  - assert (G : forall (pts : list (string * DataFrame)) fs0,
                ~ In path (map fst pts) ->
                find_file path
                  (files (fold_left
                            (fun fs pt => write_file (fst pt) (Xlsx (to_sheet true (snd pt))) fs)
                            pts fs0)) = find_file path (files fs0)).
    { induction pts as [| [p0 t0] pts IHp]; intros fs0 Hn; cbn [fold_left]; [reflexivity |].
      cbn [map fst In] in Hn. rewrite IHp by tauto. cbn [fst snd].
      apply find_file_write_other. intros ->. tauto. }
    rewrite G; [apply find_file_write_same |].
    intros Hin. apply Hpath. clear - Hin. revert tables Hin.
    induction paths as [| p0 paths IHp]; intros [| t0 tables]; cbn; try tauto.
    intros [-> | H]; [now left | right; eauto].
  - apply IH. cbn in Hlen. lia.
Qed.

(** *** The merges when they stop early *)

Lemma merge_facility_ID_refuses (st : State) (df : ref) (d m : DataFrame) (outfile : string) :
  nth_error (heap st) df = Some d ->
  merge_facility_ID_value d = Ok m ->
  is_file (disk st) outfile || is_dir (disk st) outfile = true ->
  exists st',
    preparing_sample_frame.merge_facility_ID df outfile false st =
    (Raise (FileExistsError (preparing_sample_frame.file_exists_message outfile)), st') /\
    disk st' = disk st.
Proof.
  intros Hd Hv He. unfold merge_facility_ID_value in Hv.
  unfold preparing_sample_frame.merge_facility_ID.
  rewrite (bind_eq _ _ _ _ (getitem_list_run _ _ _ _ Hd)).
  destruct (pd.getitem_list _ d) as [right |]; cbn [obind] in Hv; [| discriminate].
  erewrite bind_eq
    by (eapply merge_left_run;
        [cbn; apply nth_error_snoc_old; eassumption | cbn; apply nth_error_snoc_new]).
  destruct (pd.merge_left d right _ _ _) as [merged |]; cbn [obind] in Hv; [| discriminate].
  cbn beta iota.
  erewrite bind_eq by (eapply drop_top; cbn; reflexivity).
  change ("Merge_ID" ++ "_merge")%string with "Merge_ID_merge". rewrite Hv.
  erewrite bind_eq by (apply write_df_to_excel_refuses; exact He).
  eexists. split; reflexivity.
Qed.

Lemma merge_turnover_outlets_fails (st : State) (df : ref) (d : DataFrame) (outfile : string)
    (overwrite : bool) (e : exn) :
  nth_error (heap st) df = Some d ->
  merge_turnover_outlets_value d = Raise e ->
  exists st',
    preparing_sample_frame.merge_turnover_outlets df outfile overwrite st = (Raise e, st') /\
    disk st' = disk st.
Proof.
  intros Hd Hv. unfold merge_turnover_outlets_value in Hv.
  unfold preparing_sample_frame.merge_turnover_outlets.
  rewrite (bind_eq _ _ _ _ (getitem_list_run _ _ _ _ Hd)).
  destruct (pd.getitem_list _ d) as [right |]; cbn [obind] in Hv;
    [| injection Hv as ->; eexists; split; reflexivity].
  erewrite bind_eq
    by (eapply merge_left_run;
        [cbn; apply nth_error_snoc_old; eassumption | cbn; apply nth_error_snoc_new]).
  destruct (pd.merge_left d right _ _ _) as [merged |]; cbn [obind] in Hv;
    [| injection Hv as ->; eexists; split; reflexivity].
  cbn beta iota.
  erewrite bind_eq by (eapply drop_top; cbn; reflexivity).
  change ("FacilityID" ++ "_loc2")%string with "FacilityID_loc2". rewrite Hv.
  eexists. split; reflexivity.
Qed.

Lemma merge_left_columns (left right m : DataFrame) (left_on right_on suffix : string) :
  pd.merge_left left right left_on right_on suffix = Ok m ->
  columns m = columns left ++ map (pd.suffixed (columns left) suffix) (columns right).
Proof.
  unfold pd.merge_left.
  destruct (negb (mem right_on _)); [discriminate |].
  destruct (negb (mem left_on _)); [discriminate |].
  destruct (xorb _ _); [discriminate |].
  destruct (negb (nodupb _)); [discriminate |].
  intros H. now injection H as <-.
Qed.

Lemma getitem_list_columns (cs : list string) (d right : DataFrame) :
  pd.getitem_list cs d = Ok right -> columns right = cs.
Proof.
  unfold pd.getitem_list. destruct (find _ cs); [discriminate |].
  intros H. now injection H as <-.
Qed.

Lemma turnover_merge_needs_index_column (d : DataFrame) :
  mem "Unnamed: 0" (columns d) = false ->
  exists e, merge_turnover_outlets_value d = Raise e /\
            forall right merged,
              pd.getitem_list ["FacilityID"; "Sum_Turnov"; "OutletCt"] d = Ok right ->
              pd.merge_left d right "FacilityID_merge" "FacilityID" "_loc2" = Ok merged ->
              e = KeyError "Unnamed: 0".
Proof.
  intros HU. unfold merge_turnover_outlets_value.
  destruct (pd.getitem_list _ d) as [right | e] eqn:G; cbn [obind];
    [| exists e; split; [reflexivity | intros ? ? H; discriminate H]].
  destruct (pd.merge_left d right _ _ _) as [merged | e] eqn:J; cbn [obind].
  2: { exists e. split; [reflexivity |]. intros r mg Hr Hm. injection Hr as <-.
       rewrite J in Hm. discriminate Hm. }
  exists (KeyError "Unnamed: 0"). split; [| reflexivity].
  unfold pd.drop. cbn [find].
  rewrite (merge_left_columns _ _ _ _ _ _ J), (getitem_list_columns _ _ _ G), mem_app, HU.
  cbn [map orb]. unfold pd.suffixed.
  destruct (mem "FacilityID" (columns d)), (mem "Sum_Turnov" (columns d)),
    (mem "OutletCt" (columns d)); reflexivity.
Qed.

Lemma find_missing_some (cs cols : list string) :
  forallb (fun c => mem c cols) cs = false ->
  exists k, find (fun c => negb (mem c cols)) cs = Some k /\ In k cs /\ mem k cols = false.
Proof.
  induction cs as [| c cs IH]; cbn [forallb find]; [discriminate |].
  destruct (mem c cols) eqn:E; cbn [andb negb].
  - intros H. destruct (IH H) as (k & Hk & Hin & Hm). exists k. cbn [In]. auto.
  - intros _. exists c. cbn [In]. auto.
Qed.

(** ** The frame preparation as a whole *)

(** X1: On every readable input that has the columns the script names, with
    numbers (possibly missing) in the identifiers, the merge role, the
    turnover and the outlets, and with the six output files writable,
    [main] returns normally and has written the six files: the two merged
    tables, the postprocessed table, the filtered one and the two
    duplicate reports, each computed from the one before. *)
Theorem frame_preparation_succeeds (st : State) (infile : string) (force : bool) (s : sheet) :
  find_file infile (files (disk st)) = Some (Xlsx s) ->
  frame_ready (of_sheet s) = true ->
  forallb (fun path => can_write (disk st) path force) (frame_outputs infile) = true ->
  exists st' tables,
    preparing_sample_frame.main infile force st = (Ok tt, st') /\
    frame_tables (of_sheet s) = Ok tables /\
    Forall2 (fun path t =>
               find_file path (files (disk st')) = Some (Xlsx (to_sheet true t)))
            (frame_outputs infile) tables.
Proof.
  intros Hfile Hready Hcw.
  destruct (frame_tables_ok _ Hready) as (m1 & m2 & p & q & d1 & d2 & Htab & _).
  destruct (main_run st infile force s m1 m2 p q d1 d2 Hfile Htab Hcw) as (st' & Hrun & Hdisk).
  exists st', [m1; m2; p; q; d1; d2].
  split; [exact Hrun |]. split; [exact Htab |].
  rewrite Hdisk. apply written_tables; [apply frame_outputs_apart | reflexivity].
Qed.

Lemma frame_preparation_succeeds_witness :
  exists st' tables,
    preparing_sample_frame.main example_infile false (on_disk example_sheet_indexed)
    = (Ok tt, st') /\
    frame_tables (of_sheet example_sheet_indexed) = Ok tables /\
    Forall2 (fun path t =>
               find_file path (files (disk st')) = Some (Xlsx (to_sheet true t)))
            (frame_outputs example_infile) tables.
Proof.
  apply (frame_preparation_succeeds (on_disk example_sheet_indexed) example_infile false
           example_sheet_indexed); reflexivity.
Defined.

(** X2: The two duplicate reports are drawn from the filtered table, not from
    the merged one: in a run as above, the reports have the header of the
    draft file, and their lines are lines of the draft file, in its order. *)
Theorem duplicates_are_sought_among_the_filtered (st : State) (infile : string) (force : bool)
    (s : sheet) :
  find_file infile (files (disk st)) = Some (Xlsx s) ->
  frame_ready (of_sheet s) = true ->
  forallb (fun path => can_write (disk st) path force) (frame_outputs infile) = true ->
  exists st' draft report1 report2,
    preparing_sample_frame.main infile force st = (Ok tt, st') /\
    find_file (joinpath (parent infile) "CPI_New_Sampling_Frame_Draft_2022.xlsx")
              (files (disk st')) = Some (Xlsx draft) /\
    find_file (joinpath (parent infile) "2022_duplicate_1.xlsx") (files (disk st'))
    = Some (Xlsx report1) /\
    find_file (joinpath (parent infile) "2022_duplicate_2.xlsx") (files (disk st'))
    = Some (Xlsx report2) /\
    header report1 = header draft /\ subseq (body report1) (body draft) /\
    header report2 = header draft /\ subseq (body report2) (body draft).
Proof.
  intros Hfile Hready Hcw.
  destruct (frame_tables_ok _ Hready)
    as (m1 & m2 & p & q & d1 & d2 & Htab & _ & _ & _ & V5 & V6).
  destruct (main_run st infile force s m1 m2 p q d1 d2 Hfile Htab Hcw) as (st' & Hrun & Hdisk).
  pose proof (written_tables (disk st) (frame_outputs infile) [m1; m2; p; q; d1; d2]
                (frame_outputs_apart infile) eq_refl) as W.
  rewrite <- Hdisk in W. unfold frame_outputs in W. cbn [map] in W.
  repeat match goal with
         | H : Forall2 _ (_ :: _) (_ :: _) |- _ =>
             let H1 := fresh "F" in
             apply Forall2_cons_iff in H; destruct H as [H1 H]
         end.
  exists st', (to_sheet true q), (to_sheet true d1), (to_sheet true d2).
  split; [exact Hrun |]. do 3 (split; [assumption |]).
  assert (G : forall col dd, duplicates_value col q = Ok dd ->
                header (to_sheet true dd) = header (to_sheet true q) /\
                subseq (body (to_sheet true dd)) (body (to_sheet true q))).
  { intros col dd V. unfold duplicates_value in V.
    destruct (pd.duplicated col q) as [mask |]; cbn [obind] in V; [| discriminate].
    injection V as <-. split; [reflexivity |].
    cbn [to_sheet body pd.boolean_index columns]. apply subseq_map.
    apply (subseq_boolean_index mask q). }
  destruct (G _ _ V5) as [H1 S1]. destruct (G _ _ V6) as [H2 S2].
  repeat split; assumption.
Qed.

Lemma duplicates_are_sought_among_the_filtered_witness :
  exists st' draft report1 report2,
    preparing_sample_frame.main example_infile true (on_disk example_sheet_indexed)
    = (Ok tt, st') /\
    find_file (joinpath (parent example_infile) "CPI_New_Sampling_Frame_Draft_2022.xlsx")
              (files (disk st')) = Some (Xlsx draft) /\
    find_file (joinpath (parent example_infile) "2022_duplicate_1.xlsx") (files (disk st'))
    = Some (Xlsx report1) /\
    find_file (joinpath (parent example_infile) "2022_duplicate_2.xlsx") (files (disk st'))
    = Some (Xlsx report2) /\
    header report1 = header draft /\ subseq (body report1) (body draft) /\
    header report2 = header draft /\ subseq (body report2) (body draft).
Proof.
  apply (duplicates_are_sought_among_the_filtered (on_disk example_sheet_indexed)
           example_infile true example_sheet_indexed); reflexivity.
Defined.

(** X3: A second run without [force] is refused: after a run without [force]
    that succeeded as above, running [main] again on the same input raises
    [FileExistsError] for the first output file, and changes nothing on the
    disk. *)
Theorem second_run_is_refused (st : State) (infile : string) (s : sheet) :
  find_file infile (files (disk st)) = Some (Xlsx s) ->
  frame_ready (of_sheet s) = true ->
  forallb (fun path => can_write (disk st) path false) (frame_outputs infile) = true ->
  exists st' st'',
    preparing_sample_frame.main infile false st = (Ok tt, st') /\
    preparing_sample_frame.main infile false st' =
    (Raise (FileExistsError
              (preparing_sample_frame.file_exists_message
                 (joinpath (parent infile)
                           "CPI_New_Sampling_Frame_TableToExcel__ID_Merge_2022.xlsx"))),
     st'') /\
    disk st'' = disk st'.
Proof.
  intros Hfile Hready Hcw.
  destruct (frame_tables_ok _ Hready) as (m1 & m2 & p & q & d1 & d2 & Htab & _).
  destruct (main_run st infile false s m1 m2 p q d1 d2 Hfile Htab Hcw) as (st' & Hrun & Hdisk).
  pose proof (written_tables (disk st) (frame_outputs infile) [m1; m2; p; q; d1; d2]
                (frame_outputs_apart infile) eq_refl) as W.
  rewrite <- Hdisk in W. unfold frame_outputs in W. cbn [map] in W.
  apply Forall2_cons_iff in W. destruct W as [W1 _].
  assert (Hfile' : find_file infile (files (disk st')) = Some (Xlsx s)).
  { pose proof (keeps_files_main infile st) as K. unfold extends in K.
    rewrite Hrun in K. now apply K. }
  assert (V1 : merge_facility_ID_value (of_sheet s) = Ok m1).
  { unfold frame_tables in Htab.
    destruct (merge_facility_ID_value (of_sheet s)) as [x |]; cbn [obind] in Htab;
      [| discriminate].
    repeat match type of Htab with
           | context [obind ?o _] => destruct o; cbn [obind] in Htab; [| discriminate]
           end.
    now injection Htab as ->. }
  exists st'. unfold preparing_sample_frame.main at 2. cbn zeta.
  rewrite (bind_eq _ _ _ _ (read_excel_run _ _ _ Hfile')). cbn beta iota.
  destruct (merge_facility_ID_refuses (set_heap (heap st' ++ [of_sheet s]) st')
              (List.length (heap st')) (of_sheet s) m1
              (joinpath (parent infile)
                        "CPI_New_Sampling_Frame_TableToExcel__ID_Merge_2022.xlsx"))
    as (st'' & R & D); [cbn; apply nth_error_snoc_new | exact V1 | |].
  { cbn [disk set_heap]. unfold is_file. now rewrite W1. }
  rewrite (bind_eq _ _ _ _ R). exists st''. split; [exact Hrun |]. split; [reflexivity |].
  exact D.
Qed.

Lemma second_run_is_refused_witness :
  exists st' st'',
    preparing_sample_frame.main example_infile false first_run = (Ok tt, st') /\
    preparing_sample_frame.main example_infile false st' =
    (Raise (FileExistsError
              (preparing_sample_frame.file_exists_message
                 (joinpath (parent example_infile)
                           "CPI_New_Sampling_Frame_TableToExcel__ID_Merge_2022.xlsx"))),
     st'') /\
    disk st'' = disk st'.
Proof.
  apply (second_run_is_refused first_run example_infile example_sheet_indexed); reflexivity.
Defined.

(** X4: There is no rollback: on an input that has everything but the column
    "Unnamed: 0", [main] fails in the second merge with a [KeyError], and
    the file of the first merge, written before, stays on the disk. *)
Theorem failed_run_leaves_its_first_output (st : State) (infile : string) (force : bool)
    (s : sheet) :
  find_file infile (files (disk st)) = Some (Xlsx s) ->
  lacks_index_column (of_sheet s) = true ->
  can_write (disk st)
    (joinpath (parent infile) "CPI_New_Sampling_Frame_TableToExcel__ID_Merge_2022.xlsx")
    force = true ->
  exists st' m1,
    preparing_sample_frame.main infile force st = (Raise (KeyError "Unnamed: 0"), st') /\
    merge_facility_ID_value (of_sheet s) = Ok m1 /\
    find_file
      (joinpath (parent infile) "CPI_New_Sampling_Frame_TableToExcel__ID_Merge_2022.xlsx")
      (files (disk st')) = Some (Xlsx (to_sheet true m1)).
Proof.
  intros Hfile Hlacks Hcw. unfold lacks_index_column in Hlacks.
  cbn [forallb] in Hlacks. rewrite !andb_true_iff, !negb_true_iff in Hlacks.
  destruct Hlacks as
    [[[[Hwfb (M_LN & M_FID & M_MID & M_ST & M_OC & _)]
       (A_U & A_LNm & A_FIDm & A_MIDm & A_FIDl & A_STl & A_OCl & _)] N_FID] N_MID].
  set (d := of_sheet s) in *.
  pose proof (wfb_wf d Hwfb) as Hwf.
  destruct (merge_facility_ID_value_ok d Hwf) as (m1 & V1 & Hwf1 & Mem1 & Old1 & N_FIDm);
    [ cbn [forallb]; now rewrite M_LN, M_FID, M_MID
    | cbn [forallb]; now rewrite A_LNm, A_FIDm, A_MIDm
    | assumption | assumption |].
  assert (V2 : merge_turnover_outlets_value m1 = Raise (KeyError "Unnamed: 0")).
  { destruct (turnover_merge_needs_index_column m1) as (e & He & Hkey).
    { now rewrite Mem1, A_U. }
    rewrite He. f_equal.
    assert (G : forallb (fun c => mem c (columns m1)) ["FacilityID"; "Sum_Turnov"; "OutletCt"]
                = true).
    { cbn [forallb]. rewrite !Mem1, M_FID, M_ST, M_OC. reflexivity. }
    pose proof (getitem_list_value _ m1 G) as Hright.
    set (right := mkDF _ _) in Hright.
    destruct (merge_left_rows m1 right "FacilityID_merge" "FacilityID" "_loc2")
      as (merged & J & _).
    { reflexivity. }
    { now rewrite Mem1, A_FIDm. }
    { rewrite (numeric_has_text _ _ N_FIDm). symmetry. apply has_text_false.
      intros v Hv. apply in_map_iff in Hv. destruct Hv as (r & <- & Hr).
      unfold right in Hr. cbn [rows] in Hr. apply in_map_iff in Hr.
      destruct Hr as (r0 & <- & Hr0). unfold get. cbn [cells].
      rewrite lookup_proj by (cbn; auto).
      pose proof (Old1 "FacilityID" M_FID N_FID) as N. unfold numeric in N.
      rewrite forallb_forall in N. now apply N. }
    { apply nodupb_NoDup. unfold right. cbn [columns map].
      rewrite !suffixed_present by (rewrite Mem1, ?M_FID, ?M_ST, ?M_OC; reflexivity).
      cbn [String.append].
      apply NoDup_app_disjoint; [apply Hwf1 | now apply nodupb_NoDup |].
      intros x [<- | [<- | [<- | []]]]; apply mem_false;
        rewrite Mem1, ?A_FIDl, ?A_STl, ?A_OCl; reflexivity. }
    exact (Hkey right merged Hright J). }
  unfold preparing_sample_frame.main. cbn zeta.
  rewrite (bind_eq _ _ _ _ (read_excel_run _ _ _ Hfile)). cbn beta iota.
  destruct (merge_facility_ID_run (set_heap (heap st ++ [d]) st)
              (List.length (heap st)) d m1
              (joinpath (parent infile)
                        "CPI_New_Sampling_Frame_TableToExcel__ID_Merge_2022.xlsx") force)
    as (st2 & R2 & H2 & D2); [cbn; apply nth_error_snoc_new | exact V1 | exact Hcw |].
  fold d. rewrite (bind_eq _ _ _ _ R2). cbn beta iota.
  destruct (merge_turnover_outlets_fails st2 _ m1
              (joinpath (parent infile)
                        "CPI_New_Sampling_Frame_TableToExcel__Intermediate_2022.xlsx")
              force _ H2 V2) as (st3 & R3 & D3).
  rewrite (bind_eq _ _ _ _ R3).
  exists st3, m1. split; [reflexivity |]. split; [exact V1 |].
  rewrite D3, D2. apply find_file_write_same.
Qed.

Lemma failed_run_leaves_its_first_output_witness :
  exists st' m1,
    preparing_sample_frame.main example_infile false (on_disk example_sheet_named)
    = (Raise (KeyError "Unnamed: 0"), st') /\
    merge_facility_ID_value (of_sheet example_sheet_named) = Ok m1 /\
    find_file
      (joinpath (parent example_infile)
                "CPI_New_Sampling_Frame_TableToExcel__ID_Merge_2022.xlsx")
      (files (disk st')) = Some (Xlsx (to_sheet true m1)).
Proof.
  apply (failed_run_leaves_its_first_output (on_disk example_sheet_named) example_infile false
           example_sheet_named); reflexivity.
Defined.

(** X5: [main] writes its six output files and no other: whatever the input
    and the outcome, every other path holds after the run what it held
    before.  And without [force] no file is changed at all: every file
    found before the run is found after it with the same content. *)
Theorem frame_preparation_spares_other_files (st : State) (infile : string) (force : bool) :
  (forall path,
     ~ In path (frame_outputs infile) ->
     find_file path (files (disk (snd (preparing_sample_frame.main infile force st)))) =
     find_file path (files (disk st)))
  /\
  (forall path f,
     force = false ->
     find_file path (files (disk st)) = Some f ->
     find_file path (files (disk (snd (preparing_sample_frame.main infile force st)))) = Some f).
Proof.
  split.
  - intros path Hpath. now apply writes_only_main.
  - intros path f -> Hf. now apply keeps_files_main.
Qed.

Lemma frame_preparation_spares_other_files_witness :
  find_file example_infile
    (files (disk (snd (preparing_sample_frame.main example_infile true first_run)))) =
  find_file example_infile (files (disk first_run))
  /\
  find_file example_infile
    (files (disk (snd (preparing_sample_frame.main example_infile false first_run)))) =
  Some (Xlsx example_sheet_indexed).
Proof.
  split.
  - apply (proj1 (frame_preparation_spares_other_files first_run example_infile true)).
    cbn. intuition discriminate.
  - apply (proj2 (frame_preparation_spares_other_files first_run example_infile false));
      reflexivity.
Defined.

(** ** What the stages refuse *)

(** X6: [write_df_to_excel] never creates a directory: when the directory of
    the output file does not exist, it raises and leaves the process as it
    was. *)
Theorem write_df_to_excel_needs_its_directory (st : State) (df : ref) (outfile : string)
    (overwrite : bool) :
  is_dir (disk st) (parent outfile) = false ->
  exists e, preparing_sample_frame.write_df_to_excel df outfile overwrite st = (Raise e, st).
Proof.
  intros Hdir. unfold preparing_sample_frame.write_df_to_excel, bind, path_exists.
  destruct ((is_file (disk st) outfile || is_dir (disk st) outfile) && negb overwrite);
    [eexists; reflexivity |].
  unfold to_excel, bind, deref.
  destruct (nth_error (heap st) df); [| eexists; reflexivity].
  unfold write_to. destruct (is_dir (disk st) outfile); [eexists; reflexivity |].
  rewrite Hdir. eexists; reflexivity.
Qed.

Lemma write_df_to_excel_needs_its_directory_witness :
  exists e,
    preparing_sample_frame.write_df_to_excel 0 "frame/out.xlsx" false nowhere = (Raise e, nowhere).
Proof.
  apply (write_df_to_excel_needs_its_directory nowhere 0 "frame/out.xlsx" false). reflexivity.
Defined.

(** X7: [merge_facility_ID] on a table that lacks one of the three columns it
    reads raises a [KeyError] for a column the table lacks, before anything
    is stored or written: the process is left as it was. *)
Theorem merge_facility_ID_missing_column (st : State) (df : ref) (d : DataFrame)
    (outfile : string) (overwrite : bool) :
  nth_error (heap st) df = Some d ->
  forallb (fun c => mem c (columns d)) ["LocName"; "FacilityID"; "Merge_ID"] = false ->
  exists k,
    preparing_sample_frame.merge_facility_ID df outfile overwrite st = (Raise (KeyError k), st) /\
    In k ["LocName"; "FacilityID"; "Merge_ID"] /\
    mem k (columns d) = false.
Proof.
  intros Hd Hmiss. destruct (find_missing_some _ _ Hmiss) as (k & Hk & Hin & Hm).
  exists k. split; [| split; assumption].
  unfold preparing_sample_frame.merge_facility_ID.
  rewrite (bind_eq _ _ _ _ (getitem_list_run _ _ _ _ Hd)).
  unfold pd.getitem_list. now rewrite Hk.
Qed.

Lemma merge_facility_ID_missing_column_witness :
  exists k,
    preparing_sample_frame.merge_facility_ID 0 "frame/ID_Merge.xlsx" false
      (holding example_merged) = (Raise (KeyError k), holding example_merged) /\
    In k ["LocName"; "FacilityID"; "Merge_ID"] /\
    mem k (columns example_merged) = false.
Proof.
  apply (merge_facility_ID_missing_column (holding example_merged) 0 example_merged);
    reflexivity.
Defined.

(** X8: [merge_turnover_outlets] drops the column "Unnamed: 0" whether or not
    the table has it: on a table without that column it never returns a
    table and writes nothing, and the exception is the [KeyError] of the
    drop whenever the merge before it went through. *)
Theorem merge_turnover_outlets_needs_index_column (st : State) (df : ref) (d : DataFrame)
    (outfile : string) (overwrite : bool) :
  nth_error (heap st) df = Some d ->
  mem "Unnamed: 0" (columns d) = false ->
  exists e st',
    preparing_sample_frame.merge_turnover_outlets df outfile overwrite st = (Raise e, st') /\
    disk st' = disk st /\
    forall right merged,
      pd.getitem_list ["FacilityID"; "Sum_Turnov"; "OutletCt"] d = Ok right ->
      pd.merge_left d right "FacilityID_merge" "FacilityID" "_loc2" = Ok merged ->
      e = KeyError "Unnamed: 0".
Proof.
  intros Hd HU. destruct (turnover_merge_needs_index_column d HU) as (e & He & Hkey).
  destruct (merge_turnover_outlets_fails st df d outfile overwrite e Hd He) as (st' & R & D).
  exists e, st'. auto.
Qed.

Lemma merge_turnover_outlets_needs_index_column_witness :
  exists e st',
    preparing_sample_frame.merge_turnover_outlets 0 "frame/Intermediate.xlsx" true
      (holding example_merged) = (Raise e, st') /\
    disk st' = disk (holding example_merged) /\
    forall right merged,
      pd.getitem_list ["FacilityID"; "Sum_Turnov"; "OutletCt"] example_merged = Ok right ->
      pd.merge_left example_merged right "FacilityID_merge" "FacilityID" "_loc2" = Ok merged ->
      e = KeyError "Unnamed: 0".
Proof.
  apply (merge_turnover_outlets_needs_index_column (holding example_merged) 0 example_merged);
    reflexivity.
Defined.

Lemma numeric_fillna (c : string) (d : DataFrame) :
  numeric c d = true ->
  forallb (fun r => is_num (get c r)) (map (fillna_row (Num 0)) (rows d)) = true.
Proof.
  intros H. rewrite numeric_map; [exact H |].
  intros r. unfold get, fillna_row. cbn [cells]. apply is_num_lookup_fillna.
Qed.

(** X9: [postproc_turnover_df] on a table that lacks one of the four columns
    it adds up raises a [KeyError] for the first of them that is missing,
    in the order the script reads them; the table it was given is still in
    the store, unchanged, and nothing is written. *)
Theorem postproc_missing_column (st : State) (df : ref) (d : DataFrame) :
  nth_error (heap st) df = Some d ->
  forallb (fun c => numeric c d)
          ["Sum_Turnov"; "Sum_Turnov_loc2"; "OutletCt"; "OutletCt_loc2"] = true ->
  forallb (fun c => mem c (columns d))
          ["Sum_Turnov"; "Sum_Turnov_loc2"; "OutletCt"; "OutletCt_loc2"] = false ->
  exists k st',
    preparing_sample_frame.postproc_turnover_df df st = (Raise (KeyError k), st') /\
    find (fun c => negb (mem c (columns d)))
         ["Sum_Turnov"; "Sum_Turnov_loc2"; "OutletCt"; "OutletCt_loc2"] = Some k /\
    nth_error (heap st') df = Some d /\
    disk st' = disk st.
Proof.
  intros Hd Hnum Hmiss. cbn [forallb] in Hnum. rewrite !andb_true_iff in Hnum.
  destruct Hnum as (N1 & N2 & N3 & N4 & _).
  destruct (find_missing_some _ _ Hmiss) as (k & Hk & _ & _).
  destruct (postproc_run st df d Hd) as (x & Hrun).
  assert (V : postproc_value d = Raise (KeyError k)).
  { clear Hrun. unfold postproc_value. cbn [find] in Hk. unfold pd.getitem at 1 2.
    cbn [pd.fillna columns rows].
    destruct (mem "Sum_Turnov" (columns d)) eqn:M1; cbn [negb obind] in Hk |- *;
      [| now injection Hk as <-].
    destruct (mem "Sum_Turnov_loc2" (columns d)) eqn:M2; cbn [negb obind] in Hk |- *;
      [| now injection Hk as <-].
    rewrite add_numeric by (apply numeric_fillna; assumption). cbn [obind].
    unfold pd.getitem at 1 2. cbn [pd.setitem pd.fillna columns].
    rewrite !mem_add_column. cbn [String.eqb Ascii.eqb Bool.eqb]. rewrite !orb_false_r.
    destruct (mem "OutletCt" (columns d)) eqn:M3; cbn [negb obind] in Hk |- *;
      [| now injection Hk as <-].
    destruct (mem "OutletCt_loc2" (columns d)) eqn:M4; cbn [negb obind] in Hk |- *;
      [discriminate Hk | now injection Hk as <-]. }
  rewrite V in Hrun. exists k. eexists. split; [exact Hrun |]. split; [exact Hk |].
  split; [cbn; now apply nth_error_snoc_old | reflexivity].
Qed.

Lemma postproc_missing_column_witness :
  exists k st',
    preparing_sample_frame.postproc_turnover_df 0 (holding example_without_outlets)
    = (Raise (KeyError k), st') /\
    find (fun c => negb (mem c (columns example_without_outlets)))
         ["Sum_Turnov"; "Sum_Turnov_loc2"; "OutletCt"; "OutletCt_loc2"] = Some k /\
    nth_error (heap st') 0 = Some example_without_outlets /\
    disk st' = disk (holding example_without_outlets).
Proof.
  apply (postproc_missing_column (holding example_without_outlets) 0 example_without_outlets);
    reflexivity.
Defined.

(** ** A report without duplicates *)

Lemma distinct_keys_nth (l : list cell) (i j : nat) (v w : cell) :
  distinct_keys l -> i <> j ->
  nth_error l i = Some v -> nth_error l j = Some w -> key_eqb v w = false.
Proof.
  unfold distinct_keys. intros H. revert i j.
  induction H as [| a l Ha Hl IH]; intros [| i] [| j] Hne Hi Hj; cbn in *;
    try discriminate; try congruence.
  - injection Hi as ->. rewrite Forall_forall in Ha. apply Ha.
    eapply nth_error_In; eassumption.
  - injection Hj as ->. rewrite key_eqb_sym. rewrite Forall_forall in Ha. apply Ha.
    eapply nth_error_In; eassumption.
  - apply (IH i j); auto.
Qed.

Lemma no_duplicates_mask (l : list cell) :
  distinct_keys l ->
  forall b, In b (map (fun v => (2 <=? List.length (filter (key_eqb v) l))%nat) l) -> b = false.
Proof.
  intros Hu b Hb. apply in_map_iff in Hb. destruct Hb as (v & <- & Hv).
  apply In_nth_error in Hv. destruct Hv as (i & Hi).
  destruct (2 <=? _)%nat eqn:E; [| reflexivity].
  apply (occurs_twice l i v Hi) in E. destruct E as (j & w & Hne & Hj & Hvw).
  rewrite (distinct_keys_nth l i j v w Hu) in Hvw; auto.
Qed.

Lemma boolean_index_none (mask : list bool) (d : DataFrame) :
  (forall b, In b mask -> b = false) -> pd.boolean_index mask d = mkDF (columns d) [].
Proof.
  intros H. unfold pd.boolean_index. f_equal.
  revert mask H. induction (rows d) as [| r rs IH]; intros [| b mask] H; cbn; try reflexivity.
  rewrite (H b) by now left. apply IH. intros b' Hb'. apply H. now right.
Qed.

(** X10: [save_df_duplicates] writes its report whether or not it found
    anything: on a table whose values in the column are all different, the
    file it writes holds the header line and nothing else. *)
Theorem report_without_duplicates_is_empty (st : State) (df : ref) (d : DataFrame)
    (col outfile : string) (overwrite : bool) :
  nth_error (heap st) df = Some d ->
  mem col (columns d) = true ->
  is_unique (map (get col) (rows d)) = true ->
  can_write (disk st) outfile overwrite = true ->
  exists st',
    preparing_sample_frame.save_df_duplicates df col outfile overwrite st = (Ok tt, st') /\
    find_file outfile (files (disk st')) = Some (Xlsx (mkSheet ("" :: columns d) [])).
Proof.
  intros Hd Hcol Hu Hw. apply is_unique_distinct in Hu.
  rewrite (save_df_duplicates_run st df d col outfile overwrite Hd).
  rewrite (duplicates_value_ok col d Hcol).
  rewrite boolean_index_none by now apply no_duplicates_mask.
  rewrite (write_df_to_excel_run _ _ (mkDF (columns d) []));
    [| cbn; apply nth_error_snoc_new | exact Hw].
  eexists. split; [reflexivity |]. cbn. now rewrite String.eqb_refl.
Qed.

Lemma report_without_duplicates_is_empty_witness :
  exists st',
    preparing_sample_frame.save_df_duplicates 0 "Merge_ID" "frame/2022_duplicate_1.xlsx" false
      (holding example_distinct) = (Ok tt, st') /\
    find_file "frame/2022_duplicate_1.xlsx" (files (disk st'))
    = Some (Xlsx (mkSheet ("" :: columns example_distinct) [])).
Proof.
  apply (report_without_duplicates_is_empty (holding example_distinct) 0 example_distinct);
    reflexivity.
Defined.

(** ** The order of the floats *)

Section FloatOrder.

Local Open Scope float_scope.

Ltac cmp :=
  repeat match goal with
         | |- context [Z.compare ?a ?b] => destruct (Z.compare_spec a b)
         | |- context [Pos.compare_cont Eq ?a ?b] =>
             rewrite (Pos.compare_cont_spec a b Eq); cbn [Pos.switch_Eq];
             destruct (Pos.compare_spec a b)
         end.

Ltac settle :=
  cbn; try (intros H; discriminate H); try (intros _; left; reflexivity);
  try (intros _; right; reflexivity); try reflexivity; try lia.

(** The floats that are not NaN are totally ordered: what is below [z]
    while [y] is not, is below [y]. *)
Lemma SFltb_total (x y z : spec_float) :
  y <> S754_nan -> SFltb x z = true -> SFltb y z = true \/ SFltb x y = true.
Proof.
  unfold SFltb, SFcompare. intros Hy.
  destruct x as [sx | sx | | sx mx ex], y as [sy | sy | | sy my ey],
    z as [sz | sz | | sz mz ez]; try congruence;
    try destruct sx; try destruct sy; try destruct sz; settle.
  all: cmp; settle.
Qed.

Lemma SFltb_asym (x y : spec_float) : SFltb x y = true -> SFltb y x = false.
Proof.
  unfold SFltb, SFcompare.
  destruct x as [sx | sx | | sx mx ex], y as [sy | sy | | sy my ey];
    try destruct sx; try destruct sy; settle.
  all: cmp; settle.
Qed.

Lemma precedes_asym (a b : float) : pd.precedes a b = true -> pd.precedes b a = false.
Proof.
  unfold pd.precedes. rewrite !andb_true_iff, negb_true_iff, orb_true_iff.
  intros [Ha [Hb | Hlt]].
  - now rewrite Hb.
  - rewrite Ha. cbn [orb]. rewrite FloatAxioms.ltb_spec in *.
    rewrite (SFltb_asym _ _ Hlt). apply andb_false_r.
Qed.

Lemma precedes_total (x y z : float) :
  pd.precedes z x = true -> pd.precedes z y = true \/ pd.precedes y x = true.
Proof.
  unfold pd.precedes. rewrite !andb_true_iff, !negb_true_iff, !orb_true_iff.
  intros [Hz Hx]. destruct (is_nan y) eqn:Hy; [now left; auto |].
  destruct Hx as [Hx | Hlt]; [right; auto |].
  rewrite !FloatAxioms.ltb_spec in *.
  destruct (SFltb_total (Prim2SF x) (Prim2SF y) (Prim2SF z)) as [H | H]; auto.
  intros E. apply is_nan_spec in E. congruence.
Qed.

End FloatOrder.

(** ** Sorting by weight *)

Lemma insert_desc_descending (x : float * Row) (l : list (float * Row)) :
  descending l -> descending (pd.insert_desc x l).
Proof.
  unfold descending. induction 1 as [| y l Hl IH Hy]; cbn [pd.insert_desc].
  - constructor; constructor.
  - destruct (pd.precedes (fst y) (fst x)) eqn:E.
    + constructor; [exact IH |].
      apply Forall_forall. intros w Hw.
      apply (Permutation_in _ (insert_desc_perm x l)) in Hw.
      destruct Hw as [<- | Hw]; [now apply precedes_asym |].
      rewrite Forall_forall in Hy. now apply Hy.
    + constructor; [now constructor |].
      constructor; [exact E |].
      apply Forall_forall. intros w Hw. rewrite Forall_forall in Hy.
      destruct (pd.precedes (fst w) (fst x)) eqn:F; [| reflexivity].
      destruct (precedes_total _ (fst y) _ F) as [G | G]; [| congruence].
      rewrite (Hy w Hw) in G. discriminate G.
Qed.

Lemma sort_desc_descending (l : list (float * Row)) : descending (pd.sort_desc l).
Proof.
  induction l as [| x l IH]; cbn; [constructor |]. now apply insert_desc_descending.
Qed.

(** The sort looks at the keys only: two lists with the same keys, row by
    row, are sorted alike. *)
Lemma insert_desc_alike (rel : Row -> Row -> Prop) (x x' : float * Row)
    (l l' : list (float * Row)) :
  fst x = fst x' -> rel (snd x) (snd x') ->
  Forall2 (fun a b => fst a = fst b /\ rel (snd a) (snd b)) l l' ->
  Forall2 (fun a b => fst a = fst b /\ rel (snd a) (snd b))
          (pd.insert_desc x l) (pd.insert_desc x' l').
Proof.
  intros Hk Hr. induction 1 as [| y y' l l' [Hy1 Hy2] Hl IH]; cbn [pd.insert_desc].
  - constructor; [split; assumption | constructor].
  - rewrite <- Hk, <- Hy1. destruct (pd.precedes (fst y) (fst x)).
    + constructor; [split; assumption | exact IH].
    + constructor; [split; assumption |]. constructor; [split; assumption | exact Hl].
Qed.

Lemma sort_desc_alike (rel : Row -> Row -> Prop) (l l' : list (float * Row)) :
  Forall2 (fun a b => fst a = fst b /\ rel (snd a) (snd b)) l l' ->
  Forall2 (fun a b => fst a = fst b /\ rel (snd a) (snd b)) (pd.sort_desc l) (pd.sort_desc l').
Proof.
  induction 1 as [| x x' l l' [H1 H2] Hl IH]; cbn; [constructor |].
  now apply insert_desc_alike.
Qed.

(** ** One random number for each row *)

Lemma series_zip_mul (a : list cell) (ys : list float) :
  forallb is_num a = true ->
  List.length ys = List.length a ->
  pd.series_zip (fun x y => match y with
                            | Num y' => cell_mul_float x y'
                            | Str _ => Raise TypeError
                            end) a (map Num ys)
  = Ok (map (fun cu => Num (num (fst cu) * snd cu)%float) (combine a ys)).
Proof.
  revert ys. induction a as [| c a IH]; intros [| y ys] Ha Hlen; cbn in *;
    try discriminate; [reflexivity |].
  apply andb_true_iff in Ha. destruct Ha as [Hc Ha].
  destruct c; [| discriminate]. cbn. rewrite IH by (assumption || lia). reflexivity.
Qed.

Lemma mul_random_value (a : list cell) (tape : nat -> float) (drawn : nat) :
  forallb is_num a = true ->
  pd.mul_random a (random_value tape drawn (List.length a)) =
  Ok (map (fun cu => Num (num (fst cu) * snd cu)%float)
          (combine a (map tape (seq drawn (List.length a))))).
Proof.
  intros Ha. unfold random_value, pd.mul_random.
  destruct (List.length a =? 1)%nat eqn:E.
  - apply Nat.eqb_eq in E. destruct a as [| c [| c' a]]; try discriminate E.
    cbn in Ha |- *. destruct c; [reflexivity | discriminate].
  - rewrite length_map, length_seq, Nat.eqb_refl.
    apply series_zip_mul; [assumption |]. now rewrite length_map, length_seq.
Qed.

(** X11: [get_random_float] is asked for as many numbers as the region has
    rows, and the column of weights is multiplied by what it returns.
    Whatever the number of rows (none and one included, one being the case
    in which it returns a single float and not an array), row [i] is
    multiplied by the [i]-th number drawn, and as many numbers are used up
    as there are rows. *)
Theorem one_random_number_per_row (st : State) (a : list cell) :
  forallb is_num a = true ->
  (rnd <- sampling_code.get_random_float (List.length a) ;; lift (pd.mul_random a rnd)) st =
  (Ok (map (fun cu => Num (num (fst cu) * snd cu)%float)
           (combine a (map (tape st) (seq (drawn st) (List.length a))))),
   set_drawn (drawn st + List.length a) st).
Proof.
  intros Ha. rewrite (bind_eq _ _ _ _ (get_random_float_run st (List.length a))).
  unfold lift. cbn [tape drawn set_drawn]. rewrite (mul_random_value a _ _ Ha).
  f_equal. destruct (List.length a =? 1)%nat eqn:E; [| reflexivity].
  apply Nat.eqb_eq in E. rewrite E. now rewrite Nat.add_1_r.
Qed.

Lemma one_random_number_per_row_witness :
  (rnd <- sampling_code.get_random_float (List.length [Num 2]) ;;
   lift (pd.mul_random [Num 2] rnd)) (rerun None) =
  (Ok (map (fun cu => Num (num (fst cu) * snd cu)%float)
           (combine [Num 2]
                    (map (tape (rerun None)) (seq (drawn (rerun None)) (List.length [Num 2]))))),
   set_drawn (drawn (rerun None) + List.length [Num 2]) (rerun None)).
Proof.
  apply (one_random_number_per_row (rerun None) [Num 2]). reflexivity.
Defined.

(** ** The sampler's ranking *)

Lemma combine_map_l {A B C} (f : A -> B) (l : list A) (us : list C) :
  combine (map f l) us = map (fun p => (f (fst p), snd p)) (combine l us).
Proof.
  revert us. induction l as [| x l IH]; intros [| u us]; cbn; try reflexivity.
  now rewrite IH.
Qed.

Lemma filter_weight_add_column (cols : list string) :
  filter (fun c => negb (mem c ["weight"])) (add_column "weight" cols) =
  filter (fun c => negb (mem c ["weight"])) cols.
Proof.
  unfold add_column. destruct (mem "weight" cols); [reflexivity |].
  rewrite filter_app. cbn. apply app_nil_r.
Qed.

Lemma firstn_min {A} (n : nat) (l : list A) : firstn (Nat.min n (List.length l)) l = firstn n l.
Proof.
  revert n. induction l as [| x l IH]; intros [| n]; cbn; try reflexivity.
  now rewrite IH.
Qed.

Lemma head_rows (n : Z) (d : DataFrame) :
  rows (pd.head n d) = firstn (slice_stop n (List.length (rows d))) (rows d).
Proof.
  unfold pd.head, slice_stop. cbn [rows].
  destruct (0 <=? n)%Z; [now rewrite firstn_min | reflexivity].
Qed.

Lemma alike_columns (w : string) (L L' : list Row) :
  List.length L = List.length L' ->
  (forall c, c <> w -> map (get c) L = map (get c) L') ->
  Forall2 (fun r r' => forall c, c <> w -> get c r = get c r') L L'.
Proof.
  revert L'. induction L as [| r L IH]; intros [| r' L'] Hlen Hcol; cbn in *;
    try discriminate; constructor.
  - intros c Hc. specialize (Hcol c Hc). now injection Hcol.
  - apply IH; [lia |]. intros c Hc. specialize (Hcol c Hc). now injection Hcol.
Qed.

Lemma alike_combine (rel : Row -> Row -> Prop) (ks : list float) (L L' : list Row) :
  Forall2 rel L L' ->
  Forall2 (fun a b => fst a = fst b /\ rel (snd a) (snd b)) (combine ks L) (combine ks L').
Proof.
  intros H. revert ks. induction H as [| r r' L L' Hr HL IH]; intros [| k ks]; cbn;
    constructor; auto.
Qed.

Lemma alike_get (w c : string) (l l' : list (float * Row)) :
  c <> w ->
  Forall2 (fun a b => fst a = fst b /\ forall c, c <> w -> get c (snd a) = get c (snd b)) l l' ->
  map (get c) (map snd l) = map (get c) (map snd l').
Proof.
  intros Hc. induction 1 as [| a b l l' [_ H] Hl IH]; cbn; [reflexivity |].
  now rewrite IH, H.
Qed.

(** What the sampler returns for a region, on a table that has the two
    columns it reads, with numbers for turnover: the candidates ranked by
    their randomised weights, cut off where the slice stops, without the
    column of weights. *)
Lemma replacement_locations_value_ranked (tape : nat -> float) (drawn : nat) (d : DataFrame)
    (region : cell) (n : Z) :
  mem "Region" (columns d) = true ->
  mem "Sum_Turnov" (columns d) = true ->
  numeric "Sum_Turnov" d = true ->
  exists total d',
    pd.sum (map (get "Sum_Turnov") (candidates region d)) = Ok (Num total) /\
    replacement_locations_value tape drawn d region n = Ok d' /\
    columns d' = filter (fun c => negb (mem c ["weight"])) (columns d) /\
    List.length (rows d') = slice_stop n (List.length (candidates region d)) /\
    forall c, c <> "weight" ->
      map (get c) (rows d') =
      firstn (slice_stop n (List.length (candidates region d)))
             (map (get c)
                  (map snd (pd.sort_desc
                              (combine (randomised_weights tape drawn total
                                          (candidates region d))
                                       (candidates region d))))).
Proof.
  intros MR MS NS. set (cand := candidates region d).
  unfold replacement_locations_value.
  rewrite (getitem_mem "Region" d MR). cbn [obind].
  unfold pd.eq. rewrite map_map, boolean_index_map.
  change (filter _ (rows d)) with cand.
  unfold pd.reset_index. cbn [columns rows].
  set (R1 := relabel cand).
  assert (L0 : List.length R1 = List.length cand) by apply length_relabel.
  assert (C1 : forall c, map (get c) R1 = map (get c) cand)
    by (intros c; apply get_relabel).
  rewrite (getitem_mem "Sum_Turnov" (mkDF (columns d) R1) MS). cbn [obind rows].
  assert (N1 : forallb is_num (map (get "Sum_Turnov") R1) = true).
  { rewrite C1. rewrite forallb_forall. intros c Hc.
    apply in_map_iff in Hc. destruct Hc as (r & <- & Hr).
    apply filter_In in Hr. destruct Hr as [Hr _].
    unfold numeric in NS. rewrite forallb_forall in NS. now apply NS. }
  destruct (sum_numeric _ N1) as [total Hsum]. rewrite Hsum. cbn [obind].
  exists total.
  unfold pd.truediv_scalar.
  rewrite (series_map_numeric _ (fun x => Num (x / total)%float)) by auto. cbn [obind].
  set (w1 := map _ (map (get "Sum_Turnov") R1)).
  assert (L1 : List.length w1 = List.length R1) by (unfold w1; now rewrite !length_map).
  assert (Nw1 : forallb is_num w1 = true).
  { unfold w1. rewrite forallb_forall. intros c Hc. apply in_map_iff in Hc.
    destruct Hc as (c0 & <- & _). reflexivity. }
  set (d2 := pd.setitem "weight" w1 _).
  set (R2 := rows d2).
  assert (L2 : List.length R2 = List.length R1).
  { unfold R2, d2, pd.setitem. cbn [rows]. now apply setitem_rows_length. }
  assert (C2 : forall c, c <> "weight" -> map (get c) R2 = map (get c) R1).
  { intros c Hc. unfold R2, d2, pd.setitem. cbn [rows]. now apply setitem_rows_other. }
  rewrite (getitem_mem "weight" d2) by apply mem_add_column_new. cbn [obind].
  fold R2.
  replace (map (get "weight") R2) with w1
    by (symmetry; unfold R2, d2, pd.setitem; cbn [rows]; now apply setitem_rows_same).
  replace (List.length R2) with (List.length w1) by congruence.
  rewrite (mul_random_value w1 tape drawn Nw1). cbn [obind].
  set (w2 := map _ (combine w1 _)).
  assert (Lw2 : List.length w2 = List.length w1).
  { unfold w2. rewrite length_map, length_combine, length_map, length_seq. lia. }
  assert (Nw2 : forallb is_num w2 = true).
  { unfold w2. rewrite forallb_forall. intros c Hc. apply in_map_iff in Hc.
    destruct Hc as (c0 & <- & _). reflexivity. }
  set (d3 := pd.setitem "weight" w2 d2).
  set (R3 := rows d3).
  assert (Lw23 : List.length w2 = List.length R2) by congruence.
  assert (L3 : List.length R3 = List.length R2).
  { unfold R3, d3, pd.setitem. cbn [rows]. now apply setitem_rows_length. }
  assert (C3 : forall c, c <> "weight" -> map (get c) R3 = map (get c) R2).
  { intros c Hc. unfold R3, d3, pd.setitem. cbn [rows]. now apply setitem_rows_other. }
  unfold pd.sort_values_desc.
  rewrite (getitem_mem "weight" d3) by apply mem_add_column_new. cbn [obind].
  fold R3.
  replace (map (get "weight") R3) with w2
    by (symmetry; unfold R3, d3, pd.setitem; cbn [rows]; now apply setitem_rows_same).
  rewrite (series_map_numeric pd.sort_key (fun x => x)) by auto. cbn [obind].
  assert (Hkeys : map num w2 = randomised_weights tape drawn total cand).
  { unfold w2, w1, randomised_weights. rewrite C1, !length_map.
    rewrite (map_map (get "Sum_Turnov")), combine_map_l, !map_map.
    apply map_ext. intros [r u]. reflexivity. }
  cbv beta. change (map (fun c : cell => num c) w2) with (map num w2). rewrite Hkeys.
  set (ws := randomised_weights tape drawn total cand).
  set (P := map snd (pd.sort_desc (combine ws R3))).
  assert (HP : Permutation P R3).
  { unfold P. rewrite sort_desc_perm. rewrite map_snd_combine; [reflexivity |].
    unfold ws. rewrite <- Hkeys, length_map. congruence. }
  unfold pd.drop. cbn [columns rows].
  rewrite find_missing_none
    by (cbn [forallb]; rewrite andb_true_r; apply mem_add_column_new).
  eexists. split; [now rewrite <- (C1 "Sum_Turnov") |]. split; [reflexivity |].
  assert (LP : List.length P = List.length cand)
    by (rewrite (Permutation_length HP); congruence).
  split; [| split].
  - cbn [columns pd.head]. unfold d3, d2. cbn [pd.setitem columns].
    now rewrite !filter_weight_add_column.
  - rewrite head_rows. cbn [rows]. unfold relabel.
    rewrite length_map, length_relabel, LP, length_firstn, length_map, length_relabel, LP.
    unfold slice_stop. destruct (0 <=? n)%Z; lia.
  - intros c Hc. rewrite head_rows. cbn [rows]. unfold relabel.
    rewrite length_map, length_relabel, LP.
    rewrite <- firstn_map. f_equal. rewrite map_map.
    transitivity (map (get c) P).
    + rewrite <- (get_relabel c 0 P). apply map_ext. intros r.
      unfold get. cbn [cells]. apply lookup_filter_other.
      rewrite mem_one. now apply String.eqb_neq.
    + unfold P. apply (alike_get "weight"); [assumption |].
      apply (sort_desc_alike (fun r r' => forall c, c <> "weight" -> get c r = get c r')).
      apply (alike_combine (fun r r' => forall c, c <> "weight" -> get c r = get c r')).
      apply alike_columns; [congruence |].
      intros c' Hc'. now rewrite C3, C2, C1.
Qed.

(** ** The sampler, run to the end *)

Lemma series_map_length {B} (f : cell -> outcome B) (a : list cell) (b : list B) :
  pd.series_map f a = Ok b -> List.length b = List.length a.
Proof.
  revert b. induction a as [| x a IH]; intros b; cbn.
  - intros H. now injection H as <-.
  - destruct (f x); cbn; [| discriminate].
    destruct (pd.series_map f a) as [vs |]; cbn; [| discriminate].
    intros H. injection H as <-. cbn. now rewrite (IH vs).
Qed.

Lemma getitem_Ok (c : string) (d : DataFrame) (v : list cell) :
  pd.getitem c d = Ok v -> v = map (get c) (rows d).
Proof. unfold pd.getitem. destruct (mem c (columns d)); [| discriminate]. congruence. Qed.

(** A successful call of the sampler, with what it leaves behind: new
    objects after the old ones, the selection last; the disk, [args] and
    the random source as they were, and one random number used up for each
    candidate. *)
Lemma generate_replacement_locations_ok (st : State) (df : ref) (d d' : DataFrame)
    (region : cell) (n_locations : Z) :
  nth_error (heap st) df = Some d ->
  replacement_locations_value (tape st) (drawn st) d region n_locations = Ok d' ->
  exists junk st',
    sampling_code.generate_replacement_locations df region n_locations st =
    (Ok (List.length (heap st) + 3), st') /\
    heap st' = heap st ++ junk /\
    nth_error (heap st') (List.length (heap st) + 3) = Some d' /\
    disk st' = disk st /\ args st' = args st /\ tape st' = tape st /\
    drawn st' = drawn st + List.length (candidates region d).
Proof.
  intros Hd Hv. unfold replacement_locations_value in Hv.
  unfold sampling_code.generate_replacement_locations.
  erewrite bind_eq by (apply copy_run; eassumption). cbn beta iota.
  exec getitem_top.
  destruct (pd.getitem "Region" d) as [regions |] eqn:Eregions; cbn [obind] in Hv |- *;
    [| discriminate].
  apply getitem_Ok in Eregions. subst regions.
  exec boolean_index_top.
  exec reset_index_top.
  unfold pd.eq in Hv |- *. rewrite map_map, boolean_index_map in Hv |- *.
  change (filter _ (rows d)) with (candidates region d) in Hv |- *.
  set (regional := pd.reset_index _) in *.
  assert (LR : List.length (rows regional) = List.length (candidates region d))
    by apply length_relabel.
  exec getitem_top.
  destruct (pd.getitem "Sum_Turnov" regional) as [turnover |] eqn:Eturnover;
    cbn [obind] in Hv |- *; [| discriminate].
  exec_lift (pd.sum turnover); cbn [obind] in Hv; [| discriminate].
  exec getitem_top. rewrite Eturnover.
  apply getitem_Ok in Eturnover.
  destruct (pd.truediv_scalar turnover a) as [w1 |] eqn:Ew1; cbn [obind] in Hv;
    [| discriminate].
  unfold bind at 1, lift at 1.
  assert (L1 : List.length w1 = List.length (rows regional)).
  { apply series_map_length in Ew1. rewrite Ew1, Eturnover. apply length_map. }
  exec setitem_top.
  exec len_top.
  erewrite bind_eq by apply get_random_float_run. cbn beta iota.
  exec getitem_top. cbn [tape drawn set_heap set_drawn] in Hv |- *.
  destruct (pd.getitem "weight" _) as [weight |]; cbn [obind] in Hv |- *; [| discriminate].
  destruct (pd.mul_random weight _) as [w2 |]; cbn [obind] in Hv; [| discriminate].
  unfold bind at 1, lift at 1.
  exec setitem_top.
  exec sort_top.
  destruct (pd.sort_values_desc "weight" _) as [sorted |]; cbn [obind] in Hv |- *;
    [| discriminate].
  exec drop_top.
  destruct (pd.drop ["weight"] _) as [dropped |]; cbn [obind] in Hv |- *; [| discriminate].
  injection Hv as <-.
  erewrite head_top by (cbn; reflexivity).
  cbn [heap set_heap set_drawn disk args tape drawn].
  set (h3 := ((heap st ++ [d]) ++ [_]) ++ [_]).
  assert (L : List.length h3 = List.length (heap st) + 3).
  { unfold h3. rewrite !length_app. cbn. lia. }
  rewrite L.
  eexists. eexists. split; [reflexivity |].
  cbn [heap set_heap set_drawn disk args tape drawn].
  split; [unfold h3; rewrite <- !app_assoc; reflexivity |].
  split; [rewrite <- L; apply nth_error_snoc_new |].
  do 3 (split; [reflexivity |]).
  assert (S : List.length (rows (pd.setitem "weight" w1 regional)) =
              List.length (candidates region d)).
  { unfold pd.setitem. cbn [rows]. rewrite setitem_rows_length by assumption. exact LR. }
  rewrite S. destruct (_ =? 1)%nat eqn:E; [| reflexivity].
  apply Nat.eqb_eq in E. rewrite E. lia.
Qed.

(** ** What the sampler selects *)

Lemma ranking_of_candidates (ws : list float) (cand : list Row) :
  List.length ws = List.length cand ->
  Permutation (map snd (pd.sort_desc (combine ws cand))) cand.
Proof.
  intros H. rewrite (Permutation_map snd (sort_desc_perm _)).
  now rewrite map_snd_combine.
Qed.

Lemma randomised_weights_length (tape : nat -> float) (drawn : nat) (total : float)
    (cand : list Row) :
  List.length (randomised_weights tape drawn total cand) = List.length cand.
Proof.
  unfold randomised_weights. rewrite length_map, length_combine, length_map, length_seq. lia.
Qed.

(** X12: The sampler ranks the candidates of the region by weight, the weight
    of a candidate being its share of the region's turnover times the
    random number drawn for it, larger weights first and missing weights
    last, and returns the rows up to where the slice [[:n]] stops: the
    first [n] of them, or all when there are fewer; for a negative [n], all
    but the last [-n].  The table returned has the columns of the input
    but for a column named weight, and one random number is used up for
    each candidate. *)
Theorem selection_is_by_randomised_weight (st : State) (df : ref) (d : DataFrame)
    (region : cell) (n : Z) :
  nth_error (heap st) df = Some d ->
  mem "Region" (columns d) = true ->
  mem "Sum_Turnov" (columns d) = true ->
  numeric "Sum_Turnov" d = true ->
  exists out d' st' total ranking,
    sampling_code.generate_replacement_locations df region n st = (Ok out, st') /\
    nth_error (heap st') out = Some d' /\
    pd.sum (map (get "Sum_Turnov") (candidates region d)) = Ok (Num total) /\
    Permutation ranking
      (combine (randomised_weights (tape st) (drawn st) total (candidates region d))
               (candidates region d)) /\
    descending ranking /\
    columns d' = filter (fun c => negb (mem c ["weight"])) (columns d) /\
    (forall c, c <> "weight" ->
       map (get c) (rows d') =
       firstn (slice_stop n (List.length (candidates region d)))
              (map (get c) (map snd ranking))) /\
    drawn st' = drawn st + List.length (candidates region d).
Proof.
  intros Hd MR MS NS.
  destruct (replacement_locations_value_ranked (tape st) (drawn st) d region n MR MS NS)
    as (total & d' & Hsum & Hv & Hcols & _ & Hrows).
  destruct (generate_replacement_locations_ok st df d d' region n Hd Hv)
    as (junk & st' & Hrun & _ & Hout & _ & _ & _ & Hdrawn).
  exists (List.length (heap st) + 3), d', st', total.
  eexists. split; [exact Hrun |]. split; [exact Hout |]. split; [exact Hsum |].
  split; [apply sort_desc_perm |]. split; [apply sort_desc_descending |].
  split; [exact Hcols |]. split; [exact Hrows | exact Hdrawn].
Qed.

Lemma selection_is_by_randomised_weight_witness :
  exists out d' st' total ranking,
    sampling_code.generate_replacement_locations 0 (Str "North") (-1) (holding example_frame)
    = (Ok out, st') /\
    nth_error (heap st') out = Some d' /\
    pd.sum (map (get "Sum_Turnov") (candidates (Str "North") example_frame)) = Ok (Num total) /\
    Permutation ranking
      (combine (randomised_weights (tape (holding example_frame))
                  (drawn (holding example_frame)) total
                  (candidates (Str "North") example_frame))
               (candidates (Str "North") example_frame)) /\
    descending ranking /\
    columns d' = filter (fun c => negb (mem c ["weight"])) (columns example_frame) /\
    (forall c, c <> "weight" ->
       map (get c) (rows d') =
       firstn (slice_stop (-1) (List.length (candidates (Str "North") example_frame)))
              (map (get c) (map snd ranking))) /\
    drawn st' = drawn (holding example_frame)
                + List.length (candidates (Str "North") example_frame).
Proof.
  apply (selection_is_by_randomised_weight (holding example_frame) 0 example_frame
           (Str "North") (-1)); reflexivity.
Defined.

Lemma candidates_of_missing (region : cell) (d : DataFrame) :
  isna region = true -> candidates region d = [].
Proof.
  intros H. unfold candidates.
  induction (rows d) as [| r rs IH]; cbn [filter]; [reflexivity |].
  replace (cell_eq (get "Region" r) region) with false; [exact IH |].
  destruct region as [x |]; [| discriminate]. cbn in H.
  destruct (get "Region" r); cbn; [| reflexivity].
  symmetry. now apply feqb_nan_r.
Qed.

(** X13: A location without a region is never selected.  The loop of [main]
    takes the missing value as one of the regions when some row has none;
    for it the sampler finds no candidate, uses no random number and
    returns a table without rows. *)
Theorem missing_region_selects_nothing (st : State) (df : ref) (d : DataFrame)
    (region : cell) (n : Z) :
  nth_error (heap st) df = Some d ->
  mem "Region" (columns d) = true ->
  mem "Sum_Turnov" (columns d) = true ->
  numeric "Sum_Turnov" d = true ->
  isna region = true ->
  exists out d' st',
    sampling_code.generate_replacement_locations df region n st = (Ok out, st') /\
    nth_error (heap st') out = Some d' /\
    rows d' = [] /\
    drawn st' = drawn st.
Proof.
  intros Hd MR MS NS Hna.
  destruct (replacement_locations_value_ranked (tape st) (drawn st) d region n MR MS NS)
    as (total & d' & _ & Hv & _ & Hlen & _).
  destruct (generate_replacement_locations_ok st df d d' region n Hd Hv)
    as (junk & st' & Hrun & _ & Hout & _ & _ & _ & Hdrawn).
  rewrite (candidates_of_missing region d Hna) in Hlen, Hdrawn. cbn [List.length] in *.
  exists (List.length (heap st) + 3), d', st'.
  split; [exact Hrun |]. split; [exact Hout |]. split.
  - destruct (rows d'); [reflexivity |].
    unfold slice_stop in Hlen. destruct (0 <=? n)%Z; cbn in Hlen; lia.
  - lia.
Qed.

Lemma missing_region_selects_nothing_witness :
  exists out d' st',
    sampling_code.generate_replacement_locations 0 NaN 5 (holding example_frame)
    = (Ok out, st') /\
    nth_error (heap st') out = Some d' /\
    rows d' = [] /\
    drawn st' = drawn (holding example_frame).
Proof.
  apply (missing_region_selects_nothing (holding example_frame) 0 example_frame NaN 5);
    reflexivity.
Defined.

(** X14: The sampler on a table that lacks one of the two columns it reads
    raises a [KeyError] for that column.  Nothing is drawn from the random
    source and nothing is written, and the table is still in the store as
    it was. *)
Theorem sampler_missing_column (st : State) (df : ref) (d : DataFrame) (region : cell)
    (n : Z) :
  nth_error (heap st) df = Some d ->
  forallb (fun c => mem c (columns d)) ["Region"; "Sum_Turnov"] = false ->
  exists k st',
    sampling_code.generate_replacement_locations df region n st = (Raise (KeyError k), st') /\
    find (fun c => negb (mem c (columns d))) ["Region"; "Sum_Turnov"] = Some k /\
    drawn st' = drawn st /\ disk st' = disk st /\
    nth_error (heap st') df = Some d.
Proof.
  intros Hd Hmiss. unfold sampling_code.generate_replacement_locations.
  erewrite bind_eq by (apply copy_run; eassumption). cbn beta iota.
  exec getitem_top. unfold pd.getitem at 1. cbn [find forallb] in Hmiss |- *.
  destruct (mem "Region" (columns d)) eqn:MR; cbn [negb andb] in Hmiss |- *.
  - exec boolean_index_top. exec reset_index_top. exec getitem_top.
    unfold pd.getitem. cbn [pd.reset_index pd.boolean_index columns].
    rewrite andb_true_r in Hmiss. rewrite Hmiss. cbn [negb].
    do 2 eexists. split; [reflexivity |]. split; [reflexivity |].
    cbn [heap set_heap set_drawn disk args tape drawn].
    do 2 (split; [reflexivity |]).
    rewrite <- !app_assoc. now apply nth_error_app_old.
  - do 2 eexists. split; [reflexivity |]. split; [reflexivity |].
    cbn [heap set_heap set_drawn disk args tape drawn].
    do 2 (split; [reflexivity |]). now apply nth_error_snoc_old.
Qed.

Lemma sampler_missing_column_witness :
  exists k st',
    sampling_code.generate_replacement_locations 0 (Str "North") 5 (holding example_merged)
    = (Raise (KeyError k), st') /\
    find (fun c => negb (mem c (columns example_merged))) ["Region"; "Sum_Turnov"] = Some k /\
    drawn st' = drawn (holding example_merged) /\ disk st' = disk (holding example_merged) /\
    nth_error (heap st') 0 = Some example_merged.
Proof.
  apply (sampler_missing_column (holding example_merged) 0 example_merged (Str "North") 5);
    reflexivity.
Defined.

(** ** The sampling, run *)

Lemma load_df_run (st : State) (in_file : string) (s : sheet) :
  find_file in_file (files (disk st)) =
  Some (if sampling_code.is_file_excel in_file then Xlsx s else Csv s) ->
  sampling_code.load_df in_file st =
  (Ok (List.length (heap st)), set_heap (heap st ++ [of_sheet s]) st).
Proof.
  intros H. unfold sampling_code.load_df, read_excel, read_csv.
  destruct (sampling_code.is_file_excel in_file); now rewrite H.
Qed.

Lemma for_each_region_run (df : ref) (d : DataFrame) (n : Z) (regions : list cell) :
  forall (st : State) (tables : list DataFrame),
  nth_error (heap st) df = Some d ->
  for_each_region_value (tape st) (drawn st) d n regions = Ok tables ->
  exists refs junk st',
    sampling_code.for_each_region df n regions st = (Ok refs, st') /\
    Forall2 (fun r t => nth_error (heap st') r = Some t) refs tables /\
    heap st' = heap st ++ junk /\
    disk st' = disk st /\ args st' = args st /\ tape st' = tape st /\
    drawn st' =
    drawn st + list_sum (map (fun region => List.length (candidates region d)) regions).
Proof.
  induction regions as [| region regions IH]; intros st tables Hd Hv;
    cbn [for_each_region_value sampling_code.for_each_region] in *.
  - injection Hv as <-. exists [], [], st. cbn. rewrite app_nil_r, Nat.add_0_r.
    repeat split; constructor.
  - destruct (replacement_locations_value _ _ d region n) as [locs |] eqn:V;
      cbn [obind] in Hv; [| discriminate].
    destruct (for_each_region_value _ _ d n regions) as [lst |] eqn:W;
      cbn [obind] in Hv; [| discriminate].
    injection Hv as <-.
    destruct (generate_replacement_locations_ok st df d locs region n Hd V)
      as (junk & st1 & Hrun & Hheap & Hout & Hdisk & Hargs & Htape & Hdrawn).
    rewrite (bind_eq _ _ _ _ Hrun). cbn beta iota.
    destruct (IH st1 lst) as (refs & junk' & st' & Hrun' & Hrefs & Hheap' & Hdisk' & Hargs'
                              & Htape' & Hdrawn').
    { rewrite Hheap. now apply nth_error_app_old. }
    { now rewrite Htape, Hdrawn. }
    rewrite (bind_eq _ _ _ _ Hrun'). cbn beta iota.
    exists (List.length (heap st) + 3 :: refs), (junk ++ junk'), st'.
    split; [reflexivity |]. split.
    { constructor; [| exact Hrefs]. rewrite Hheap'. now apply nth_error_app_old. }
    split; [now rewrite Hheap', Hheap, app_assoc |].
    split; [congruence |]. split; [congruence |]. split; [congruence |].
    rewrite Hdrawn', Hdrawn. unfold list_sum. cbn [map fold_right]. lia.
Qed.

Lemma deref_all_run (st : State) (refs : list ref) (tables : list DataFrame) :
  Forall2 (fun r t => nth_error (heap st) r = Some t) refs tables ->
  deref_all refs st = (Ok tables, st).
Proof.
  induction 1 as [| r t refs tables Hr Hrest IH]; cbn [deref_all]; [reflexivity |].
  rewrite (bind_eq _ _ _ _ (deref_ok _ _ _ Hr)). cbn beta iota.
  now rewrite (bind_eq _ _ _ _ IH).
Qed.

(** [main] up to the point where it writes: the table to be written is in
    the store, and the disk and [args] are as they were. *)
Lemma sampling_main_run (st : State) (infile outfile : string) (n : Z) (force : bool)
    (s : sheet) (result : DataFrame) :
  find_file infile (files (disk st)) =
  Some (if sampling_code.is_file_excel infile then Xlsx s else Csv s) ->
  sampling_value (tape st) (drawn st) (of_sheet s) n = Ok result ->
  exists df_new_locs st1,
    sampling_code.main infile outfile n force st =
    sampling_code.write_df df_new_locs outfile force st1 /\
    nth_error (heap st1) df_new_locs = Some result /\
    disk st1 = disk st /\ args st1 = args st /\
    drawn st1 =
    drawn st + list_sum (map (fun region => List.length (candidates region (of_sheet s)))
                             (regions_of (of_sheet s))).
Proof.
  intros Hfile Hv. unfold sampling_value in Hv. set (d := of_sheet s) in *.
  unfold sampling_code.main. cbn zeta.
  rewrite (bind_eq _ _ _ _ (load_df_run _ _ _ Hfile)). cbn beta iota. fold d.
  exec getitem_top.
  destruct (pd.getitem "Region" d) as [region_column |] eqn:G; cbn [obind] in Hv |- *;
    [| discriminate].
  apply getitem_Ok in G. subst region_column. fold (regions_of d) in Hv |- *.
  destruct (for_each_region_value _ _ d n (regions_of d)) as [tables |] eqn:W;
    cbn [obind] in Hv; [| discriminate].
  destruct (for_each_region_run (List.length (heap st)) d n (regions_of d)
              (set_heap (heap st ++ [d]) st) tables)
    as (refs & junk & st1 & Hrun & Hrefs & Hheap & Hdisk & Hargs & Htape & Hdrawn);
    [cbn; apply nth_error_snoc_new | exact W |].
  rewrite (bind_eq _ _ _ _ Hrun). cbn beta iota.
  unfold concat at 1.
  rewrite (bind_eq _ _ _ _ (bind_eq _ _ _ _ (deref_all_run _ _ _ Hrefs))).
  cbn beta iota. unfold bind at 1, lift at 1. rewrite Hv. unfold new.
  do 2 eexists. split; [reflexivity |].
  cbn [heap set_heap disk args drawn].
  split; [apply nth_error_snoc_new |]. split; [exact Hdisk |]. split; [exact Hargs |].
  exact Hdrawn.
Qed.

Lemma write_df_run (st : State) (df : ref) (d : DataFrame) (out_file : string)
    (overwrite : bool) :
  nth_error (heap st) df = Some d ->
  can_write_table (disk st) out_file overwrite = true ->
  sampling_code.write_df df out_file overwrite st =
  (Ok tt, set_disk (write_file out_file (table_file out_file d) (disk st)) st).
Proof.
  intros Hd Hw. unfold can_write_table in Hw. rewrite !andb_true_iff, negb_true_iff in Hw.
  destruct Hw as [[Hparent Hdir] Hfree].
  unfold sampling_code.write_df, table_file.
  unfold bind at 1, path_exists at 1. rewrite Hparent, orb_true_r. cbn [negb].
  unfold bind at 1, ret at 1.
  unfold bind at 1, path_exists at 1. rewrite Hdir, orb_false_r.
  assert (G : is_file (disk st) out_file && negb overwrite = false).
  { destruct overwrite; [apply andb_false_r |]. cbn in Hfree.
    apply negb_true_iff in Hfree. now rewrite Hfree. }
  rewrite G. unfold bind at 1, ret at 1.
  destruct (sampling_code.is_file_excel out_file) eqn:Ex;
    unfold to_excel, to_csv;
    rewrite (bind_eq _ _ _ _ (deref_ok _ _ _ Hd)); cbn beta iota;
    unfold write_to; now rewrite Hdir, Hparent.
Qed.

(** ** What the sampling writes *)

Lemma for_each_region_value_ok (tape : nat -> float) (d : DataFrame) (n : Z) :
  mem "Region" (columns d) = true ->
  mem "Sum_Turnov" (columns d) = true ->
  numeric "Sum_Turnov" d = true ->
  forall (regions : list cell) (drawn : nat),
  exists tables,
    for_each_region_value tape drawn d n regions = Ok tables /\
    Forall2 (fun region t =>
               columns t = filter (fun c => negb (mem c ["weight"])) (columns d) /\
               List.length (rows t) = slice_stop n (List.length (candidates region d)) /\
               exists P,
                 Permutation P (candidates region d) /\
                 forall c, c <> "weight" ->
                   map (get c) (rows t) =
                   firstn (slice_stop n (List.length (candidates region d))) (map (get c) P))
            regions tables.
Proof.
  intros MR MS NS. induction regions as [| region regions IH]; intros drawn;
    cbn [for_each_region_value].
  - exists []. split; [reflexivity | constructor].
  - destruct (replacement_locations_value_ranked tape drawn d region n MR MS NS)
      as (total & t & _ & -> & Hcols & Hlen & Hrows).
    destruct (IH (drawn + List.length (candidates region d))) as (tables & -> & Hall).
    cbn [obind]. exists (t :: tables). split; [reflexivity |].
    constructor; [| exact Hall].
    split; [exact Hcols |]. split; [exact Hlen |].
    eexists. split; [| exact Hrows].
    apply ranking_of_candidates, randomised_weights_length.
Qed.

Lemma filter_none {A} (f : A -> bool) (l : list A) :
  (forall x, In x l -> f x = false) -> filter f l = [].
Proof.
  induction l as [| x l IH]; cbn; [reflexivity |].
  intros H. rewrite (H x) by now left. apply IH. intros y Hy. apply H. now right.
Qed.

Lemma filter_all {A} (f : A -> bool) (l : list A) :
  (forall x, In x l -> f x = true) -> filter f l = l.
Proof.
  induction l as [| x l IH]; cbn; [reflexivity |].
  intros H. rewrite (H x) by now left. f_equal. apply IH. intros y Hy. apply H. now right.
Qed.

Lemma union_same_columns (cs : list string) (frames : list DataFrame) :
  (forall t, In t frames -> columns t = cs) -> pd.union_columns cs frames = cs.
Proof.
  induction frames as [| t frames IH]; cbn [pd.union_columns]; [reflexivity |].
  intros H. rewrite (H t) by now left.
  rewrite filter_none, app_nil_r.
  - apply IH. intros t' Ht'. apply H. now right.
  - intros c Hc. apply negb_false_iff. now apply mem_In.
Qed.

Lemma get_projected (c : string) (cs : list string) (r : Row) (z : Z) :
  In c cs -> get c (mkRow z (map (fun c0 => (c0, get c0 r)) cs)) = get c r.
Proof. intros H. unfold get. cbn [cells]. now apply lookup_proj. Qed.

(** [pd.concat] of tables that all have the columns [cs]: the rows of the
    tables one after the other, under the columns [cs]. *)
Lemma concat_same_columns (cs : list string) (t : DataFrame) (frames : list DataFrame) :
  (forall t', In t' (t :: frames) -> columns t' = cs) ->
  exists result,
    pd.concat (t :: frames) = Ok result /\
    columns result = cs /\
    List.length (rows result) = list_sum (map (fun t' => List.length (rows t')) (t :: frames)) /\
    forall c, In c cs ->
      map (get c) (rows result) = flat_map (fun t' => map (get c) (rows t')) (t :: frames).
Proof.
  intros H. unfold pd.concat.
  assert (U : pd.union_columns [] (t :: frames) = cs).
  { cbn [pd.union_columns app]. rewrite (H t) by now left.
    rewrite filter_all by reflexivity.
    apply union_same_columns. intros t' Ht'. apply H. now right. }
  rewrite U. eexists. split; [reflexivity |]. split; [reflexivity |].
  cbn [rows]. split.
  - unfold relabel. rewrite length_relabel, length_map.
    generalize (t :: frames). intros l. induction l as [| x l IH]; [reflexivity |].
    cbn [flat_map map]. rewrite length_app, IH. reflexivity.
  - intros c Hc. unfold relabel. rewrite get_relabel, map_map.
    generalize (t :: frames). intros l. induction l as [| x l IH]; [reflexivity |].
    cbn [flat_map]. rewrite map_app, IH. f_equal.
    apply map_ext. intros r. now apply get_projected.
Qed.

Lemma unique_starts (a : list cell) : a <> [] -> pd.unique a <> [].
Proof. destruct a; [congruence | discriminate]. Qed.

(** On an input the sampling accepts, the table to be written can be
    computed: it has the columns of the input but for a column named
    weight, and its rows are the selections of the regions, one region
    after the other. *)
Lemma sampling_value_ok (tape : nat -> float) (drawn : nat) (d : DataFrame) (n : Z) :
  sampling_ready d = true ->
  exists result tables,
    sampling_value tape drawn d n = Ok result /\
    Forall2 (fun region t =>
               exists P,
                 Permutation P (candidates region d) /\
                 forall c, c <> "weight" ->
                   map (get c) (rows t) =
                   firstn (slice_stop n (List.length (candidates region d))) (map (get c) P))
            (regions_of d) tables /\
    columns result = filter (fun c => negb (mem c ["weight"])) (columns d) /\
    List.length (rows result) =
    list_sum (map (fun region => slice_stop n (List.length (candidates region d)))
                  (regions_of d)) /\
    forall c, In c (columns d) -> c <> "weight" ->
      map (get c) (rows result) = flat_map (fun t => map (get c) (rows t)) tables.
Proof.
  unfold sampling_ready. rewrite !andb_true_iff, negb_true_iff, Nat.eqb_neq.
  intros [[[Hrows MR] MS] NS].
  destruct (for_each_region_value_ok tape d n MR MS NS (regions_of d) drawn)
    as (tables & Hv & Hall).
  unfold sampling_value. rewrite (getitem_mem "Region" d MR). cbn [obind].
  fold (regions_of d). rewrite Hv. cbn [obind].
  assert (Hne : regions_of d <> []).
  { apply unique_starts. destruct (rows d); [contradiction | discriminate]. }
  destruct tables as [| t tables]; [inversion Hall; congruence |].
  destruct (concat_same_columns (filter (fun c => negb (mem c ["weight"])) (columns d))
              t tables) as (result & Hc & Hcols & Hlen & Hget).
  { intros t' Ht'. clear - Hall Ht'. induction Hall as [| r x rs xs Hx _ IH]; [contradiction |].
    destruct Ht' as [<- | Ht']; [apply Hx | now apply IH]. }
  exists result, (t :: tables). split; [exact Hc |]. split.
  { clear - Hall. induction Hall as [| r x rs xs (_ & _ & Hx) _ IH]; constructor; assumption. }
  split; [exact Hcols |]. split.
  - rewrite Hlen. clear - Hall.
    induction Hall as [| r x rs xs (_ & Hx & _) _ IH]; [reflexivity |].
    unfold list_sum in *. cbn [map fold_right]. now rewrite IH, Hx.
  - intros c Hc' Hne'. apply Hget. apply filter_In. split; [assumption |].
    rewrite mem_one. apply negb_true_iff. now apply String.eqb_neq.
Qed.

(** X15: On a readable input with a row, the two columns the sampler reads
    and numbers for turnover, and with the output file writable, [main]
    returns normally.  The file it writes holds the columns of the input
    but for a column named weight and, for each region in the order of its
    first row, as many rows as the slice [[:n]] leaves of the region's
    rows: the smaller of [n] and their number.  One random number is used
    up for each row that has a region. *)
Theorem replacement_sampling_succeeds (st : State) (infile outfile : string) (n : Z)
    (force : bool) (s : sheet) :
  find_file infile (files (disk st)) =
  Some (if sampling_code.is_file_excel infile then Xlsx s else Csv s) ->
  sampling_ready (of_sheet s) = true ->
  can_write_table (disk st) outfile force = true ->
  exists st' result,
    sampling_code.main infile outfile n force st = (Ok tt, st') /\
    find_file outfile (files (disk st')) = Some (table_file outfile result) /\
    columns result = filter (fun c => negb (mem c ["weight"])) (columns (of_sheet s)) /\
    List.length (rows result) =
    list_sum (map (fun region => slice_stop n (List.length (candidates region (of_sheet s))))
                  (regions_of (of_sheet s))) /\
    drawn st' =
    drawn st + list_sum (map (fun region => List.length (candidates region (of_sheet s)))
                             (regions_of (of_sheet s))).
Proof.
  intros Hfile Hready Hw.
  destruct (sampling_value_ok (tape st) (drawn st) (of_sheet s) n Hready)
    as (result & tables & Hv & _ & Hcols & Hlen & _).
  destruct (sampling_main_run st infile outfile n force s result Hfile Hv)
    as (ref & st1 & Hrun & Href & Hdisk & _ & Hdrawn).
  rewrite Hrun, (write_df_run st1 ref result outfile force Href) by now rewrite Hdisk.
  eexists. exists result. split; [reflexivity |].
  cbn [disk set_disk drawn]. split; [apply find_file_write_same |].
  split; [exact Hcols |]. split; [exact Hlen | exact Hdrawn].
Qed.

Lemma replacement_sampling_succeeds_witness :
  exists st' result,
    sampling_code.main "in/frame.csv" "out/locations.xlsx" 2 false sampling_run = (Ok tt, st') /\
    find_file "out/locations.xlsx" (files (disk st'))
    = Some (table_file "out/locations.xlsx" result) /\
    columns result =
    filter (fun c => negb (mem c ["weight"])) (columns (of_sheet (to_sheet false example_frame))) /\
    List.length (rows result) =
    list_sum (map (fun region =>
                     slice_stop 2 (List.length (candidates region
                                                  (of_sheet (to_sheet false example_frame)))))
                  (regions_of (of_sheet (to_sheet false example_frame)))) /\
    drawn st' =
    drawn sampling_run
    + list_sum (map (fun region =>
                       List.length (candidates region (of_sheet (to_sheet false example_frame))))
                    (regions_of (of_sheet (to_sheet false example_frame)))).
Proof.
  apply (replacement_sampling_succeeds sampling_run "in/frame.csv" "out/locations.xlsx" 2 false
           (to_sheet false example_frame)); reflexivity.
Defined.

(** ** No location is selected twice *)

Lemma unique_distinct (a : list cell) : distinct_keys (pd.unique a).
Proof.
  unfold distinct_keys. induction a as [| x a IH]; cbn [pd.unique]; constructor.
  - apply Forall_forall. intros y Hy. apply filter_In in Hy.
    destruct Hy as [_ Hy]. now apply negb_true_iff.
  - apply (distinct_keys_subseq _ (pd.unique a)); [apply subseq_filter | exact IH].
Qed.

Lemma distinct_keys_inj {A} (f : A -> cell) (l : list A) (x y : A) :
  distinct_keys (map f l) -> In x l -> In y l -> key_eqb (f x) (f y) = true -> x = y.
Proof.
  unfold distinct_keys. induction l as [| a l IH]; cbn [map In]; [tauto |].
  intros H Hx Hy E. inversion H as [| ? ? Ha Hl]; subst. rewrite Forall_forall in Ha.
  destruct Hx as [-> | Hx], Hy as [-> | Hy]; auto.
  - rewrite (Ha (f y)) in E by now apply in_map. discriminate E.
  - rewrite key_eqb_sym, (Ha (f x)) in E by now apply in_map. discriminate E.
Qed.

Lemma distinct_keys_app (a b : list cell) :
  distinct_keys a -> distinct_keys b ->
  (forall x y, In x a -> In y b -> key_eqb x y = false) ->
  distinct_keys (a ++ b).
Proof.
  unfold distinct_keys. intros Ha Hb Hab.
  induction Ha as [| x a Hx Ha IH]; cbn [app]; [exact Hb |].
  constructor.
  - apply Forall_app. split; [exact Hx |].
    apply Forall_forall. intros y Hy. apply Hab; [now left | assumption].
  - apply IH. intros x' y Hx' Hy. apply Hab; [now right | assumption].
Qed.

Lemma cell_eq_key_eqb (a b : cell) : cell_eq a b = true -> key_eqb a b = true.
Proof.
  destruct a, b; cbn; try discriminate; [| auto]. intros ->. reflexivity.
Qed.

(** Selections of different regions, taken from a table whose values in
    column [c] are all different, have no value of [c] in common. *)
Lemma selections_apart (c : string) (d : DataFrame) (n : Z) (regions : list cell)
    (tables : list DataFrame) :
  c <> "weight" ->
  distinct_keys (map (get c) (rows d)) ->
  distinct_keys regions ->
  Forall2 (fun region t =>
             exists P,
               Permutation P (candidates region d) /\
               forall c, c <> "weight" ->
                 map (get c) (rows t) =
                 firstn (slice_stop n (List.length (candidates region d))) (map (get c) P))
          regions tables ->
  distinct_keys (flat_map (fun t => map (get c) (rows t)) tables) /\
  forall v, In v (flat_map (fun t => map (get c) (rows t)) tables) ->
            exists region r, In region regions /\ In r (candidates region d) /\ v = get c r.
Proof.
  intros Hc Hd Hregions Hall.
  induction Hall as [| region t regions tables (P & HP & Ht) _ IH]; cbn [flat_map].
  - split; [constructor | contradiction].
  - unfold distinct_keys in Hregions. inversion Hregions as [| ? ? Hfirst Hrest]; subst.
    destruct (IH Hrest) as [IH1 IH2]. clear IH.
    assert (Hsub : subseq (map (get c) (rows t)) (map (get c) P))
      by (rewrite (Ht c Hc); apply subseq_firstn).
    assert (Hsrc : forall v, In v (map (get c) (rows t)) ->
                             exists r, In r (candidates region d) /\ v = get c r).
    { intros v Hv. apply (subseq_In _ _ _ Hsub) in Hv. apply in_map_iff in Hv.
      destruct Hv as (r & <- & Hr). exists r. split; [| reflexivity].
      eapply Permutation_in; eassumption. }
    split.
    + apply distinct_keys_app; [| exact IH1 |].
      * apply (distinct_keys_subseq _ _ Hsub).
        apply (distinct_keys_perm (map (get c) (candidates region d)));
          [apply Permutation_map; now apply Permutation_sym |].
        apply (distinct_keys_subseq _ (map (get c) (rows d)));
          [apply subseq_map, subseq_filter | exact Hd].
      * intros x y Hx Hy.
        destruct (Hsrc x Hx) as (r & Hr & ->).
        destruct (IH2 y Hy) as (region' & r' & Hregion' & Hr' & ->).
        destruct (key_eqb (get c r) (get c r')) eqn:E; [| reflexivity].
        unfold candidates in Hr, Hr'. apply filter_In in Hr, Hr'.
        destruct Hr as [Hr Hreg], Hr' as [Hr' Hreg'].
        assert (r = r') by (apply (distinct_keys_inj (get c) (rows d)); assumption).
        subst r'. apply cell_eq_key_eqb in Hreg, Hreg'.
        rewrite Forall_forall in Hfirst. specialize (Hfirst region' Hregion').
        rewrite key_eqb_sym in Hreg.
        rewrite (key_eqb_trans _ _ _ Hreg Hreg') in Hfirst. discriminate Hfirst.
    + intros v Hv. apply in_app_or in Hv. destruct Hv as [Hv | Hv].
      * destruct (Hsrc v Hv) as (r & Hr & ->). exists region, r. cbn [In]. auto.
      * destruct (IH2 v Hv) as (region' & r & H1 & H2 & H3).
        exists region', r. cbn [In]. auto.
Qed.

(** X16: From a table in which every FacilityID occurs once, no location is
    selected twice, neither within a region nor by two regions: in the
    table [main] writes every FacilityID occurs once, and each is the
    FacilityID of a row of the input. *)
Theorem no_location_is_selected_twice (st : State) (infile outfile : string) (n : Z)
    (force : bool) (s : sheet) :
  find_file infile (files (disk st)) =
  Some (if sampling_code.is_file_excel infile then Xlsx s else Csv s) ->
  sampling_ready (of_sheet s) = true ->
  can_write_table (disk st) outfile force = true ->
  mem "FacilityID" (columns (of_sheet s)) = true ->
  is_unique (map (get "FacilityID") (rows (of_sheet s))) = true ->
  exists st' result,
    sampling_code.main infile outfile n force st = (Ok tt, st') /\
    find_file outfile (files (disk st')) = Some (table_file outfile result) /\
    is_unique (map (get "FacilityID") (rows result)) = true /\
    forall v, In v (map (get "FacilityID") (rows result)) ->
              exists r, In r (rows (of_sheet s)) /\ v = get "FacilityID" r.
Proof.
  intros Hfile Hready Hw Hmem Hu. apply is_unique_distinct in Hu.
  destruct (sampling_value_ok (tape st) (drawn st) (of_sheet s) n Hready)
    as (result & tables & Hv & Hall & _ & _ & Hget).
  destruct (sampling_main_run st infile outfile n force s result Hfile Hv)
    as (ref & st1 & Hrun & Href & Hdisk & _ & _).
  rewrite Hrun, (write_df_run st1 ref result outfile force Href) by now rewrite Hdisk.
  eexists. exists result. split; [reflexivity |].
  cbn [disk set_disk]. split; [apply find_file_write_same |].
  rewrite (Hget "FacilityID") by (try (apply mem_In; assumption); discriminate).
  destruct (selections_apart "FacilityID" (of_sheet s) n (regions_of (of_sheet s)) tables)
    as [H1 H2]; [discriminate | exact Hu | apply unique_distinct | exact Hall |].
  split; [now apply is_unique_distinct |].
  intros v Hv'. destruct (H2 v Hv') as (region & r & _ & Hr & ->).
  exists r. split; [| reflexivity]. unfold candidates in Hr. apply filter_In in Hr. apply Hr.
Qed.

Lemma no_location_is_selected_twice_witness :
  exists st' result,
    sampling_code.main "in/frame.csv" "out/locations.csv" 2 true (rerun None) = (Ok tt, st') /\
    find_file "out/locations.csv" (files (disk st'))
    = Some (table_file "out/locations.csv" result) /\
    is_unique (map (get "FacilityID") (rows result)) = true /\
    forall v, In v (map (get "FacilityID") (rows result)) ->
              exists r, In r (rows (of_sheet (to_sheet false example_frame))) /\
                        v = get "FacilityID" r.
Proof.
  apply (no_location_is_selected_twice (rerun None) "in/frame.csv" "out/locations.csv" 2 true
           (to_sheet false example_frame)); reflexivity.
Defined.

(** ** The sampling and the files *)

(** X17: [main] on an input that has its header and no row below it: the loop
    has no region to go through, [pd.concat] is given an empty list and
    raises [ValueError]; nothing is written. *)
Theorem empty_input_is_a_ValueError (st : State) (infile outfile : string) (n : Z)
    (force : bool) (s : sheet) :
  find_file infile (files (disk st)) =
  Some (if sampling_code.is_file_excel infile then Xlsx s else Csv s) ->
  mem "Region" (columns (of_sheet s)) = true ->
  body s = [] ->
  exists st',
    sampling_code.main infile outfile n force st = (Raise ValueError, st') /\
    disk st' = disk st.
Proof.
  intros Hfile MR Hbody. unfold sampling_code.main. cbn zeta.
  rewrite (bind_eq _ _ _ _ (load_df_run _ _ _ Hfile)). cbn beta iota.
  exec getitem_top. rewrite (getitem_mem _ _ MR).
  unfold of_sheet at 1. rewrite Hbody. cbn [map relabel relabel_from rows pd.unique].
  cbn [sampling_code.for_each_region]. unfold bind at 1, ret at 1.
  eexists. split; reflexivity.
Qed.

Lemma empty_input_is_a_ValueError_witness :
  exists st',
    sampling_code.main "in/frame.csv" "out/locations.csv" 5 false header_only
    = (Raise ValueError, st') /\
    disk st' = disk header_only.
Proof.
  apply (empty_input_is_a_ValueError header_only "in/frame.csv" "out/locations.csv" 5 false
           (mkSheet ["FacilityID"; "Region"; "Sum_Turnov"] [])); reflexivity.
Defined.

(** X18: Run as a script, the sampling names the right file when it refuses
    to overwrite: [args] is bound to the parsed arguments before [main]
    runs, so the message of the [FileExistsError] names the output file of
    the command line, which is the file [write_df] was about to write.
    Nothing is written. *)
Theorem script_names_the_file_it_refuses (st : State) (parsed : Namespace) (s : sheet) :
  find_file (ns_infile parsed) (files (disk st)) =
  Some (if sampling_code.is_file_excel (ns_infile parsed) then Xlsx s else Csv s) ->
  sampling_ready (of_sheet s) = true ->
  ns_force parsed = false ->
  is_file (disk st) (ns_outfile parsed) = true ->
  is_dir (disk st) (parent (ns_outfile parsed)) = true ->
  exists st',
    sampling_code.script parsed st =
    (Raise (FileExistsError (sampling_code.file_exists_message (ns_outfile parsed))), st') /\
    disk st' = disk st.
Proof.
  intros Hfile Hready Hforce Hthere Hparent.
  unfold sampling_code.script. unfold bind at 1. rewrite Hforce.
  destruct (sampling_value_ok (tape st) (drawn st) (of_sheet s) (ns_n_locations parsed) Hready)
    as (result & tables & Hv & _).
  destruct (sampling_main_run (set_args (Some parsed) st) (ns_infile parsed)
              (ns_outfile parsed) (ns_n_locations parsed) false s result Hfile Hv)
    as (ref & st1 & Hrun & Href & Hdisk & Hargs & _).
  rewrite Hrun. cbn [disk args set_args] in Hdisk, Hargs.
  rewrite (write_df_refuses_in_script ref parsed st1 Hargs) by now rewrite Hdisk.
  exists st1. split; [reflexivity | exact Hdisk].
Qed.

Lemma script_names_the_file_it_refuses_witness :
  exists st',
    sampling_code.script (mkNamespace "in/frame.csv" 2 "out/locations.csv" false) (rerun None) =
    (Raise (FileExistsError (sampling_code.file_exists_message "out/locations.csv")), st') /\
    disk st' = disk (rerun None).
Proof.
  apply (script_names_the_file_it_refuses (rerun None)
           (mkNamespace "in/frame.csv" 2 "out/locations.csv" false)
           (to_sheet false example_frame)); reflexivity.
Defined.

(** ** Directories *)

Lemma rfind_lt (c : ascii) (s : string) (i : nat) : rfind c s = Some i -> i < String.length s.
Proof.
  revert i. induction s as [| a s IH]; intros i; cbn [rfind String.length]; [discriminate |].
  destruct (rfind c s) as [j |].
  - intros H. injection H as <-. specialize (IH j eq_refl). lia.
  - destruct (Ascii.eqb a c); [| discriminate]. intros H. injection H as <-. lia.
Qed.

Lemma length_substring_0 (i : nat) (s : string) :
  i <= String.length s -> String.length (substring 0 i s) = i.
Proof.
  revert i. induction s as [| a s IH]; intros [| i] H; cbn in *; try reflexivity; try lia.
  rewrite IH; lia.
Qed.

(** A path is longer than the path of its directory, unless that is one
    of the two roots. *)
Lemma parent_shorter (d : string) :
  parent d = "." \/ parent d = "/" \/ String.length (parent d) < String.length d.
Proof.
  unfold parent. destruct (rfind "/" d) as [[| i] |] eqn:E; auto.
  right. right. apply rfind_lt in E. rewrite length_substring_0; lia.
Qed.

Lemma parent_of_root (d : string) : d = "." \/ d = "/" -> parent d = d.
Proof. intros [-> | ->]; reflexivity. Qed.

Lemma iter_parent_root (k : nat) (d : string) :
  d = "." \/ d = "/" -> Nat.iter k parent d = d.
Proof.
  intros H. induction k as [| k IH]; [reflexivity |].
  rewrite Nat.iter_succ, IH. now apply parent_of_root.
Qed.

(** With fuel for one step more than the path has characters,
    [ancestors] reaches the root: it lists the directory and every
    directory above it. *)
Lemma ancestors_complete (fuel : nat) :
  forall (d : string) (k : nat),
  String.length d < fuel ->
  let q := Nat.iter k parent d in
  q = "." \/ q = "/" \/ In q (ancestors fuel d).
Proof.
  induction fuel as [| fuel IH]; intros d k Hlen; [lia |].
  cbn zeta. cbn [ancestors].
  destruct (String.eqb d ".") eqn:E1.
  { apply String.eqb_eq in E1. rewrite iter_parent_root by auto. auto. }
  destruct (String.eqb d "/") eqn:E2.
  { apply String.eqb_eq in E2. rewrite iter_parent_root by auto. auto. }
  cbn [orb]. destruct k as [| k]; [cbn; auto |].
  rewrite Nat.iter_succ_r.
  destruct (parent_shorter d) as [H | [H | H]].
  - rewrite H, iter_parent_root by auto. auto.
  - rewrite H, iter_parent_root by auto. auto.
  - destruct (IH (parent d) k) as [G | [G | G]]; [lia | auto | auto |].
    right. right. now right.
Qed.

Lemma ancestors_are_parents (fuel : nat) (d q : string) :
  In q (ancestors fuel d) -> exists k, q = Nat.iter k parent d.
Proof.
  revert d. induction fuel as [| fuel IH]; intros d; cbn [ancestors]; [contradiction |].
  destruct (_ || _); [contradiction |].
  intros [<- | H]; [now exists 0 |].
  destruct (IH _ H) as (k & ->). exists (S k). now rewrite Nat.iter_succ_r.
Qed.

Lemma is_dir_root (fs : FS) (d : string) : d = "." \/ d = "/" -> is_dir fs d = true.
Proof. intros [-> | ->]; reflexivity. Qed.

(** X20: [write_df] creates the directory of the output file when it is not
    there, and the directories above it ([mkdir] with [parents=True]), and
    then writes the file: when no path from the directory upwards is a
    file, the call returns normally, the file is written, every directory
    from the directory of the file upwards exists, and the directories
    that were there still are. *)
Theorem write_df_creates_missing_directories (st : State) (df : ref) (d : DataFrame)
    (out_file : string) (overwrite : bool) :
  nth_error (heap st) df = Some d ->
  is_dir (disk st) (parent out_file) = false ->
  (forall k, is_file (disk st) (Nat.iter k parent (parent out_file)) = false) ->
  is_file (disk st) out_file = false ->
  is_dir (disk st) out_file = false ->
  exists st',
    sampling_code.write_df df out_file overwrite st = (Ok tt, st') /\
    find_file out_file (files (disk st')) = Some (table_file out_file d) /\
    (forall k, is_dir (disk st') (Nat.iter k parent (parent out_file)) = true) /\
    (forall q, is_dir (disk st) q = true -> is_dir (disk st') q = true).
Proof.
  intros Hd Hparent Hfiles Hfile Hdir.
  set (dir := parent out_file) in *.
  set (above := ancestors (S (String.length dir)) dir).
  set (fs1 := mkFS (files (disk st)) (above ++ dirs (disk st))).
  assert (H0 : is_file (disk st) dir = false) by exact (Hfiles 0).
  assert (Hmk : mkdir_parents dir st = (Ok tt, set_disk fs1 st)).
  { unfold mkdir_parents. rewrite H0, Hparent. cbn [orb].
    rewrite find_none; [reflexivity |].
    intros q Hq. apply ancestors_are_parents in Hq. destruct Hq as (k & ->). apply Hfiles. }
  assert (Hup : forall k, is_dir fs1 (Nat.iter k parent dir) = true).
  { intros k. destruct (ancestors_complete (S (String.length dir)) dir k) as [H | [H | H]];
      [lia | apply is_dir_root; auto | apply is_dir_root; auto |].
    unfold is_dir, fs1. cbn [dirs]. rewrite mem_app.
    fold above in H. apply mem_In in H. rewrite H. now rewrite !orb_true_r. }
  assert (Hup0 : is_dir fs1 dir = true) by exact (Hup 0).
  assert (Hold : forall q, is_dir (disk st) q = true -> is_dir fs1 q = true).
  { intros q. unfold is_dir, fs1. cbn [dirs]. rewrite mem_app.
    intros H. apply orb_true_iff in H. destruct H as [-> | ->]; [reflexivity |].
    now rewrite !orb_true_r. }
  assert (Hdir1 : is_dir fs1 out_file = false).
  { unfold is_dir in Hdir |- *. unfold fs1. cbn [dirs]. rewrite mem_app.
    apply orb_false_iff in Hdir. destruct Hdir as [Hroot Hmem].
    rewrite Hroot, Hmem, orb_false_r. cbn [orb].
    apply mem_false. intros Hin. apply ancestors_are_parents in Hin.
    destruct Hin as (k & Hk).
    assert (Hlen : String.length (Nat.iter k parent dir) <= String.length dir
                   \/ Nat.iter k parent dir = "." \/ Nat.iter k parent dir = "/").
    { clear. induction k as [| k IH]; [left; cbn; lia |].
      rewrite Nat.iter_succ.
      destruct IH as [IH | IH]; [| rewrite (parent_of_root _ IH); auto].
      destruct (parent_shorter (Nat.iter k parent dir)) as [H | [H | H]]; auto.
      left. lia. }
    rewrite <- Hk in Hlen. apply orb_false_iff in Hroot.
    destruct Hroot as [R1 R2]. apply String.eqb_neq in R1, R2.
    destruct Hlen as [Hlen | [Hlen | Hlen]]; try contradiction.
    destruct (parent_shorter out_file) as [H | [H | H]]; fold dir in H.
    - rewrite H in Hparent. discriminate Hparent.
    - rewrite H in Hparent. discriminate Hparent.
    - lia. }
  unfold sampling_code.write_df. fold dir.
  unfold bind at 1, path_exists at 1. rewrite H0, Hparent. cbn [orb negb].
  rewrite (bind_eq _ _ _ _ Hmk). cbn beta iota.
  unfold bind at 1, path_exists at 1. cbn [disk set_disk].
  change (is_file fs1 out_file) with (is_file (disk st) out_file).
  rewrite Hfile, Hdir1. cbn [orb andb].
  unfold bind at 1, ret at 1.
  exists (set_disk (write_file out_file (table_file out_file d) fs1) (set_disk fs1 st)).
  split.
  - unfold table_file.
    destruct (sampling_code.is_file_excel out_file) eqn:Ex;
      unfold to_excel, to_csv;
      (erewrite bind_eq by (apply deref_ok; cbn; exact Hd)); cbn beta iota;
      unfold write_to; cbn [disk set_disk]; fold dir; now rewrite Hdir1, Hup0.
  - cbn [disk set_disk]. split; [apply find_file_write_same |]. split.
    + intros k. exact (Hup k).
    + exact Hold.
Qed.

Lemma write_df_creates_missing_directories_witness :
  exists st',
    sampling_code.write_df 0 "out/2022/new/locations.csv" false bare = (Ok tt, st') /\
    find_file "out/2022/new/locations.csv" (files (disk st'))
    = Some (table_file "out/2022/new/locations.csv" example_frame) /\
    (forall k, is_dir (disk st') (Nat.iter k parent (parent "out/2022/new/locations.csv"))
               = true) /\
    (forall q, is_dir (disk bare) q = true -> is_dir (disk st') q = true).
Proof.
  apply (write_df_creates_missing_directories bare 0 example_frame
           "out/2022/new/locations.csv" false); reflexivity.
Defined.

(** ** Directories are made above the output file only *)

Lemma keeps_disk_makes_dirs {A} (d : string) (m : M A) :
  keeps_disk m -> makes_dirs_above d m.
Proof. intros H st p. rewrite H. auto. Qed.

Lemma makes_dirs_above_bind {A B} (d : string) (m : M A) (k : A -> M B) :
  makes_dirs_above d m -> (forall a, makes_dirs_above d (k a)) ->
  makes_dirs_above d (bind m k).
Proof.
  intros Hm Hk st p. unfold bind. specialize (Hm st).
  destruct (m st) as [[a | e] st1]; cbn [snd] in *; [| apply Hm].
  specialize (Hk a st1). split.
  - intros H. apply Hk. now apply Hm.
  - intros H. apply Hk in H. destruct H as [H | H]; [now apply Hm | now right].
Qed.

Lemma makes_dirs_above_write_to (d p : string) (f : file) :
  makes_dirs_above d (write_to p f).
Proof.
  intros st q. unfold write_to.
  destruct (is_dir (disk st) p); [cbn [snd]; auto |].
  destruct (negb _); cbn [snd disk set_disk]; auto.
Qed.

Lemma makes_dirs_above_mkdir_parents (d : string) : makes_dirs_above d (mkdir_parents d).
Proof.
  intros st p. unfold mkdir_parents.
  destruct (is_file (disk st) d || is_dir (disk st) d); [cbn [snd]; auto |].
  destruct (find _ _); cbn [snd disk set_disk]; [auto |].
  unfold is_dir. cbn [dirs]. rewrite mem_app. split.
  - intros H. apply orb_true_iff in H. destruct H as [-> | ->]; [reflexivity |].
    now rewrite !orb_true_r.
  - intros H. rewrite !orb_true_iff in H. rewrite !orb_true_iff.
    destruct H as [H | [H | H]]; [auto | | auto].
    right. apply mem_In in H. now apply ancestors_are_parents in H.
Qed.

Ltac dirs :=
  repeat first
    [ progress intros
    | apply makes_dirs_above_bind
    | match goal with
      | |- makes_dirs_above _ (if ?b then _ else _) => destruct b
      | |- makes_dirs_above _ (write_to _ _) => apply makes_dirs_above_write_to
      | |- makes_dirs_above _ (mkdir_parents _) => apply makes_dirs_above_mkdir_parents
      | |- makes_dirs_above _ _ => apply keeps_disk_makes_dirs; solve [auto with keeps]
      end ].

Lemma makes_dirs_above_write_df (df : ref) (out_file : string) (overwrite : bool) :
  makes_dirs_above (parent out_file) (sampling_code.write_df df out_file overwrite).
Proof. unfold sampling_code.write_df, to_excel, to_csv. dirs. Qed.

Lemma makes_dirs_above_sampling_main (infile outfile : string) (n : Z) (force : bool) :
  makes_dirs_above (parent outfile) (sampling_code.main infile outfile n force).
Proof.
  unfold sampling_code.main. cbn zeta.
  do 4 (apply makes_dirs_above_bind;
        [apply keeps_disk_makes_dirs; solve [keeps] |]; intros ?).
  apply makes_dirs_above_write_df.
Qed.

(** X19: The sampling writes its output file and no other: whatever the input
    and the outcome, every other path holds after the run the file it held
    before, or none.  Without [force] no file is changed at all: every
    file found before the run is found after it with the same content.
    No directory is removed, and a directory that is made is the directory
    of the output file or one above it. *)
Theorem sampling_spares_other_files (st : State) (infile outfile : string) (n : Z)
    (force : bool) :
  (forall path,
     path <> outfile ->
     find_file path (files (disk (snd (sampling_code.main infile outfile n force st)))) =
     find_file path (files (disk st)))
  /\
  (forall path f,
     force = false ->
     find_file path (files (disk st)) = Some f ->
     find_file path (files (disk (snd (sampling_code.main infile outfile n force st))))
     = Some f)
  /\
  (forall path,
     is_dir (disk st) path = true ->
     is_dir (disk (snd (sampling_code.main infile outfile n force st))) path = true)
  /\
  (forall path,
     is_dir (disk (snd (sampling_code.main infile outfile n force st))) path = true ->
     is_dir (disk st) path = true \/ exists k, path = Nat.iter k parent (parent outfile)).
Proof.
  split; [| split; [| split]].
  - intros path Hpath. apply writes_only_sampling_main. intros [H | []]. congruence.
  - intros path f -> Hf. now apply keeps_files_sampling_main.
  - intros path. apply makes_dirs_above_sampling_main.
  - intros path. apply makes_dirs_above_sampling_main.
Qed.

Lemma sampling_spares_other_files_witness :
  find_file "in/frame.csv"
    (files (disk (snd (sampling_code.main "in/frame.csv" "out/locations.csv" 2 true
                         (rerun None))))) =
  find_file "in/frame.csv" (files (disk (rerun None)))
  /\
  find_file "out/locations.csv"
    (files (disk (snd (sampling_code.main "in/frame.csv" "out/locations.csv" 2 false
                         (rerun None))))) =
  Some (Csv example_sheet)
  /\
  is_dir (disk (snd (sampling_code.main "in/frame.csv" "out/2022/new/locations.csv" 2 false
                       (rerun None)))) "in" = true
  /\
  (is_dir (disk (rerun None)) "out/2022" = true \/
   exists k, "out/2022" = Nat.iter k parent (parent "out/2022/new/locations.csv")).
Proof.
  split; [| split; [| split]].
  - apply (proj1 (sampling_spares_other_files (rerun None) "in/frame.csv" "out/locations.csv"
                    2 true)).
    discriminate.
  - apply (proj1 (proj2 (sampling_spares_other_files (rerun None) "in/frame.csv"
                           "out/locations.csv" 2 false))); reflexivity.
  - apply (proj1 (proj2 (proj2 (sampling_spares_other_files (rerun None) "in/frame.csv"
                                  "out/2022/new/locations.csv" 2 false)))).
    reflexivity.
  - apply (proj2 (proj2 (proj2 (sampling_spares_other_files (rerun None) "in/frame.csv"
                                  "out/2022/new/locations.csv" 2 false)))).
    vm_compute. reflexivity.
Defined.

(** ** The overwrite guard of the frame preparation *)

(** X21: [write_df_to_excel] on a path that holds a file: without [overwrite]
    it raises [FileExistsError] with a message that names the path and the
    remedy, and leaves everything as it was; with [overwrite] it replaces
    the file by the table, index included, and touches no other path. *)
Theorem write_df_to_excel_guards_existing_files (st : State) (df : ref) (d : DataFrame)
    (outfile : string) :
  nth_error (heap st) df = Some d ->
  is_file (disk st) outfile = true ->
  can_write (disk st) outfile true = true ->
  (preparing_sample_frame.write_df_to_excel df outfile false st =
   (Raise (FileExistsError
             ("The file " ++ outfile ++ " already exists and `overwrite` is False.
Either change the output filename or rerun with `overwrite` as True.")%string), st))
  /\
  exists st',
    preparing_sample_frame.write_df_to_excel df outfile true st = (Ok tt, st') /\
    find_file outfile (files (disk st')) = Some (Xlsx (to_sheet true d)) /\
    forall path, path <> outfile ->
                 find_file path (files (disk st')) = find_file path (files (disk st)).
Proof.
  intros Hd Hfile Hw. split.
  - apply write_df_to_excel_refuses. now rewrite Hfile.
  - rewrite (write_df_to_excel_run st df d outfile true Hd Hw).
    eexists. split; [reflexivity |]. cbn [disk set_disk].
    split; [apply find_file_write_same |].
    intros path Hpath. now apply find_file_write_other.
Qed.

Lemma write_df_to_excel_guards_existing_files_witness :
  (preparing_sample_frame.write_df_to_excel 0 example_infile false
     (mkState [example_merged] (disk first_run) None (fun _ => 0%float) 0) =
   (Raise (FileExistsError
             ("The file " ++ example_infile ++ " already exists and `overwrite` is False.
Either change the output filename or rerun with `overwrite` as True.")%string),
    mkState [example_merged] (disk first_run) None (fun _ => 0%float) 0))
  /\
  exists st',
    preparing_sample_frame.write_df_to_excel 0 example_infile true
      (mkState [example_merged] (disk first_run) None (fun _ => 0%float) 0) = (Ok tt, st') /\
    find_file example_infile (files (disk st')) = Some (Xlsx (to_sheet true example_merged)) /\
    forall path, path <> example_infile ->
                 find_file path (files (disk st')) = find_file path (files (disk first_run)).
Proof.
  apply (write_df_to_excel_guards_existing_files
           (mkState [example_merged] (disk first_run) None (fun _ => 0%float) 0)
           0 example_merged example_infile); reflexivity.
Defined.

(** ** Writing and loading by the suffix *)

(** X22: What [write_df] has written, [load_df] can read: both choose between
    spreadsheet and CSV by the suffix of the path, so the file is read by
    the reader of the format it was written in, and the table loaded has
    the column names of the table written.  (The table has a column, its
    column names differ from each other and none is empty: names of other
    kinds are renamed on reading.) *)
Theorem load_df_reads_what_write_df_wrote (st st' : State) (df : ref) (d : DataFrame)
    (out_file : string) (overwrite : bool) :
  nth_error (heap st) df = Some d ->
  columns d <> [] ->
  nodupb (columns d) = true ->
  mem "" (columns d) = false ->
  sampling_code.write_df df out_file overwrite st = (Ok tt, st') ->
  exists loaded st'' d',
    sampling_code.load_df out_file st' = (Ok loaded, st'') /\
    nth_error (heap st'') loaded = Some d' /\
    columns d' = columns d /\
    disk st'' = disk st'.
Proof.
  intros Hd _ Hnd Hempty Hw. apply write_df_inv in Hw. destruct Hw as (d0 & Hd0 & Hf).
  rewrite Hd in Hd0. injection Hd0 as <-.
  assert (Hfile : find_file out_file (files (disk st')) =
                  Some (if sampling_code.is_file_excel out_file
                        then Xlsx (to_sheet false d) else Csv (to_sheet false d))).
  { rewrite Hf. now destruct (sampling_code.is_file_excel out_file). }
  rewrite (load_df_run st' out_file (to_sheet false d) Hfile).
  do 3 eexists. split; [reflexivity |]. cbn [heap set_heap disk].
  split; [apply nth_error_snoc_new |]. split; [| reflexivity].
  cbn. now apply header_names_plain.
Qed.

Lemma load_df_reads_what_write_df_wrote_witness :
  exists loaded st'' d',
    sampling_code.load_df "out/locations.xlsx"
      (snd (sampling_code.write_df 0 "out/locations.xlsx" false bare)) = (Ok loaded, st'') /\
    nth_error (heap st'') loaded = Some d' /\
    columns d' = columns example_frame /\
    disk st'' = disk (snd (sampling_code.write_df 0 "out/locations.xlsx" false bare)).
Proof.
  apply (load_df_reads_what_write_df_wrote bare _ 0 example_frame "out/locations.xlsx" false);
    try reflexivity.
  discriminate.
Defined.

(** ** Which files count as spreadsheets *)

Lemma rfind_app (c : ascii) (a b : string) :
  rfind c (a ++ b) =
  match rfind c b with
  | Some i => Some (String.length a + i)
  | None => rfind c a
  end.
Proof.
  induction a as [| x a IH]; cbn [String.append rfind String.length].
  - now destruct (rfind c b).
  - rewrite IH. now destruct (rfind c b).
Qed.

Lemma substring_all (s : string) : substring 0 (String.length s) s = s.
Proof. induction s as [| a s IH]; cbn; [reflexivity | now rewrite IH]. Qed.

Lemma substring_app_r (a b : string) :
  substring (String.length a) (String.length b) (a ++ b) = b.
Proof. induction a as [| x a IH]; cbn; [apply substring_all | exact IH]. Qed.

Lemma substring_split (i : nat) (s : string) :
  i <= String.length s ->
  s = (substring 0 i s ++ substring i (String.length s - i) s)%string.
Proof.
  revert i. induction s as [| a s IH]; intros [| i] H; cbn in *; try reflexivity; try lia.
  - now rewrite substring_all.
  - f_equal. apply IH. lia.
Qed.

(** [path.suffix] is ["." ++ e] exactly when the name of the path is a
    stem that is not empty, followed by ["." ++ e]; [e] is not empty and
    has no dot. *)
Lemma suffix_spec (p e : string) :
  e <> "" -> rfind "." e = None ->
  suffix p = ("." ++ e)%string <->
  exists stem, stem <> "" /\ name p = (stem ++ "." ++ e)%string.
Proof.
  intros He Hdot. unfold suffix. set (n := name p). split.
  - destruct (rfind "." n) as [i |] eqn:E; [| discriminate].
    destruct ((0 <? i)%nat && (S i <? String.length n)%nat) eqn:C; [| discriminate].
    apply andb_true_iff in C. destruct C as [C1 C2].
    apply Nat.ltb_lt in C1, C2. intros H.
    exists (substring 0 i n). split.
    + intros Z. apply (f_equal String.length) in Z.
      rewrite length_substring_0 in Z by lia. cbn in Z. lia.
    + rewrite <- H. apply substring_split. lia.
  - intros (stem & Hstem & Hn). rewrite Hn.
    rewrite rfind_app. cbn [String.append rfind]. rewrite Hdot.
    change (Ascii.eqb "." ".") with true. cbv iota.
    rewrite Nat.add_0_r.
    assert (L1 : 0 < String.length stem) by (destruct stem; [congruence | cbn; lia]).
    assert (L2 : 0 < String.length e) by (destruct e; [congruence | cbn; lia]).
    rewrite length_append. cbn [String.length].
    replace (0 <? String.length stem)%nat with true by (symmetry; now apply Nat.ltb_lt).
    replace (S (String.length stem) <? String.length stem + S (String.length e))%nat
      with true by (symmetry; apply Nat.ltb_lt; lia).
    cbn [andb].
    replace (String.length stem + S (String.length e) - String.length stem)
      with (String.length (String "." e)) by (cbn; lia).
    apply (substring_app_r stem (String "." e)).
Qed.

(** X23: [is_file_excel] goes by the name of the file alone, and by its last
    extension: a path is taken for a spreadsheet exactly when its last
    component is a stem that is not empty, followed by ".xls" or ".xlsx"
    in lower case. *)
Theorem is_file_excel_by_name (p : string) :
  sampling_code.is_file_excel p = true <->
  exists stem,
    stem <> "" /\ (name p = (stem ++ ".xls")%string \/ name p = (stem ++ ".xlsx")%string).
Proof.
  unfold sampling_code.is_file_excel. cbn [existsb]. rewrite orb_false_r, orb_true_iff.
  rewrite !String.eqb_eq.
  rewrite (suffix_spec p "xls") by (discriminate || reflexivity).
  rewrite (suffix_spec p "xlsx") by (discriminate || reflexivity).
  split.
  - intros [(stem & H1 & H2) | (stem & H1 & H2)]; exists stem; auto.
  - intros (stem & H1 & [H2 | H2]); [left | right]; exists stem; auto.
Qed.

Lemma is_file_excel_by_name_witness :
  sampling_code.is_file_excel example_infile = true.
Proof.
  apply (proj2 (is_file_excel_by_name example_infile)).
  exists "SampleFrame2022". split; [discriminate | left; reflexivity].
Defined.

(** ** A FacilityID that is not unique *)

Lemma length_filter_map {A B} (f : B -> bool) (g : A -> B) (l : list A) :
  List.length (filter f (map g l)) = List.length (filter (fun x => f (g x)) l).
Proof.
  induction l as [| x l IH]; cbn; [reflexivity |].
  destruct (f (g x)); cbn; now rewrite IH.
Qed.

Lemma length_flat_map {A B} (f : A -> list B) (l : list A) :
  List.length (flat_map f l) = list_sum (map (fun x => List.length (f x)) l).
Proof.
  induction l as [| x l IH]; [reflexivity |].
  cbn [flat_map map]. rewrite length_app, IH. reflexivity.
Qed.

(** The number of rows of a left join: each left row counts once for each
    of its partners, and once when it has none. *)
Lemma merge_left_length (left right : DataFrame) (left_on right_on suffix : string) :
  mem right_on (columns right) = true ->
  mem left_on (columns left) = true ->
  has_text (map (get left_on) (rows left)) = has_text (map (get right_on) (rows right)) ->
  nodupb (columns left ++ map (pd.suffixed (columns left) suffix) (columns right)) = true ->
  exists m,
    pd.merge_left left right left_on right_on suffix = Ok m /\
    List.length (rows m) =
    list_sum (map (fun l =>
                     Nat.max 1 (List.length
                                  (filter (fun r => key_eqb (get left_on l) (get right_on r))
                                          (rows right))))
                  (rows left)).
Proof.
  intros Mr Ml Hk Hnd. unfold pd.merge_left.
  rewrite Mr, Ml, Hk, xorb_nilpotent, Hnd. cbn [negb].
  eexists. split; [reflexivity |]. cbn [rows]. unfold relabel.
  rewrite length_relabel, length_flat_map. f_equal. apply map_ext. intros l.
  destruct (filter _ (rows right)) as [| r partners]; [reflexivity |].
  rewrite length_map. cbn [List.length]. lia.
Qed.

(** X24: When a FacilityID is not unique, the first merge multiplies rows: a
    row whose Merge_ID is the FacilityID of several rows comes out once
    for each of them.  The merged table has, for each row of the input, as
    many rows as the row has partners, and one for a row without partner. *)
Theorem merge_repeats_a_row_for_each_partner (st : State) (df : ref) (d : DataFrame)
    (outfile : string) (overwrite : bool) :
  nth_error (heap st) df = Some d ->
  facility_merge_ready d = true ->
  can_write (disk st) outfile overwrite = true ->
  exists out st' m,
    preparing_sample_frame.merge_facility_ID df outfile overwrite st = (Ok out, st') /\
    nth_error (heap st') out = Some m /\
    List.length (rows m) =
    list_sum (map (fun r => Nat.max 1 (List.length (partners d r))) (rows d)).
Proof.
  intros Hd Hready Hw. unfold facility_merge_ready in Hready.
  cbn [forallb] in Hready. rewrite !andb_true_iff, !negb_true_iff in Hready.
  destruct Hready as
    [[[[Hwfb (M_LN & M_FID & M_MID & _)] (A_LNm & A_FIDm & A_MIDm & _)] N_FID] N_MID].
  pose proof (wfb_wf d Hwfb) as [Hnd Hrows].
  assert (Hpicked : forallb (fun c => mem c (columns d)) ["LocName"; "FacilityID"; "Merge_ID"]
                    = true)
    by (cbn [forallb]; now rewrite M_LN, M_FID, M_MID).
  pose proof (getitem_list_value _ d Hpicked) as Hright.
  set (right := mkDF _ _) in Hright.
  assert (Hkey : forall r, get "FacilityID"
                             (mkRow (label r)
                                (map (fun c => (c, get c r)) ["LocName"; "FacilityID"; "Merge_ID"]))
                           = get "FacilityID" r)
    by (intros r; reflexivity).
  assert (Hkeys : map (get "FacilityID") (rows right) = map (get "FacilityID") (rows d)).
  { unfold right. cbn [rows]. rewrite map_map. now apply map_ext. }
  destruct (merge_left_length d right "Merge_ID" "FacilityID" "_merge")
    as (merged & Hmerge & Hlen).
  { reflexivity. }
  { exact M_MID. }
  { now rewrite Hkeys, !numeric_has_text. }
  { unfold right. cbn [columns map]. rewrite !suffixed_present by assumption.
    cbn [String.append]. apply nodupb_NoDup.
    apply NoDup_app_disjoint; [assumption | now apply nodupb_NoDup |].
    intros x [<- | [<- | [<- | []]]]; now apply mem_false. }
  assert (Hv : exists m, merge_facility_ID_value d = Ok m /\
                         List.length (rows m) = List.length (rows merged)).
  { unfold merge_facility_ID_value. rewrite Hright. cbn [obind]. rewrite Hmerge. cbn [obind].
    rewrite drop_value.
    - eexists. split; [reflexivity |]. cbn [rows]. apply length_map.
    - rewrite (merge_left_columns _ _ _ _ _ _ Hmerge). unfold right. cbn [columns map forallb].
      rewrite !suffixed_present by assumption. rewrite mem_app, andb_true_r.
      apply orb_true_iff. right. reflexivity. }
  destruct Hv as (m & Hv & Hm).
  destruct (merge_facility_ID_run st df d m outfile overwrite Hd Hv Hw) as (st' & Hrun & Hout & _).
  exists (S (List.length (heap st))), st', m.
  split; [exact Hrun |]. split; [exact Hout |].
  rewrite Hm, Hlen. f_equal. apply map_ext. intros r. f_equal.
  unfold partners, right. cbn [rows]. now rewrite length_filter_map.
Qed.

Lemma merge_repeats_a_row_for_each_partner_witness :
  exists out st' m,
    preparing_sample_frame.merge_facility_ID 0 "frame/ID_Merge.xlsx" false
      (holding example_repeated) = (Ok out, st') /\
    nth_error (heap st') out = Some m /\
    List.length (rows m) =
    list_sum (map (fun r => Nat.max 1 (List.length (partners example_repeated r)))
                  (rows example_repeated)).
Proof.
  apply (merge_repeats_a_row_for_each_partner (holding example_repeated) 0 example_repeated
           "frame/ID_Merge.xlsx" false); reflexivity.
Defined.
